(** * JB4 log plotter: a shallow embedding of [jb4_log_plotter.py]

    The script is a linear pipeline: find the header row of a CSV log,
    read the table, resolve logical channel names to the column labels
    of the file, and drive a cursor that snaps to the nearest sample.

    Conventions of the embedding.
    - A text file is the list of its lines, terminators removed (what
      [for line in f] iterates over and what the CSV tokenizer splits).
    - Python exceptions are values of [exn]; a function that may raise
      returns a [result].
    - [float] values are idealised as exact rationals ([Q]); [NaN] is a
      separate constructor of [cell].  The nearest-sample lookup, whose
      result depends on how two differences are rounded, is given a
      second time over IEEE 754 binary64 values ([Float64]).
    - [pandas.read_csv], [pandas.to_numeric] and [numpy.searchsorted] are
      library code; they are embedded from their documented behaviour
      (see [read_csv], [to_numeric], [searchsorted]). *)

From Stdlib Require Import List Bool Arith Lia ZArith QArith Qabs Qround Lqa.
From Stdlib Require Import Sorted SpecFloat Qpower.
From Stdlib Require Import Ascii String.
Import ListNotations.

Local Close Scope Q_scope.
Local Open Scope string_scope.
Local Open Scope nat_scope.
Local Open Scope list_scope.

(** ** Exceptions and results *)

Inductive exn : Type :=
| ValueError (msg : string)
| KeyError (key : string)
| IndexError
| ParserError.

Inductive result (A : Type) : Type :=
| Ok (a : A)
| Raise (e : exn).
Arguments Ok {A} a.
Arguments Raise {A} e.

Definition bind {A B : Type} (r : result A) (k : A -> result B) : result B :=
  match r with
  | Ok a => k a
  | Raise e => Raise e
  end.

Notation "x <- r ;; k" := (bind r (fun x => k))
  (at level 61, r at next level, right associativity).

(** ** Python string helpers *)

Module PyStr.

(** The double quote character, and a string quoted with it. *)
Definition dq : string := String "034"%char EmptyString.
Definition quoted (s : string) : string := dq ++ s ++ dq.

(** [str.isspace] on the ASCII range: TAB, LF, VT, FF, CR, the four
    separators FS..US, and SPACE. *)
Definition is_space (c : ascii) : bool :=
  let n := nat_of_ascii c in
  ((9 <=? n)%nat && (n <=? 13)%nat) || ((28 <=? n)%nat && (n <=? 32)%nat).

(** [s.lstrip()] *)
Fixpoint lstrip (s : string) : string :=
  match s with
  | EmptyString => EmptyString
  | String c s' => if is_space c then lstrip s' else s
  end.

(** [s.rstrip()] *)
Fixpoint rstrip (s : string) : string :=
  match s with
  | EmptyString => EmptyString
  | String c s' =>
      match rstrip s' with
      | EmptyString => if is_space c then EmptyString else String c EmptyString
      | r => String c r
      end
  end.

(** [s.strip()] *)
Definition strip (s : string) : string := rstrip (lstrip s).

(** [s.startswith(p)] *)
Definition startswith (s p : string) : bool := String.prefix p s.

(** [re.sub(r"\s+", " ", s)]: every maximal run of whitespace becomes
    one space.  [in_run] tells whether the previous character was
    whitespace. *)
Fixpoint collapse_ws (in_run : bool) (s : string) : string :=
  match s with
  | EmptyString => EmptyString
  | String c s' =>
      if is_space c
      then (if in_run then collapse_ws true s'
            else String " "%char (collapse_ws true s'))
      else String c (collapse_ws false s')
  end.

(** [needle in hay] *)
Fixpoint contains (hay needle : string) : bool :=
  String.prefix needle hay
  || match hay with
     | EmptyString => false
     | String _ hay' => contains hay' needle
     end.

(** [sep.join(parts)] *)
Fixpoint join (sep : string) (parts : list string) : string :=
  match parts with
  | [] => EmptyString
  | [p] => p
  | p :: ps => p ++ sep ++ join sep ps
  end.

Definition has_char (c : ascii) (s : string) : bool :=
  contains s (String c EmptyString).

Definition hex_digit (n : nat) : ascii :=
  if (n <? 10)%nat then ascii_of_nat (48 + n) else ascii_of_nat (87 + n).

(** One character of [repr(s)] under quote character [q]. *)
Definition repr_char (q c : ascii) : string :=
  let n := nat_of_ascii c in
  if Ascii.eqb c "\"%char then "\\"
  else if Ascii.eqb c q then String "\"%char (String c EmptyString)
  else if (n =? 10)%nat then "\n"
  else if (n =? 13)%nat then "\r"
  else if (n =? 9)%nat then "\t"
  else if (n <? 32)%nat || (n =? 127)%nat
       then "\x" ++ String (hex_digit (n / 16)) (String (hex_digit (n mod 16)) EmptyString)
  else String c EmptyString.

Fixpoint repr_body (q : ascii) (s : string) : string :=
  match s with
  | EmptyString => EmptyString
  | String c s' => repr_char q c ++ repr_body q s'
  end.

(** [repr(s)] for a [str]: single quotes, unless the string holds a
    single quote and no double quote. *)
Definition repr (s : string) : string :=
  let q := if has_char "'"%char s && negb (has_char "034"%char s)
           then "034"%char else "'"%char in
  String q (repr_body q s ++ String q EmptyString).

(** [repr(l)] for a list of [str]. *)
Definition repr_list (l : list string) : string :=
  "[" ++ join ", " (map repr l) ++ "]".

(** [s.split(",")] *)
Fixpoint split_comma (s : string) : list string :=
  match s with
  | EmptyString => [EmptyString]
  | String c s' =>
      if Ascii.eqb c ","%char then EmptyString :: split_comma s'
      else match split_comma s' with
           | [] => [String c EmptyString]
           | f :: fs => String c f :: fs
           end
  end.

End PyStr.

(** ** Files *)

Record csv_file : Type := {
  path : string;
  lines : list string
}.

(** ** [find_header_line] (source lines 108-128)

    [enumerate(f)] is unfolded into the running index [i]. *)

Fixpoint scan_header (header_startswith : string) (i : nat) (ls : list string)
  : option nat :=
  match ls with
  | [] => None
  | line :: rest =>
      if PyStr.startswith (PyStr.lstrip line) header_startswith then Some i
      else scan_header header_startswith (S i) rest
  end.

Definition header_not_found (header_startswith csv_path : string) : string :=
  "Could not find a header line starting with "
    ++ PyStr.quoted header_startswith ++ " in " ++ csv_path.

Definition find_header_line (f : csv_file) (header_startswith : string)
  : result nat :=
  match scan_header header_startswith 0 (lines f) with
  | Some i => Ok i
  | None => Raise (ValueError (header_not_found header_startswith (path f)))
  end.

(** ** Tables

    A cell of a [DataFrame] is text as read from the file, a number, or
    the missing value [NaN].  Rows are kept in file order; the position of
    a row in [rows] is its index after [reset_index(drop=True)]. *)

Inductive cell : Type :=
| Text (s : string)
| Num (q : Q)
| NaN.

Definition row : Type := list cell.

Record DataFrame : Type := {
  columns : list string;
  rows : list row
}.

Definition is_nan (c : cell) : bool :=
  match c with
  | NaN => true
  | _ => false
  end.

Fixpoint index_of (name : string) (cols : list string) : option nat :=
  match cols with
  | [] => None
  | c :: cs =>
      if String.eqb c name then Some 0
      else option_map S (index_of name cs)
  end.

(** [name in df.columns] *)
Definition has_column (cols : list string) (name : string) : bool :=
  existsb (String.eqb name) cols.

Fixpoint replace_at (j : nat) (v : cell) (r : row) : row :=
  match r, j with
  | [], _ => []
  | _ :: r', O => v :: r'
  | c :: r', S j' => c :: replace_at j' v r'
  end.

Definition zip_with {A B C : Type} (f : A -> B -> C) (l : list A) (m : list B)
  : list C :=
  map (fun p => f (fst p) (snd p)) (combine l m).

(** [df[name]]: the first column carrying the label. *)
Definition get_column (df : DataFrame) (name : string) : result (list cell) :=
  match index_of name (columns df) with
  | Some j => Ok (map (fun r => nth j r NaN) (rows df))
  | None => Raise (KeyError name)
  end.

(** [df[name] = vals] *)
Definition set_column (df : DataFrame) (name : string) (vals : list cell)
  : DataFrame :=
  match index_of name (columns df) with
  | Some j =>
      {| columns := columns df;
         rows := zip_with (fun r v => replace_at j v r) (rows df) vals |}
  | None =>
      {| columns := (columns df ++ [name])%list;
         rows := zip_with (fun r v => (r ++ [v])%list) (rows df) vals |}
  end.

(** [df.dropna(subset=[name]).reset_index(drop=True)] *)
Definition dropna (df : DataFrame) (name : string) : result DataFrame :=
  match index_of name (columns df) with
  | Some j =>
      Ok {| columns := columns df;
            rows := filter (fun r => negb (is_nan (nth j r NaN))) (rows df) |}
  | None => Raise (KeyError name)
  end.

(** ** [pandas.read_csv(csv_path, header=k)]

    Embedded from the pandas documentation of [header] and
    [skip_blank_lines] (default [True]): blank lines are skipped before
    rows are counted, so [header=k] selects the k-th non-blank line; the
    lines before it are discarded; the remaining non-blank lines are the
    data rows.  A line is blank when it holds only spaces and tabs.  An
    empty field is the missing value; a short row is padded with missing
    values; a row with more fields than the header is a tokenizing error.
    Quoting, the decoding of the bytes (a byte sequence that is not
    UTF-8 makes [pandas] raise [UnicodeDecodeError]), the renaming of
    repeated or empty labels ([RPM.1], [Unnamed: 2]), the index that
    [pandas] builds from a first data row wider than the header and the
    inference of column types are not part of the embedding: cells stay
    [Text] until [to_numeric] is applied.  Properties that start from
    the lines of a file are stated for files inside this domain (see
    [plain_text] and [kept_labels]). *)

Fixpoint is_blank_line (l : string) : bool :=
  match l with
  | EmptyString => true
  | String c l' =>
      (Ascii.eqb c " "%char || Ascii.eqb c "009"%char) && is_blank_line l'
  end.

Definition parse_field (s : string) : cell :=
  if String.eqb s EmptyString then NaN else Text s.

Definition parse_row (l : string) : row :=
  map parse_field (PyStr.split_comma l).

Definition pad_row (n : nat) (r : row) : row :=
  (r ++ repeat NaN (n - List.length r))%list.

Definition records (f : csv_file) : list string :=
  filter (fun l => negb (is_blank_line l)) (lines f).

Definition read_csv (f : csv_file) (header : nat) : result DataFrame :=
  match skipn header (records f) with
  | [] => Raise ParserError
  | h :: body =>
      let names := PyStr.split_comma h in
      let data := map parse_row body in
      if forallb (fun r => (List.length r <=? List.length names)%nat) data
      then Ok {| columns := names;
                 rows := map (pad_row (List.length names)) data |}
      else Raise ParserError
  end.

(** ** [read_jb4_csv] (source lines 131-166) *)

(** [.str.strip().str.replace(r"\s+", " ", regex=True)] on one label. *)
Definition clean_label (s : string) : string :=
  PyStr.collapse_ws false (PyStr.strip s).

Definition timestamp_missing (cols : list string) : string :=
  "Expected a " ++ PyStr.quoted "timestamp" ++ " column, found: "
    ++ PyStr.repr_list cols.

Section Coercion.

(** The conversion of one text field to a float, as [pandas.to_numeric]
    performs it; [None] when the text is not a number. *)
Variable float_of_str : string -> option Q.

Definition to_numeric_cell (c : cell) : cell :=
  match c with
  | Text s =>
      match float_of_str s with
      | Some q => Num q
      | None => NaN
      end
  | Num q => Num q
  | NaN => NaN
  end.

(** [pd.to_numeric(series, errors="coerce")] *)
Definition to_numeric (series : list cell) : list cell :=
  map to_numeric_cell series.

Definition read_jb4_csv (f : csv_file) : result DataFrame :=
  header_line <- find_header_line f "timestamp" ;;
  df <- read_csv f header_line ;;
  let df := {| columns := map clean_label (columns df); rows := rows df |} in
  if negb (has_column (columns df) "timestamp")
  then Raise (ValueError (timestamp_missing (columns df)))
  else
    ts <- get_column df "timestamp" ;;
    let df := set_column df "timestamp" (to_numeric ts) in
    dropna df "timestamp".

End Coercion.

(** ** Decimal literals

    The instance of [float_of_str] used in the examples: blanks, an
    optional sign, digits with an optional fraction, an optional decimal
    exponent.  The spellings of infinity and NaN have no value in [Q]
    and are not literals here. *)

Module Decimal.

Definition is_digit (c : ascii) : bool :=
  let n := nat_of_ascii c in (48 <=? n)%nat && (n <=? 57)%nat.

Definition digit_val (c : ascii) : Z := Z.of_nat (nat_of_ascii c - 48).

(** The longest prefix of digits, and what follows it. *)
Fixpoint span_digits (s : string) : list ascii * string :=
  match s with
  | EmptyString => ([], EmptyString)
  | String c s' =>
      if is_digit c
      then let (ds, rest) := span_digits s' in (c :: ds, rest)
      else ([], s)
  end.

Definition digits_val (ds : list ascii) : Z :=
  fold_left (fun acc c => 10 * acc + digit_val c)%Z ds 0%Z.

Definition parse_sign (s : string) : bool * string :=
  match s with
  | String "-"%char s' => (true, s')
  | String "+"%char s' => (false, s')
  | _ => (false, s)
  end.

Definition parse_exponent (s : string) : option Z :=
  match s with
  | EmptyString => Some 0%Z
  | String c s' =>
      if Ascii.eqb c "e"%char || Ascii.eqb c "E"%char
      then let (neg, s1) := parse_sign s' in
           match span_digits s1 with
           | (d :: ds, EmptyString) =>
               let e := digits_val (d :: ds) in
               Some (if neg then (- e)%Z else e)
           | _ => None
           end
      else None
  end.

(** C [isspace]: TAB..CR and SPACE. *)
Definition is_c_space (c : ascii) : bool :=
  let n := nat_of_ascii c in
  ((9 <=? n)%nat && (n <=? 13)%nat) || (n =? 32)%nat.

Fixpoint skip_spaces (s : string) : string :=
  match s with
  | EmptyString => EmptyString
  | String c s' => if is_c_space c then skip_spaces s' else s
  end.

Fixpoint all_spaces (s : string) : bool :=
  match s with
  | EmptyString => true
  | String c s' => is_c_space c && all_spaces s'
  end.

(** Trailing blanks removed. *)
Fixpoint rstrip_spaces (s : string) : string :=
  match s with
  | EmptyString => EmptyString
  | String c s' => if all_spaces s then EmptyString else String c (rstrip_spaces s')
  end.

Definition parse_float (s : string) : option Q :=
  let (neg, s1) := parse_sign (skip_spaces s) in
  let (ip, s2) := span_digits s1 in
  let (fp, s3) :=
    match s2 with
    | String "."%char r => span_digits r
    | _ => ([], s2)
    end in
  if (List.length ip + List.length fp =? 0)%nat then None
  else
    match parse_exponent (rstrip_spaces s3) with
    | Some e =>
        let mant :=
          (inject_Z (digits_val (ip ++ fp))
           / inject_Z (10 ^ Z.of_nat (List.length fp)))%Q in
        let v := (mant * Qpower (inject_Z 10) e)%Q in
        Some (if neg then (- v)%Q else v)
    | None => None
    end.

End Decimal.

(** ** [resolve_columns] (source lines 169-211)

    The [dict] is an association list in insertion order, which is the
    order [mapping.items()] iterates in. *)

Definition dict : Type := list (string * string).

(** [d[k] = v] *)
Fixpoint dict_set (d : dict) (k v : string) : dict :=
  match d with
  | [] => [(k, v)]
  | (k', v') :: d' =>
      if String.eqb k' k then (k', v) :: d' else (k', v') :: dict_set d' k v
  end.

(** [d.get(k, default)] *)
Fixpoint dict_get (d : dict) (k default : string) : string :=
  match d with
  | [] => default
  | (k', v') :: d' => if String.eqb k' k then v' else dict_get d' k default
  end.

(** [sorted(set(cols))]: the distinct labels in code point order. *)
Fixpoint insert_sorted (s : string) (l : list string) : list string :=
  match l with
  | [] => [s]
  | x :: l' =>
      if String.eqb s x then l
      else if String.ltb s x then s :: l
      else x :: insert_sorted s l'
  end.

Definition sorted_set (cols : list string) : list string :=
  fold_right insert_sorted [] cols.

Definition newline : string := String "010"%char EmptyString.

Definition boost_not_found : string :=
  "Could not find " ++ PyStr.quoted "Boost" ++ " or "
    ++ PyStr.quoted "ECU Boost" ++ " column.".

Definition speed_not_found : string :=
  "Could not find " ++ PyStr.quoted "Speed" ++ " or "
    ++ PyStr.quoted "GPS Speed" ++ " column.".

Definition missing_required (missing available : list string) : string :=
  "Missing required columns: " ++ PyStr.repr_list missing ++ newline
    ++ "Available: " ++ PyStr.repr_list (sorted_set available).

Definition resolve_columns (df : DataFrame) : result dict :=
  let available := columns df in
  let mapping : dict :=
    [("RPM", "RPM"); ("Pedal", "Pedal"); ("Throttle", "Throttle");
     ("AFR", "AFR"); ("IAT", "IAT")] in
  mapping <- (if has_column available "Boost"
              then Ok (dict_set mapping "Boost" "Boost")
              else if has_column available "ECU Boost"
              then Ok (dict_set mapping "Boost" "ECU Boost")
              else Raise (ValueError boost_not_found)) ;;
  mapping <- (if has_column available "Speed"
              then Ok (dict_set mapping "Speed" "Speed")
              else if has_column available "GPS Speed"
              then Ok (dict_set mapping "Speed" "GPS Speed")
              else Raise (ValueError speed_not_found)) ;;
  let missing :=
    map fst (filter (fun kv => negb (has_column available (snd kv))) mapping) in
  match missing with
  | [] => Ok mapping
  | _ :: _ => Raise (ValueError (missing_required missing available))
  end.

(** ** [nearest_index] (source lines 217-237) *)

Definition Qltb (a b : Q) : bool :=
  match (a ?= b)%Q with
  | Lt => true
  | _ => false
  end.

(** [numpy.searchsorted(a, v)] with the default [side="left"]: the
    library's binary search.  The loop runs while [lo < hi]; the width
    [hi - lo] at least halves at every turn, so [length a] turns of
    [fuel] are never used up before the loop ends. *)
Fixpoint bisect_left (fuel : nat) (a : list Q) (v : Q) (lo hi : nat) : nat :=
  match fuel with
  | O => lo
  | S fuel' =>
      if (lo <? hi)%nat then
        let mid := lo + (hi - lo) / 2 in
        if Qltb (nth mid a 0%Q) v
        then bisect_left fuel' a v (S mid) hi
        else bisect_left fuel' a v lo mid
      else lo
  end.

Definition searchsorted (a : list Q) (v : Q) : nat :=
  bisect_left (List.length a) a v 0 (List.length a).

(** [a[i]] for an integer index: negative indices count from the end,
    an index outside the array raises [IndexError]. *)
Definition getitem {A : Type} (a : list A) (i : Z) : result A :=
  let n := Z.of_nat (List.length a) in
  let k := if (i <? 0)%Z then (i + n)%Z else i in
  if (k <? 0)%Z then Raise IndexError
  else match nth_error a (Z.to_nat k) with
       | Some x => Ok x
       | None => Raise IndexError
       end.

Definition nearest_index (x : Q) (x_arr : list Q) : result Z :=
  let i := Z.of_nat (searchsorted x_arr x) in
  let len := Z.of_nat (List.length x_arr) in
  if (i <=? 0)%Z then Ok 0%Z
  else if (i >=? len)%Z then Ok (len - 1)%Z
  else
    hi <- getitem x_arr i ;;
    lo <- getitem x_arr (i - 1) ;;
    Ok (if Qltb (hi - x) (x - lo) then i else (i - 1)%Z).

(** ** Cursor readout (source lines 468-471, repeated at 494-497 and
    517-520) *)

(** [round(y)]: to the nearest integer, a tie to the even one. *)
Definition round_half_even (q : Q) : Z :=
  let f := Qfloor q in
  let r := (q - inject_Z f)%Q in
  match (r ?= 1 # 2)%Q with
  | Lt => f
  | Gt => (f + 1)%Z
  | Eq => if Z.even f then f else (f + 1)%Z
  end.

Definition digit_char (d : Z) : ascii := ascii_of_nat (48 + Z.to_nat d).

(** The decimal digits of a natural number, most significant first. *)
Fixpoint digits_fuel (fuel : nat) (n : Z) (acc : string) : string :=
  match fuel with
  | O => acc
  | S fuel' =>
      let acc' := String (digit_char (n mod 10)) acc in
      if (n <? 10)%Z then acc' else digits_fuel fuel' (n / 10) acc'
  end.

Definition str_nat (n : Z) : string :=
  digits_fuel (S (Z.to_nat (Z.log2 n))) n EmptyString.

(** [str(n)] for an [int]. *)
Definition str_int (n : Z) : string :=
  if (n <? 0)%Z then "-" ++ str_nat (- n) else str_nat n.

(** [f"{q:.2f}"]: sign, integer part, point, two digits; the value is
    rounded to the nearest hundredth, a tie to the even one. *)
Definition format_2f (q : Q) : string :=
  let n := round_half_even (Qabs q * 100)%Q in
  (if Qltb q 0 then "-" else "")
    ++ str_nat (n / 100) ++ "."
    ++ String (digit_char (n / 10 mod 10)) (String (digit_char (n mod 10)) EmptyString).

Definition tolerance : Q := (1 # 1000000000)%Q.

(** The value part of the readout; [None] is a NaN sample, which is
    not finite and prints as [nan]. *)
Definition format_value (y_val : option Q) : string :=
  match y_val with
  | Some y =>
      if Qltb (Qabs (y - inject_Z (round_half_even y))) tolerance
      then str_int (round_half_even y)
      else format_2f y
  | None => "nan"
  end.

(** [f"{friendly_name}: ..."] *)
Definition readout (friendly_name : string) (y_val : option Q) : string :=
  friendly_name ++ ": " ++ format_value y_val.

(** ** Plot configuration and the data path of [main]
    (source lines 47-54 and 243-317)

    The calls that only draw are left out; every access to the table is
    kept, in the order the script performs it. *)

Definition degree_F : string :=
  String "195"%char (String "130"%char (String "194"%char
    (String "176"%char "F"))).

Definition PLOTS : list (string * string * (Z * Z)) :=
  [ ("RPM", "RPM", (0, 7000)%Z);
    ("Boost", "Boost (psi)", (0, 25)%Z);
    ("Pedal", "Pedal / Throttle (%)", (0, 110)%Z);
    ("AFR", "AFR", (10, 22)%Z);
    ("IAT", ("IAT (" ++ degree_F ++ ")")%string, (0, 160)%Z);
    ("Speed", "Speed (mph)", (0, 120)%Z) ].

Record plot_state : Type := {
  y_series : list (list cell);
  boost_ax_index : option nat;
  boost_extra_series : list (string * list cell);
  pedal_ax_index : option nat;
  pedal_extra_series : list (string * list cell)
}.

Definition no_data : string := "No data rows found after parsing CSV.".

Section Plotting.

Variable float_of_str : string -> option Q.

(** [pd.to_numeric(df[col], errors="coerce").to_numpy(dtype=float)] *)
Definition numeric_column (df : DataFrame) (col : string)
  : result (list cell) :=
  s <- get_column df col ;;
  Ok (to_numeric float_of_str s).

(** One turn of the loop over [PLOTS]. *)
Definition plot_channel (df : DataFrame) (colmap : dict) (st : plot_state)
  (ax_i : nat) (friendly_name : string) : result plot_state :=
  let col := dict_get colmap friendly_name friendly_name in
  y <- numeric_column df col ;;
  let ys := (y_series st ++ [y])%list in
  if String.eqb friendly_name "Boost" then
    y_boost2 <- numeric_column df "Boost2" ;;
    y_target <- numeric_column df "Target" ;;
    Ok {| y_series := ys;
          boost_ax_index := Some ax_i;
          boost_extra_series :=
            (boost_extra_series st
               ++ [("Boost2", y_boost2); ("Target", y_target)])%list;
          pedal_ax_index := pedal_ax_index st;
          pedal_extra_series := pedal_extra_series st |}
  else if String.eqb friendly_name "Pedal" then
    y_throttle <- numeric_column df "Throttle" ;;
    Ok {| y_series := ys;
          boost_ax_index := boost_ax_index st;
          boost_extra_series := boost_extra_series st;
          pedal_ax_index := Some ax_i;
          pedal_extra_series :=
            (pedal_extra_series st ++ [("Throttle", y_throttle)])%list |}
  else
    Ok {| y_series := ys;
          boost_ax_index := boost_ax_index st;
          boost_extra_series := boost_extra_series st;
          pedal_ax_index := pedal_ax_index st;
          pedal_extra_series := pedal_extra_series st |}.

Fixpoint plot_loop (df : DataFrame) (colmap : dict) (st : plot_state)
  (ax_i : nat) (plots : list (string * string * (Z * Z)))
  : result plot_state :=
  match plots with
  | [] => Ok st
  | (friendly_name, _, _) :: rest =>
      st' <- plot_channel df colmap st ax_i friendly_name ;;
      plot_loop df colmap st' (S ax_i) rest
  end.

(** [main] from [resolve_columns] to the end of the loop over [PLOTS]
    (source lines 252-317): the time axis and the series to plot. *)
Definition plot_table (df : DataFrame) : result (list cell * plot_state) :=
  colmap <- resolve_columns df ;;
  t <- get_column df "timestamp" ;;
  if (List.length t =? 0)%nat then Raise (ValueError no_data)
  else
    st <- plot_loop df colmap
            {| y_series := []; boost_ax_index := None;
               boost_extra_series := []; pedal_ax_index := None;
               pedal_extra_series := [] |} 0 PLOTS ;;
    Ok (t, st).

(** [main] on the file the dialog returned. *)
Definition main (f : csv_file) : result (list cell * plot_state) :=
  df <- read_jb4_csv float_of_str f ;;
  plot_table df.

End Plotting.

(** ** The cursor callback [on_move] (source lines 411-530)

    The callback owns a two-state cursor.  Only what the readouts depend
    on is kept: the snapped index and the label texts. *)

Definition float_of_cell (c : cell) : option Q :=
  match c with
  | Num q => Some q
  | _ => None
  end.

(** The time axis as an array of floats. *)
Definition time_axis (t : list cell) : list Q :=
  flat_map (fun c => match c with Num q => [q] | _ => [] end) t.

Inductive cursor : Type :=
| Hidden
| Shown (idx : Z) (labels boost_labels pedal_labels : list string).

Fixpoint series_labels (idx : Z) (series : list (string * list cell))
  : result (list string) :=
  match series with
  | [] => Ok []
  | (name, y_arr) :: rest =>
      y_val <- getitem y_arr idx ;;
      labels <- series_labels idx rest ;;
      Ok (readout name (float_of_cell y_val) :: labels)
  end.

Definition on_move (t : list Q) (st : plot_state) (xdata : option Q)
  (prev : cursor) : result cursor :=
  match xdata with
  | None => Ok prev
  | Some x =>
      t_first <- getitem t 0 ;;
      t_last <- getitem t (-1) ;;
      if Qltb x t_first || Qltb t_last x then Ok Hidden
      else
        idx <- nearest_index x t ;;
        _ <- getitem t idx ;;
        labels <- series_labels idx
                    (combine (map (fun p => fst (fst p)) PLOTS) (y_series st)) ;;
        boost_labels <-
          match boost_ax_index st with
          | Some _ => series_labels idx (boost_extra_series st)
          | None => Ok []
          end ;;
        pedal_labels <-
          match pedal_ax_index st with
          | Some _ => series_labels idx (pedal_extra_series st)
          | None => Ok []
          end ;;
        Ok (Shown idx labels boost_labels pedal_labels)
  end.

Definition on_leave (prev : cursor) : cursor := Hidden.

(** ** [nearest_index] in float64 arithmetic (source lines 217-237)

    [nearest_index] once more, with the array and the query as IEEE 754
    binary64 values ([spec_float] at precision 53 and maximal exponent
    1024): the two differences of [(x_arr[i] - x) < (x - x_arr[i - 1])]
    are rounded to nearest, ties to even, as the machine rounds them,
    and the comparisons are those of the floats. *)

Module Float64.

Definition f64 : Type := spec_float.

Definition prec : Z := 53.
Definition emax : Z := 1024.

Definition sub (a b : f64) : f64 := SFsub prec emax a b.
Definition ltb (a b : f64) : bool := SFltb a b.
Definition leb (a b : f64) : bool := SFleb a b.

Definition is_nan (a : f64) : bool :=
  match a with
  | S754_nan => true
  | _ => false
  end.

(** The float nearest to an integer. *)
Definition of_Z (n : Z) : f64 := binary_normalize prec emax n 0 false.

(** The float nearest to the decimal [m / 10^k]; the quotient of two
    exact floats, for [|m| < 2^53] and [k <= 22]. *)
Definition of_decimal (m : Z) (k : nat) : f64 :=
  SFdiv prec emax (of_Z m) (of_Z (10 ^ Z.of_nat k)).

Definition pow2 (e : Z) : Q := Qpower (inject_Z 2) e.

(** The exact value of a finite float, [+-m * 2^e]; 0 for the others. *)
Definition value (a : f64) : Q :=
  match a with
  | S754_finite s m e =>
      ((if s then - inject_Z (Zpos m) else inject_Z (Zpos m)) * pow2 e)%Q
  | _ => 0%Q
  end.

(** A finite number of the format: a zero, or a mantissa and an
    exponent in the canonical form of binary64. *)
Definition is_float64 (a : f64) : bool :=
  match a with
  | S754_zero _ => true
  | S754_finite _ m e => bounded prec emax m e
  | _ => false
  end.

(** The order [numpy] sorts and searches floats by: [a < b], with NaN
    after every number. *)
Definition np_less (a b : f64) : bool :=
  ltb a b || (is_nan b && negb (is_nan a)).

(** [numpy.searchsorted(a, v)], [side="left"]: binary search. *)
Fixpoint bisect_left (fuel : nat) (a : list f64) (v : f64) (lo hi : nat) : nat :=
  match fuel with
  | O => lo
  | S fuel' =>
      if (lo <? hi)%nat then
        let mid := lo + (hi - lo) / 2 in
        if np_less (nth mid a S754_nan) v
        then bisect_left fuel' a v (S mid) hi
        else bisect_left fuel' a v lo mid
      else lo
  end.

Definition searchsorted (a : list f64) (v : f64) : nat :=
  bisect_left (List.length a) a v 0 (List.length a).

Definition nearest_index (x : f64) (x_arr : list f64) : result Z :=
  let i := Z.of_nat (searchsorted x_arr x) in
  let len := Z.of_nat (List.length x_arr) in
  if (i <=? 0)%Z then Ok 0%Z
  else if (i >=? len)%Z then Ok (len - 1)%Z
  else
    hi <- getitem x_arr i ;;
    lo <- getitem x_arr (i - 1) ;;
    Ok (if ltb (sub hi x) (sub x lo) then i else (i - 1)%Z).

(** Sorted ascending by the order of the floats; no NaN can sit next to
    another element. *)
Definition ascending (a : list f64) : Prop :=
  Sorted (fun p q => leb p q = true) a.

End Float64.

(** ** Vocabulary of the properties *)

(** A sorted ascending array; equal neighbours are allowed. *)
Definition ascending (a : list Q) : Prop := Sorted Qle a.

(** A sorted array without repeated values. *)
Definition strictly_ascending (a : list Q) : Prop := Sorted Qlt a.

(** The cell of row [r] in column [j]; a row too short has none. *)
Definition time_cell (j : nat) (r : row) : cell := nth j r NaN.

Section CoercionVocabulary.

Variable float_of_str : string -> option Q.

(** The cell passes numeric coercion: [to_numeric] does not turn it
    into NaN. *)
Definition coercible (c : cell) : bool :=
  negb (is_nan (to_numeric_cell float_of_str c)).

(** Row [r] with the cell of column [j] coerced, the rest untouched. *)
Definition coerce_time (j : nat) (r : row) : row :=
  replace_at j (to_numeric_cell float_of_str (time_cell j r)) r.

End CoercionVocabulary.


(** The time values of a table that pass coercion, in row order. *)
Definition parsed_times (float_of_str : string -> option Q) (j : nat)
  (rs : list row) : list Q :=
  time_axis (to_numeric float_of_str (map (time_cell j) rs)).

(** A character that [read_csv] takes as it stands: printable ASCII or
    a tab, and not the quote character. *)
Definition plain_char (c : ascii) : bool :=
  let n := nat_of_ascii c in
  (((32 <=? n) && (n <=? 126)) || (n =? 9)) && negb (n =? 34).

Fixpoint plain_text (s : string) : bool :=
  match s with
  | EmptyString => true
  | String c s' => plain_char c && plain_text s'
  end.

(** No label occurs twice. *)
Fixpoint distinct (cols : list string) : bool :=
  match cols with
  | [] => true
  | c :: cols' => negb (existsb (String.eqb c) cols') && distinct cols'
  end.

(** Labels that [read_csv] keeps as they are written: none is empty and
    none is repeated. *)
Definition kept_labels (cols : list string) : bool :=
  forallb (fun c => negb (String.eqb c EmptyString)) cols && distinct cols.

(** ** Sample inputs *)

(** The array of the specification: 0.0, 1.5, 2.5, 3.5. *)
Definition spec_array : list Float64.f64 :=
  [Float64.of_decimal 0 1; Float64.of_decimal 15 1;
   Float64.of_decimal 25 1; Float64.of_decimal 35 1].

(** Two samples far apart: -1e16 and 1e16. *)
Definition wide_array : list Float64.f64 :=
  [Float64.of_Z (- 10 ^ 16); Float64.of_Z (10 ^ 16)].

(** The last value is repeated: 1, 2, 2. *)
Definition repeated_array : list Float64.f64 :=
  [Float64.of_Z 1; Float64.of_Z 2; Float64.of_Z 2].

(** One preamble line, the header, three rows; the second row has no
    readable time. *)
Definition sample_log : csv_file :=
  {| path := "run1.csv";
     lines := ["JB4 log"; "timestamp,RPM"; "0.5,900"; "n/a,910"; "1.5,950"] |}.



(** A blank line sits in the preamble. *)
Definition blank_preamble_log : csv_file :=
  {| path := "run3.csv";
     lines := ["JB4 log"; ""; "timestamp,RPM"; "1,900"; "2,950"] |}.

(** The line begins, after leading whitespace, with the marker. *)
Definition is_header_line (marker line : string) : bool :=
  PyStr.startswith (PyStr.lstrip line) marker.

(** The channels [resolve_columns] expects under their own name. *)
Definition fixed_channels : list string :=
  ["RPM"; "Pedal"; "Throttle"; "AFR"; "IAT"].

(** The first alias, in priority order, that is an available label. *)
Definition first_available (available aliases : list string) : option string :=
  find (has_column available) aliases.

Definition boost_aliases : list string := ["Boost"; "ECU Boost"].
Definition speed_aliases : list string := ["Speed"; "GPS Speed"].

(** A [ValueError], the exception the script raises for both the
    header that is not found and a column that is missing. *)
Definition is_ValueError {A : Type} (r : result A) : Prop :=
  exists msg, r = Raise (ValueError msg).

(** Tables that lack some of the columns. *)
Definition no_boost_table : DataFrame :=
  {| columns := ["timestamp"; "RPM"]; rows := [] |}.

Definition ecu_boost_only_table : DataFrame :=
  {| columns := ["timestamp"; "ECU Boost"]; rows := [] |}.

Definition no_pedal_table : DataFrame :=
  {| columns := ["timestamp"; "RPM"; "ECU Boost"; "GPS Speed"; "Throttle";
                 "AFR"; "IAT"];
     rows := [] |}.

Definition ecu_gps_table : DataFrame :=
  {| columns := ["timestamp"; "RPM"; "ECU Boost"; "GPS Speed"; "Pedal";
                 "Throttle"; "AFR"; "IAT"];
     rows := [] |}.

(** A log with every column [resolve_columns] checks, and without
    [Boost2] and [Target]. *)
Definition no_boost2_log : csv_file :=
  {| path := "run4.csv";
     lines := ["timestamp,RPM,Boost,Pedal,Throttle,AFR,IAT,Speed";
               "0.5,900,1.2,10,12,14.7,80,5"] |}.

(** The same with [Boost2], still without [Target]. *)
Definition no_target_log : csv_file :=
  {| path := "run5.csv";
     lines := ["timestamp,RPM,Boost,Boost2,Pedal,Throttle,AFR,IAT,Speed";
               "0.5,900,1.2,1.1,10,12,14.7,80,5"] |}.

(** An integer in decimal: a minus sign if negative, then digits. *)
Definition integer_text (s : string) : Prop :=
  exists (neg : bool) (ds : list ascii),
    s = ((if neg then "-" else "") ++ string_of_list_ascii ds)%string
    /\ ds <> []
    /\ Forall (fun c => Decimal.is_digit c = true) ds.

(** A decimal fixed to two places: sign, digits, point, two digits. *)
Definition two_decimals_text (s : string) : Prop :=
  exists (neg : bool) (ds : list ascii) (d1 d2 : ascii),
    s = ((if neg then "-" else "") ++ string_of_list_ascii ds
           ++ "." ++ String d1 (String d2 ""))%string
    /\ ds <> []
    /\ Forall (fun c => Decimal.is_digit c = true) ds
    /\ Decimal.is_digit d1 = true
    /\ Decimal.is_digit d2 = true.

(** The value of a literal written with integer digits [ip] and
    fraction digits [fp], as [Decimal.parse_float] computes it. *)
Definition decimal_value (neg : bool) (ip fp : list ascii) : Q :=
  let v := (inject_Z (Decimal.digits_val (ip ++ fp))
            / inject_Z (10 ^ Z.of_nat (List.length fp))
            * Qpower (inject_Z 10) 0)%Q in
  if neg then (- v)%Q else v.

(** The first character is whitespace. *)
Definition starts_with_space (s : string) : bool :=
  match s with
  | EmptyString => false
  | String c _ => PyStr.is_space c
  end.

(** Every whitespace character is a space followed by a character that
    is not whitespace. *)
Fixpoint single_spaced (s : string) : bool :=
  match s with
  | EmptyString => true
  | String c s' =>
      (if PyStr.is_space c
       then Ascii.eqb c " "%char
            && match s' with
               | EmptyString => false
               | String d _ => negb (PyStr.is_space d)
               end
       else true)
      && single_spaced s'
  end.

(** The characters that are not whitespace, in order. *)
Fixpoint visible (s : string) : list ascii :=
  match s with
  | EmptyString => []
  | String c s' => if PyStr.is_space c then visible s' else c :: visible s'
  end.

(** A complete log: every column [main] reads. *)
Definition complete_log : csv_file :=
  {| path := "run6.csv";
     lines := ["JB4 log";
               "timestamp,RPM,ECU Boost,Boost2,Target,Pedal,Throttle,AFR,IAT,GPS Speed";
               "0.5,900,1.2,1.1,1.5,10,12,14.7,80,5";
               "1.0,950,oops,1.2,1.5,11,13,14.6,80,6"] |}.

(** A cell that is a number or NaN, as [to_numeric] leaves it. *)
Definition is_float (c : cell) : bool :=
  match c with
  | Text _ => false
  | _ => true
  end.

(** Only whitespace characters. *)
Fixpoint all_whitespace (s : string) : bool :=
  match s with
  | EmptyString => true
  | String c s' => PyStr.is_space c && all_whitespace s'
  end.

(** The marker begins a longer word: found as a header line, but no
    label is [timestamp]. *)
Definition longer_marker_log : csv_file :=
  {| path := "run7.csv";
     lines := ["JB4 log"; "timestamps,RPM"; "1,900"] |}.

(** * Properties *)

(** ** Nearest-sample lookup *)

Lemma Qltb_lt (a b : Q) : Qltb a b = true <-> (a < b)%Q.
Proof.
  unfold Qltb. rewrite Qlt_alt.
  destruct (a ?= b)%Q; split; intro H; congruence.
Qed.

Lemma Qltb_ge (a b : Q) : Qltb a b = false <-> (b <= a)%Q.
Proof.
  split; intro H.
  - apply Qnot_lt_le. intro L. apply Qltb_lt in L. congruence.
  - destruct (Qltb a b) eqn:E; [|reflexivity].
    apply Qltb_lt in E. exfalso. apply (Qlt_not_le _ _ E H).
Qed.

Lemma midpoint_bounds (lo hi : nat) :
  lo < hi ->
  lo <= lo + (hi - lo) / 2 < hi /\
  hi - S (lo + (hi - lo) / 2) <= hi - lo - 1 /\
  2 * ((hi - lo) / 2) <= hi - lo.
Proof.
  intro H.
  pose proof (Nat.div_mod_eq (hi - lo) 2) as E.
  pose proof (Nat.mod_upper_bound (hi - lo) 2 ltac:(lia)) as U.
  lia.
Qed.

Section Bisect.

Variable a : list Q.
Variable v : Q.

Let at_ (i : nat) : Q := nth i a 0%Q.

(** The search stays inside the window it is given. *)
Lemma bisect_left_range (fuel lo hi : nat) :
  lo <= hi -> lo <= bisect_left fuel a v lo hi <= hi.
Proof.
  revert lo hi. induction fuel as [|fuel IH]; intros lo hi Hle; cbn [bisect_left].
  - lia.
  - destruct (lo <? hi) eqn:E; [|lia].
    apply Nat.ltb_lt in E.
    pose proof (midpoint_bounds lo hi E) as Hmid.
    destruct (Qltb _ v).
    + specialize (IH (S (lo + (hi - lo) / 2)) hi). lia.
    + specialize (IH lo (lo + (hi - lo) / 2)). lia.
Qed.

Hypothesis a_sorted : forall i j, i <= j -> j < List.length a ->
                                  (at_ i <= at_ j)%Q.

(** With enough fuel the search ends on the leftmost insertion point:
    everything before it is below [v], everything from it on is not. *)
Lemma bisect_left_spec (fuel lo hi : nat) :
  lo <= hi -> hi <= List.length a -> hi - lo <= fuel ->
  (forall i, i < lo -> (at_ i < v)%Q) ->
  (forall i, hi <= i -> i < List.length a -> (v <= at_ i)%Q) ->
  let r := bisect_left fuel a v lo hi in
  (forall i, i < r -> (at_ i < v)%Q) /\
  (forall i, r <= i -> i < List.length a -> (v <= at_ i)%Q).
Proof.
  revert lo hi. induction fuel as [|fuel IH]; intros lo hi Hle Hlen Hfuel Hlo Hhi; cbn [bisect_left].
  - assert (lo = hi) by lia. subst. split; assumption.
  - destruct (lo <? hi) eqn:E.
    + apply Nat.ltb_lt in E.
      set (mid := lo + (hi - lo) / 2).
      pose proof (midpoint_bounds lo hi E) as Hmid. fold mid in Hmid.
      destruct (Qltb (nth mid a 0%Q) v) eqn:C.
      * apply Qltb_lt in C.
        apply IH; try lia; [|assumption].
        intros i Hi.
        apply Qle_lt_trans with (at_ mid); [|exact C].
        apply a_sorted; lia.
      * apply Qltb_ge in C.
        apply IH; try lia; [assumption|].
        intros i Hi Hil.
        apply Qle_trans with (at_ mid); [exact C|].
        apply a_sorted; lia.
    + apply Nat.ltb_ge in E. assert (lo = hi) by lia. subst. split; assumption.
Qed.

Lemma searchsorted_range : searchsorted a v <= List.length a.
Proof.
  unfold searchsorted.
  pose proof (bisect_left_range (List.length a) 0 (List.length a)). lia.
Qed.

Lemma searchsorted_spec :
  (forall i, i < searchsorted a v -> (at_ i < v)%Q) /\
  (forall i, searchsorted a v <= i -> i < List.length a -> (v <= at_ i)%Q).
Proof.
  unfold searchsorted. apply bisect_left_spec; try lia.
Qed.

End Bisect.

Lemma getitem_nth {A : Type} (a : list A) (i : nat) (d : A) :
  i < List.length a -> getitem a (Z.of_nat i) = Ok (nth i a d).
Proof.
  intro H. unfold getitem.
  destruct (Z.of_nat i <? 0)%Z eqn:E; [apply Z.ltb_lt in E; lia|].
  rewrite E, Nat2Z.id.
  destruct (nth_error a i) eqn:N.
  - rewrite (nth_error_nth _ _ d N). reflexivity.
  - apply nth_error_None in N. lia.
Qed.

Lemma ascending_nth (a : list Q) :
  ascending a ->
  forall i j, i <= j -> j < List.length a -> (nth i a 0 <= nth j a 0)%Q.
Proof.
  intro H. apply Sorted_StronglySorted in H.
  2:{ intros p q r. apply Qle_trans. }
  induction H as [|h t Ht IH Hh]; intros i j Hij Hj; simpl in Hj; [lia|].
  destruct i as [|i], j as [|j]; simpl; try lia.
  - apply Qle_refl.
  - rewrite Forall_forall in Hh. apply Hh. apply nth_In. lia.
  - apply IH; lia.
Qed.

Lemma strictly_ascending_nth (a : list Q) :
  strictly_ascending a ->
  forall i j, i < j -> j < List.length a -> (nth i a 0 < nth j a 0)%Q.
Proof.
  intro H. apply Sorted_StronglySorted in H.
  2:{ intros p q r. apply Qlt_trans. }
  induction H as [|h t Ht IH Hh]; intros i j Hij Hj; simpl in Hj; [lia|].
  destruct i as [|i], j as [|j]; simpl; try lia.
  - rewrite Forall_forall in Hh. apply Hh. apply nth_In. lia.
  - apply IH; lia.
Qed.

(** The four ways [nearest_index] returns, by the insertion point. *)
Lemma nearest_index_cases (x : Q) (a : list Q) :
  let r := searchsorted a x in
  (r = 0 /\ nearest_index x a = Ok 0%Z)
  \/ (0 < r /\ r = List.length a
      /\ nearest_index x a = Ok (Z.of_nat (List.length a - 1)))
  \/ (0 < r < List.length a
      /\ (nth r a 0 - x < x - nth (r - 1) a 0)%Q
      /\ nearest_index x a = Ok (Z.of_nat r))
  \/ (0 < r < List.length a
      /\ (x - nth (r - 1) a 0 <= nth r a 0 - x)%Q
      /\ nearest_index x a = Ok (Z.of_nat (r - 1))).
Proof.
  intro r. pose proof (searchsorted_range a x) as Hr. fold r in Hr.
  unfold nearest_index. fold r.
  destruct (Z.of_nat r <=? 0)%Z eqn:E0.
  { apply Z.leb_le in E0. left. split; [lia|reflexivity]. }
  apply Z.leb_gt in E0.
  destruct (Z.of_nat r >=? Z.of_nat (List.length a))%Z eqn:E1.
  { apply Z.geb_le in E1. right; left. repeat split; try lia.
    f_equal. lia. }
  rewrite Z.geb_leb in E1. apply Z.leb_gt in E1.
  right; right.
  rewrite (getitem_nth a r 0%Q) by lia.
  replace (Z.of_nat r - 1)%Z with (Z.of_nat (r - 1)) by lia.
  rewrite (getitem_nth a (r - 1) 0%Q) by lia.
  cbn [bind].
  destruct (Qltb (nth r a 0 - x) (x - nth (r - 1) a 0))%Q eqn:C.
  - apply Qltb_lt in C. left. repeat split; try lia. exact C.
  - apply Qltb_ge in C. right. repeat split; try lia. exact C.
Qed.

(** [nearest_index] never raises, whatever the array. *)
Lemma nearest_index_total (x : Q) (a : list Q) :
  exists i : nat, nearest_index x a = Ok (Z.of_nat i)
                  /\ (a <> [] -> i < List.length a).
Proof.
  destruct (nearest_index_cases x a) as [[_ H]|[[? [? H]]|[[? [_ H]]|[? [_ H]]]]].
  - exists 0. split; [exact H|]. destruct a; [congruence|simpl; lia].
  - exists (List.length a - 1). split; [exact H|lia].
  - exists (searchsorted a x). split; [exact H|lia].
  - exists (searchsorted a x - 1). split; [exact H|lia].
Qed.

Lemma Qabs_cases (q : Q) :
  (0 <= q /\ Qabs q == q)%Q \/ (q <= 0 /\ Qabs q == - q)%Q.
Proof.
  destruct (Qlt_le_dec q 0) as [L|L]; [right|left]; split.
  - apply Qlt_le_weak, L.
  - apply Qabs_neg, Qlt_le_weak, L.
  - exact L.
  - apply Qabs_pos, L.
Qed.

Ltac split_abs :=
  repeat match goal with
         | |- context [Qabs ?q] =>
             let E := fresh "E" in
             destruct (Qabs_cases q) as [[? E]|[? E]]; rewrite E; clear E
         end.

(** On an ascending, non-empty array the returned index holds a value
    nearest to the query, equals [0] for a query at or below the first
    value and the last index for a query above the last value. *)
Lemma nearest_index_ascending (x : Q) (a : list Q) :
  ascending a -> a <> [] ->
  exists i : nat,
    nearest_index x a = Ok (Z.of_nat i)
    /\ i < List.length a
    /\ (forall j, j < List.length a ->
                  (Qabs (nth i a 0 - x) <= Qabs (nth j a 0 - x))%Q)
    /\ ((x <= nth 0 a 0)%Q -> i = 0)
    /\ ((nth (List.length a - 1) a 0 < x)%Q -> i = List.length a - 1)
    /\ ((x == nth (List.length a - 1) a 0)%Q ->
        (nth i a 0 == x)%Q /\ forall j, j < i -> (nth j a 0 < x)%Q).
Proof.
  intros Hs Hne.
  assert (Hlen : 0 < List.length a) by (destruct a; [congruence|simpl; lia]).
  pose proof (ascending_nth a Hs) as S.
  destruct (searchsorted_spec a x S) as [Hlt Hge].
  set (n := List.length a) in *.
  destruct (nearest_index_cases x a)
    as [[R H]|[[R0 [R H]]|[[R [C H]]|[R [C H]]]]].
  - (* insertion point 0: every value is at or above the query *)
    exists 0. split; [exact H|]. split; [exact Hlen|].
    assert (G : forall j, j < n -> (x <= nth j a 0)%Q).
    { intros j Hj. apply Hge; [lia|exact Hj]. }
    repeat split.
    + intros j Hj. pose proof (G 0 Hlen). pose proof (G j Hj).
      pose proof (S 0 j ltac:(lia) Hj). split_abs; lra.
    + intro L. pose proof (G (n - 1) ltac:(lia)).
      destruct (Nat.eq_dec (n - 1) 0) as [E|E]; [lia|].
      exfalso. lra.
    + pose proof (G 0 Hlen). pose proof (S 0 (n - 1) ltac:(lia) ltac:(lia)). lra.
    + lia.
  - (* insertion point past the end: every value is below the query *)
    exists (n - 1). split; [exact H|]. split; [lia|].
    assert (G : forall j, j < n -> (nth j a 0 < x)%Q).
    { intros j Hj. apply Hlt. lia. }
    repeat split.
    + intros j Hj. pose proof (G (n - 1) ltac:(lia)). pose proof (G j Hj).
      pose proof (S j (n - 1) ltac:(lia) ltac:(lia)). split_abs; lra.
    + intro L. pose proof (G 0 Hlen).
      destruct (Nat.eq_dec (n - 1) 0) as [E|E]; [exact E|].
      exfalso. lra.
    + pose proof (G (n - 1) ltac:(lia)). lra.
    + intros j Hj. apply G. lia.
  - (* between two samples, the upper one is strictly nearer *)
    set (r := searchsorted a x) in *.
    exists r. split; [exact H|]. split; [lia|].
    pose proof (Hlt (r - 1) ltac:(lia)) as Lo.
    pose proof (Hge r ltac:(lia) ltac:(lia)) as Hi.
    repeat split.
    + intros j Hj. destruct (Nat.lt_ge_cases j r) as [J|J].
      * pose proof (S j (r - 1) ltac:(lia) ltac:(lia)).
        split_abs; lra.
      * pose proof (S r j J Hj). split_abs; lra.
    + intro L. pose proof (Hlt 0 ltac:(lia)). exfalso. lra.
    + intro L. pose proof (Hge (n - 1) ltac:(lia) ltac:(lia)). exfalso. lra.
    + pose proof (S r (n - 1) ltac:(lia) ltac:(lia)). lra.
    + intros j Hj. apply Hlt, Hj.
  - (* between two samples, the lower one is at least as near *)
    set (r := searchsorted a x) in *.
    exists (r - 1). split; [exact H|]. split; [lia|].
    pose proof (Hlt (r - 1) ltac:(lia)) as Lo.
    pose proof (Hge r ltac:(lia) ltac:(lia)) as Hi.
    repeat split.
    + intros j Hj. destruct (Nat.lt_ge_cases j r) as [J|J].
      * pose proof (S j (r - 1) ltac:(lia) ltac:(lia)).
        split_abs; lra.
      * pose proof (S r j J Hj). split_abs; lra.
    + intro L. pose proof (Hlt 0 ltac:(lia)). exfalso. lra.
    + intro L. pose proof (Hge (n - 1) ltac:(lia) ltac:(lia)). exfalso. lra.
    + pose proof (S r (n - 1) ltac:(lia) ltac:(lia)). lra.
    + intros j Hj. apply Hlt. lia.
Qed.

Lemma strictly_ascending_ascending (a : list Q) :
  strictly_ascending a -> ascending a.
Proof.
  unfold strictly_ascending, ascending.
  induction 1 as [|h t Ht IH Hh]; constructor; [exact IH|].
  destruct Hh; constructor. apply Qlt_le_weak. assumption.
Qed.

(** ** The lookup in float64 arithmetic *)

(** The order of the floats, from [SFcompare]. *)

Ltac cmp_cases :=
  repeat match goal with
         | H : context [Z.compare ?a ?b] |- _ =>
             destruct (Z.compare_spec a b); try subst
         | |- context [Z.compare ?a ?b] =>
             destruct (Z.compare_spec a b); try subst
         | H : context [Pos.compare_cont Eq ?a ?b] |- _ =>
             change (Pos.compare_cont Eq a b) with (Pos.compare a b) in *;
             destruct (Pos.compare_spec a b); try subst
         | |- context [Pos.compare_cont Eq ?a ?b] =>
             change (Pos.compare_cont Eq a b) with (Pos.compare a b) in *;
             destruct (Pos.compare_spec a b); try subst
         end;
  cbn in *; try congruence; try lia.

Lemma SFcompare_trans (a b c : spec_float) (r : comparison) :
  SFcompare a b = Some r -> SFcompare b c = Some r -> r <> Eq ->
  SFcompare a c = Some r.
Proof.
  destruct a as [sa|sa| |sa ma ea], b as [sb|sb| |sb mb eb],
           c as [sc|sc| |sc mc ec];
    try destruct sa; try destruct sb; try destruct sc;
    cbn; intros H1 H2 N; try congruence;
    injection H1 as H1; injection H2 as H2; subst r; f_equal; cmp_cases.
Qed.

Lemma SFcompare_eq_l (a b c : spec_float) (r : comparison) :
  SFcompare a b = Some Eq -> SFcompare b c = Some r ->
  SFcompare a c = Some r.
Proof.
  destruct a as [sa|sa| |sa ma ea], b as [sb|sb| |sb mb eb],
           c as [sc|sc| |sc mc ec];
    try destruct sa; try destruct sb; try destruct sc;
    cbn; intros H1 H2; try congruence;
    injection H1 as H1; injection H2 as H2; subst r; f_equal; cmp_cases.
Qed.

Lemma SFcompare_eq_r (a b c : spec_float) (r : comparison) :
  SFcompare a b = Some r -> SFcompare b c = Some Eq ->
  SFcompare a c = Some r.
Proof.
  destruct a as [sa|sa| |sa ma ea], b as [sb|sb| |sb mb eb],
           c as [sc|sc| |sc mc ec];
    try destruct sa; try destruct sb; try destruct sc;
    cbn; intros H1 H2; try congruence;
    injection H1 as H1; injection H2 as H2; subst r; f_equal; cmp_cases.
Qed.

Lemma SFcompare_swap (a b : spec_float) :
  SFcompare b a = option_map CompOpp (SFcompare a b).
Proof.
  destruct a as [sa|sa| |sa ma ea], b as [sb|sb| |sb mb eb];
    try destruct sa; try destruct sb; cbn; try reflexivity;
    f_equal; cmp_cases.
Qed.

Module Float64Facts.

Import Float64.

Lemma leb_cases (a b : f64) :
  leb a b = true <-> SFcompare a b = Some Lt \/ SFcompare a b = Some Eq.
Proof.
  unfold leb, SFleb. destruct (SFcompare a b) as [[| |]|];
    split; intro H; try discriminate; auto;
    destruct H as [H|H]; discriminate.
Qed.

Lemma ltb_cases (a b : f64) : ltb a b = true <-> SFcompare a b = Some Lt.
Proof.
  unfold ltb, SFltb. destruct (SFcompare a b) as [[| |]|];
    split; intro H; try discriminate; auto.
Qed.

Lemma leb_ltb_trans (a b v : f64) :
  leb a b = true -> ltb b v = true -> ltb a v = true.
Proof.
  rewrite leb_cases, !ltb_cases. intros [H|H] L.
  - apply (SFcompare_trans a b v Lt H L). discriminate.
  - apply (SFcompare_eq_l a b v Lt H L).
Qed.

Lemma leb_trans (a b c : f64) :
  leb a b = true -> leb b c = true -> leb a c = true.
Proof.
  rewrite !leb_cases. intros [H1|H1] [H2|H2].
  - left. apply (SFcompare_trans a b c Lt H1 H2). discriminate.
  - left. apply (SFcompare_eq_r a b c Lt H1 H2).
  - left. apply (SFcompare_eq_l a b c Lt H1 H2).
  - right. apply (SFcompare_eq_l a b c Eq H1 H2).
Qed.

Lemma leb_not_ltb (a b : f64) : leb a b = true -> ltb b a = false.
Proof.
  rewrite leb_cases. unfold ltb, SFltb. rewrite (SFcompare_swap a b).
  intros [H|H]; rewrite H; reflexivity.
Qed.

(** For a query that is a number the order [numpy] searches by is the
    order of the floats. *)
Lemma np_less_ltb (a v : f64) : is_nan v = false -> np_less a v = ltb a v.
Proof.
  intro H. unfold np_less. rewrite H. cbn. apply orb_false_r.
Qed.

Lemma float_ascending_nth (a : list f64) :
  ascending a ->
  forall i j, i < j -> j < List.length a ->
              leb (nth i a S754_nan) (nth j a S754_nan) = true.
Proof.
  intro H. apply Sorted_StronglySorted in H.
  2:{ intros p q r. apply leb_trans. }
  induction H as [|h t Ht IH Hh]; intros i j Hij Hj; simpl in Hj; [lia|].
  destruct i as [|i], j as [|j]; simpl; try lia.
  - rewrite Forall_forall in Hh. apply Hh. apply nth_In. lia.
  - apply IH; lia.
Qed.

Section FloatBisect.

Variable a : list f64.
Variable v : f64.

Let at_ (i : nat) : f64 := nth i a S754_nan.

(** The search stays inside the window it is given. *)
Lemma float_bisect_left_range (fuel lo hi : nat) :
  lo <= hi -> lo <= bisect_left fuel a v lo hi <= hi.
Proof.
  revert lo hi. induction fuel as [|fuel IH]; intros lo hi Hle;
    cbn [bisect_left].
  - lia.
  - destruct (lo <? hi) eqn:E; [|lia].
    apply Nat.ltb_lt in E.
    pose proof (midpoint_bounds lo hi E) as Hmid.
    destruct (np_less _ v).
    + specialize (IH (S (lo + (hi - lo) / 2)) hi). lia.
    + specialize (IH lo (lo + (hi - lo) / 2)). lia.
Qed.

Hypothesis v_number : is_nan v = false.
Hypothesis a_sorted : forall i j, i < j -> j < List.length a ->
                                  leb (at_ i) (at_ j) = true.

(** With enough fuel the search ends on the leftmost insertion point:
    everything before it is below [v], nothing from it on is. *)
Lemma float_bisect_left_spec (fuel lo hi : nat) :
  lo <= hi -> hi <= List.length a -> hi - lo <= fuel ->
  (forall i, i < lo -> ltb (at_ i) v = true) ->
  (forall i, hi <= i -> i < List.length a -> ltb (at_ i) v = false) ->
  let r := bisect_left fuel a v lo hi in
  (forall i, i < r -> ltb (at_ i) v = true) /\
  (forall i, r <= i -> i < List.length a -> ltb (at_ i) v = false).
Proof.
  revert lo hi. induction fuel as [|fuel IH];
    intros lo hi Hle Hlen Hfuel Hlo Hhi; cbn [bisect_left].
  - assert (lo = hi) by lia. subst. split; assumption.
  - destruct (lo <? hi) eqn:E.
    + apply Nat.ltb_lt in E.
      set (mid := lo + (hi - lo) / 2).
      pose proof (midpoint_bounds lo hi E) as Hmid. fold mid in Hmid.
      rewrite (np_less_ltb _ v v_number).
      destruct (ltb (nth mid a S754_nan) v) eqn:C.
      * apply IH; try lia; [|assumption].
        intros i Hi.
        destruct (Nat.eq_dec i mid) as [->|N]; [exact C|].
        apply leb_ltb_trans with (at_ mid); [|exact C].
        apply a_sorted; lia.
      * apply IH; try lia; [assumption|].
        intros i Hi Hil.
        destruct (Nat.eq_dec i mid) as [->|N]; [exact C|].
        destruct (ltb (at_ i) v) eqn:D; [|reflexivity].
        assert (L : leb (at_ mid) (at_ i) = true) by (apply a_sorted; lia).
        pose proof (leb_ltb_trans _ _ _ L D) as T.
        unfold at_ in T. congruence.
    + apply Nat.ltb_ge in E. assert (lo = hi) by lia. subst.
      split; assumption.
Qed.

Lemma float_searchsorted_range : searchsorted a v <= List.length a.
Proof.
  unfold searchsorted.
  pose proof (float_bisect_left_range (List.length a) 0 (List.length a)).
  lia.
Qed.

Lemma float_searchsorted_spec :
  (forall i, i < searchsorted a v -> ltb (at_ i) v = true) /\
  (forall i, searchsorted a v <= i -> i < List.length a ->
             ltb (at_ i) v = false).
Proof.
  unfold searchsorted. apply float_bisect_left_spec; try lia.
Qed.

End FloatBisect.

(** The ways [nearest_index] returns, by the insertion point. *)
Lemma float_nearest_index_cases (x : f64) (a : list f64) :
  let r := searchsorted a x in
  (r = 0 /\ nearest_index x a = Ok 0%Z)
  \/ (0 < r /\ r = List.length a
      /\ nearest_index x a = Ok (Z.of_nat (List.length a - 1)))
  \/ (0 < r < List.length a
      /\ nearest_index x a
         = Ok (Z.of_nat
                 (if ltb (sub (nth r a S754_nan) x)
                         (sub x (nth (r - 1) a S754_nan))
                  then r else r - 1))).
Proof.
  intro r. pose proof (float_searchsorted_range a x) as Hr. fold r in Hr.
  unfold nearest_index. fold r.
  destruct (Z.of_nat r <=? 0)%Z eqn:E0.
  { apply Z.leb_le in E0. left. split; [lia|reflexivity]. }
  apply Z.leb_gt in E0.
  destruct (Z.of_nat r >=? Z.of_nat (List.length a))%Z eqn:E1.
  { apply Z.geb_le in E1. right; left. repeat split; try lia.
    f_equal. lia. }
  rewrite Z.geb_leb in E1. apply Z.leb_gt in E1.
  right; right.
  rewrite (getitem_nth a r S754_nan) by lia.
  replace (Z.of_nat r - 1)%Z with (Z.of_nat (r - 1)) by lia.
  rewrite (getitem_nth a (r - 1) S754_nan) by lia.
  cbn [bind]. split; [lia|].
  destruct (ltb _ _); reflexivity.
Qed.

(** On an ascending, non-empty array and for a query that is a number
    the lookup returns an index of the array: [0] for a query at or
    below the first value, the last index for a query above the last
    value, and between two neighbours the upper one exactly when the
    float64 difference to it is the smaller one. *)
Lemma float_nearest_index_ascending (x : f64) (a : list f64) :
  ascending a -> a <> [] -> is_nan x = false ->
  exists i : nat,
    nearest_index x a = Ok (Z.of_nat i)
    /\ i < List.length a
    /\ (leb x (nth 0 a S754_nan) = true -> i = 0)
    /\ (ltb (nth (List.length a - 1) a S754_nan) x = true ->
        i = List.length a - 1)
    /\ (forall k, S k < List.length a ->
          ltb (nth k a S754_nan) x = true ->
          leb x (nth (S k) a S754_nan) = true ->
          i = if ltb (sub (nth (S k) a S754_nan) x)
                     (sub x (nth k a S754_nan))
              then S k else k).
Proof.
  intros Hs Hne Hx.
  assert (Hlen : 0 < List.length a) by (destruct a; [congruence|simpl; lia]).
  pose proof (float_ascending_nth a Hs) as Asc.
  destruct (float_searchsorted_spec a x Hx Asc) as [Hlt Hge].
  pose proof (float_searchsorted_range a x) as Hr.
  set (n := List.length a) in *.
  set (r := searchsorted a x) in *.
  assert (Low : leb x (nth 0 a S754_nan) = true -> r = 0).
  { intro L. destruct (Nat.eq_dec r 0) as [E|E]; [exact E|].
    pose proof (Hlt 0 ltac:(lia)) as T.
    rewrite (leb_not_ltb _ _ L) in T. discriminate. }
  assert (Up : ltb (nth (n - 1) a S754_nan) x = true -> r = n).
  { intro L. destruct (Nat.eq_dec r n) as [E|E]; [exact E|].
    pose proof (Hge r ltac:(lia) ltac:(lia)) as T.
    destruct (Nat.eq_dec r (n - 1)) as [E1|E1]; [rewrite E1 in T; congruence|].
    pose proof (Asc r (n - 1) ltac:(lia) ltac:(lia)) as T1.
    rewrite (leb_ltb_trans _ _ _ T1 L) in T. discriminate. }
  assert (Mid : forall k, S k < n ->
            ltb (nth k a S754_nan) x = true ->
            leb x (nth (S k) a S754_nan) = true -> r = S k).
  { intros k Hk L U.
    assert (k < r).
    { destruct (Nat.lt_ge_cases k r) as [G|G]; [exact G|].
      pose proof (Hge k G ltac:(lia)) as T. congruence. }
    assert (r <= S k).
    { destruct (Nat.lt_ge_cases (S k) r) as [G|G]; [|exact G].
      pose proof (Hlt (S k) G) as T.
      rewrite (leb_not_ltb _ _ U) in T. discriminate. }
    lia. }
  destruct (float_nearest_index_cases x a) as [[R H]|[[R0 [R H]]|[R H]]];
    fold r in R, H; try fold r in R0; fold n in H; try fold n in R.
  - exists 0. split; [exact H|]. split; [exact Hlen|].
    repeat split.
    + intro L. specialize (Up L). lia.
    + intros k Hk L U. specialize (Mid k Hk L U). lia.
  - exists (n - 1). split; [exact H|]. split; [lia|].
    repeat split.
    + intro L. specialize (Low L). lia.
    + intros k Hk L U. specialize (Mid k Hk L U). lia.
  - eexists. split; [exact H|].
    split; [|repeat split].
    + match goal with |- (if ?b then _ else _) < _ => destruct b end; lia.
    + intro L. specialize (Low L). lia.
    + intro L. specialize (Up L). lia.
    + intros k Hk L U. specialize (Mid k Hk L U).
      rewrite Mid. replace (S k - 1) with k by lia. reflexivity.
Qed.

(** The floats and their values. *)

Lemma pow2_pos (e : Z) : (0 < pow2 e)%Q.
Proof.
  unfold pow2. apply Qpower_0_lt. reflexivity.
Qed.

Lemma pow2_plus (a b : Z) : (pow2 (a + b) == pow2 a * pow2 b)%Q.
Proof.
  unfold pow2. apply Qpower_plus. discriminate.
Qed.

Lemma pow2_nonneg (k : Z) : (0 <= k)%Z -> (pow2 k == inject_Z (2 ^ k))%Q.
Proof.
  intro H. unfold pow2. symmetry. apply Zpower_Qpower. exact H.
Qed.

Lemma digits2_pos_bounds (m : positive) :
  (2 ^ (Zpos (digits2_pos m) - 1) <= Zpos m < 2 ^ Zpos (digits2_pos m))%Z.
Proof.
  induction m as [m IH|m IH|]; cbn [digits2_pos].
  - rewrite Pos2Z.inj_succ.
    replace (Z.succ (Zpos (digits2_pos m)) - 1)%Z
      with (Z.succ (Zpos (digits2_pos m) - 1)) by lia.
    rewrite !Z.pow_succ_r by lia. lia.
  - rewrite Pos2Z.inj_succ.
    replace (Z.succ (Zpos (digits2_pos m)) - 1)%Z
      with (Z.succ (Zpos (digits2_pos m) - 1)) by lia.
    rewrite !Z.pow_succ_r by lia. lia.
  - cbn. lia.
Qed.

(** A canonical mantissa has at most 53 bits, and exactly 53 above the
    least exponent. *)
Lemma bounded_digits (m : positive) (e : Z) :
  bounded prec emax m e = true ->
  (-1074 <= e)%Z /\ (Zpos (digits2_pos m) <= 53)%Z
  /\ ((-1074 < e)%Z -> Zpos (digits2_pos m) = 53%Z).
Proof.
  unfold bounded, canonical_mantissa, fexp, SpecFloat.emin, prec, emax.
  intro H. apply andb_true_iff in H. destruct H as [H _].
  apply Z.eqb_eq in H. lia.
Qed.

Lemma scaled_lt (m1 m2 : positive) (e1 e2 : Z) :
  bounded prec emax m1 e1 = true -> bounded prec emax m2 e2 = true ->
  (e1 < e2)%Z ->
  (inject_Z (Zpos m1) * pow2 e1 < inject_Z (Zpos m2) * pow2 e2)%Q.
Proof.
  intros B1 B2 L.
  destruct (bounded_digits m1 e1 B1) as (L1 & D1 & _).
  destruct (bounded_digits m2 e2 B2) as (_ & _ & D2).
  specialize (D2 ltac:(lia)).
  pose proof (digits2_pos_bounds m1) as [_ U1].
  pose proof (digits2_pos_bounds m2) as [L2 _].
  rewrite D2 in L2.
  assert (U : (Zpos m1 < 2 ^ 53)%Z).
  { apply Z.lt_le_trans with (1 := U1). apply Z.pow_le_mono_r; lia. }
  replace e2 with (e1 + (e2 - e1))%Z by lia.
  rewrite pow2_plus, (pow2_nonneg (e2 - e1)) by lia.
  pose proof (pow2_pos e1) as P.
  assert (G : (2 ^ 1 <= 2 ^ (e2 - e1))%Z) by (apply Z.pow_le_mono_r; lia).
  assert (K : (Zpos m1 < Zpos m2 * 2 ^ (e2 - e1))%Z).
  { change (2 ^ (53 - 1))%Z with 4503599627370496%Z in L2.
    change (2 ^ 53)%Z with 9007199254740992%Z in U.
    change (2 ^ 1)%Z with 2%Z in G. nia. }
  rewrite Zlt_Qlt, inject_Z_mult in K.
  setoid_replace (inject_Z (Zpos m2) * (pow2 e1 * inject_Z (2 ^ (e2 - e1))))%Q
    with (inject_Z (Zpos m2) * inject_Z (2 ^ (e2 - e1)) * pow2 e1)%Q by ring.
  apply Qmult_lt_compat_r; assumption.
Qed.

Lemma scaled_compare (m1 m2 : positive) (e : Z) :
  (inject_Z (Zpos m1) * pow2 e ?= inject_Z (Zpos m2) * pow2 e)%Q
  = Pos.compare m1 m2.
Proof.
  pose proof (pow2_pos e) as P.
  destruct (Pos.compare_spec m1 m2) as [E|L|G].
  - subst. apply (proj1 (Qeq_alt _ _)). reflexivity.
  - apply (proj1 (Qlt_alt _ _)). apply Qmult_lt_compat_r; [exact P|].
    rewrite <- Zlt_Qlt. lia.
  - apply (proj1 (Qgt_alt _ _)). apply Qmult_lt_compat_r; [exact P|].
    rewrite <- Zlt_Qlt. lia.
Qed.

Lemma magnitude_compare (m1 m2 : positive) (e1 e2 : Z) :
  bounded prec emax m1 e1 = true -> bounded prec emax m2 e2 = true ->
  (inject_Z (Zpos m1) * pow2 e1 ?= inject_Z (Zpos m2) * pow2 e2)%Q
  = match Z.compare e1 e2 with
    | Lt => Lt
    | Gt => Gt
    | Eq => Pos.compare m1 m2
    end.
Proof.
  intros B1 B2. destruct (Z.compare_spec e1 e2) as [E|L|G].
  - subst. apply scaled_compare.
  - apply (proj1 (Qlt_alt _ _)). apply scaled_lt; assumption.
  - apply (proj1 (Qgt_alt _ _)). apply scaled_lt; assumption.
Qed.

Lemma Qcompare_opp (p q : Q) : (- p ?= - q)%Q = CompOpp (p ?= q)%Q.
Proof.
  unfold Qcompare. cbn [Qnum Qden Qopp].
  rewrite !Z.mul_opp_l, Z.compare_opp. apply Z.compare_antisym.
Qed.

Lemma magnitude_pos (m : positive) (e : Z) :
  (0 < inject_Z (Zpos m) * pow2 e)%Q.
Proof.
  apply Qmult_lt_0_compat; [|apply pow2_pos].
  change 0%Q with (inject_Z 0). rewrite <- Zlt_Qlt. lia.
Qed.

Lemma value_finite (s : bool) (m : positive) (e : Z) :
  (value (S754_finite s m e)
   == if s then - (inject_Z (Zpos m) * pow2 e)
      else inject_Z (Zpos m) * pow2 e)%Q.
Proof.
  unfold value. destruct s; ring.
Qed.

(** On the finite numbers of the format the order of the floats is the
    order of their values. *)
Lemma compare_value (a b : f64) :
  is_float64 a = true -> is_float64 b = true ->
  SFcompare a b = Some (value a ?= value b)%Q.
Proof.
  destruct a as [sa|sa| |sa ma ea], b as [sb|sb| |sb mb eb];
    cbn [is_float64]; intros Ha Hb; try discriminate.
  - reflexivity.
  - cbn [SFcompare]. f_equal. symmetry.
    rewrite (Qcompare_comp _ _ (Qeq_refl _) _ _ (value_finite sb mb eb)).
    pose proof (magnitude_pos mb eb) as P.
    set (M := (inject_Z (Zpos mb) * pow2 eb)%Q) in *.
    change (value (S754_zero sa)) with 0%Q. clearbody M.
    destruct sb; [apply (proj1 (Qgt_alt _ _))|apply (proj1 (Qlt_alt _ _))]; lra.
  - cbn [SFcompare]. f_equal. symmetry.
    rewrite (Qcompare_comp _ _ (value_finite sa ma ea) _ _ (Qeq_refl _)).
    pose proof (magnitude_pos ma ea) as P.
    set (M := (inject_Z (Zpos ma) * pow2 ea)%Q) in *.
    change (value (S754_zero sb)) with 0%Q. clearbody M.
    destruct sa; [apply (proj1 (Qlt_alt _ _))|apply (proj1 (Qgt_alt _ _))]; lra.
  - cbn [SFcompare]. f_equal. symmetry.
    rewrite (Qcompare_comp _ _ (value_finite sa ma ea)
               _ _ (value_finite sb mb eb)).
    pose proof (magnitude_pos ma ea) as Pa.
    pose proof (magnitude_pos mb eb) as Pb.
    destruct sa, sb.
    + rewrite Qcompare_opp, (magnitude_compare _ _ _ _ Ha Hb).
      change (Pos.compare_cont Eq ma mb) with (Pos.compare ma mb).
      destruct (Z.compare ea eb); reflexivity.
    + set (M := (inject_Z (Zpos ma) * pow2 ea)%Q) in *.
      set (N := (inject_Z (Zpos mb) * pow2 eb)%Q) in *. clearbody M N.
      apply (proj1 (Qlt_alt _ _)). lra.
    + set (M := (inject_Z (Zpos ma) * pow2 ea)%Q) in *.
      set (N := (inject_Z (Zpos mb) * pow2 eb)%Q) in *. clearbody M N.
      apply (proj1 (Qgt_alt _ _)). lra.
    + rewrite (magnitude_compare _ _ _ _ Ha Hb). reflexivity.
Qed.

Lemma ltb_value (a b : f64) :
  is_float64 a = true -> is_float64 b = true ->
  ltb a b = Qltb (value a) (value b).
Proof.
  intros Ha Hb. unfold ltb, SFltb, Qltb.
  rewrite (compare_value a b Ha Hb). reflexivity.
Qed.

Lemma leb_value (a b : f64) :
  is_float64 a = true -> is_float64 b = true ->
  leb a b = true <-> (value a <= value b)%Q.
Proof.
  intros Ha Hb. unfold leb, SFleb.
  rewrite (compare_value a b Ha Hb).
  destruct (value a ?= value b)%Q eqn:C; split; intro H;
    try discriminate; try reflexivity.
  - apply Qeq_alt in C. rewrite C. apply Qle_refl.
  - apply Qlt_alt in C. apply Qlt_le_weak, C.
  - apply Qgt_alt in C. exfalso. apply (Qlt_not_le _ _ C H).
Qed.

Lemma is_float64_number (a : f64) : is_float64 a = true -> is_nan a = false.
Proof.
  destruct a; cbn; congruence.
Qed.

(** Where rounding the two differences does not change which of them is
    the smaller, the index returned holds a value nearest to the query. *)
Lemma float_nearest_index_closest (x : f64) (a : list f64) :
  ascending a -> a <> [] ->
  is_float64 x = true -> Forall (fun p => is_float64 p = true) a ->
  (forall k, S k < List.length a ->
     ltb (nth k a S754_nan) x = true ->
     leb x (nth (S k) a S754_nan) = true ->
     ltb (sub (nth (S k) a S754_nan) x) (sub x (nth k a S754_nan))
     = Qltb (value (nth (S k) a S754_nan) - value x)
            (value x - value (nth k a S754_nan))) ->
  exists i : nat,
    nearest_index x a = Ok (Z.of_nat i)
    /\ forall j, j < List.length a ->
         (Qabs (value (nth i a S754_nan) - value x)
          <= Qabs (value (nth j a S754_nan) - value x))%Q.
Proof.
  intros Hs Hne Hx Ha Agree.
  assert (Hlen : 0 < List.length a) by (destruct a; [congruence|simpl; lia]).
  assert (F : forall i, i < List.length a ->
                        is_float64 (nth i a S754_nan) = true).
  { intros i Hi. rewrite Forall_forall in Ha. apply Ha, nth_In, Hi. }
  pose proof (float_ascending_nth a Hs) as Asc.
  destruct (float_searchsorted_spec a x (is_float64_number x Hx) Asc)
    as [Hlt Hge].
  set (n := List.length a) in *.
  set (r := searchsorted a x) in *.
  set (v := fun i => value (nth i a S754_nan)).
  assert (Mono : forall i j, i <= j -> j < n -> (v i <= v j)%Q).
  { intros i j Hij Hj. destruct (Nat.eq_dec i j) as [->|N]; [apply Qle_refl|].
    apply leb_value; [apply F; lia|apply F; lia|apply Asc; lia]. }
  assert (Lt' : forall i, i < r -> i < n -> (v i < value x)%Q).
  { intros i Hi Hn. unfold v. apply Qltb_lt.
    rewrite <- ltb_value by (auto using F). apply Hlt, Hi. }
  assert (Ge' : forall i, r <= i -> i < n -> (value x <= v i)%Q).
  { intros i Hi Hn. unfold v. apply Qltb_ge.
    rewrite <- ltb_value by (auto using F). apply Hge; assumption. }
  destruct (float_nearest_index_cases x a) as [[R H]|[[R0 [R H]]|[R H]]];
    fold r in R, H; try fold r in R0; fold n in H; try fold n in R.
  - exists 0. split; [exact H|].
    intros j Hj. fold (v 0) (v j).
    pose proof (Ge' 0 ltac:(lia) Hlen). pose proof (Ge' j ltac:(lia) Hj).
    pose proof (Mono 0 j ltac:(lia) Hj). split_abs; lra.
  - exists (n - 1). split; [exact H|].
    intros j Hj. fold (v (n - 1)) (v j).
    pose proof (Lt' (n - 1) ltac:(lia) ltac:(lia)).
    pose proof (Lt' j ltac:(lia) Hj).
    pose proof (Mono j (n - 1) ltac:(lia) ltac:(lia)). split_abs; lra.
  - pose proof (Lt' (r - 1) ltac:(lia) ltac:(lia)) as Lo.
    pose proof (Ge' r ltac:(lia) ltac:(lia)) as Hi.
    assert (A : ltb (sub (nth r a S754_nan) x) (sub x (nth (r - 1) a S754_nan))
                = Qltb (v r - value x) (value x - v (r - 1))).
    { specialize (Agree (r - 1)).
      replace (S (r - 1)) with r in Agree by lia.
      apply Agree; [lia|apply Hlt; lia|].
      apply leb_value; [exact Hx|apply F; lia|exact Hi]. }
    rewrite A in H.
    destruct (Qltb (v r - value x) (value x - v (r - 1))) eqn:C.
    + apply Qltb_lt in C.
      exists r. split; [exact H|].
      intros j Hj. fold (v r) (v j).
      destruct (Nat.lt_ge_cases j r) as [J|J].
      * pose proof (Mono j (r - 1) ltac:(lia) ltac:(lia)). split_abs; lra.
      * pose proof (Mono r j J Hj). split_abs; lra.
    + apply Qltb_ge in C.
      exists (r - 1). split; [exact H|].
      intros j Hj. fold (v (r - 1)) (v j).
      destruct (Nat.lt_ge_cases j r) as [J|J].
      * pose proof (Mono j (r - 1) ltac:(lia) ltac:(lia)). split_abs; lra.
      * pose proof (Mono r j J Hj). split_abs; lra.
Qed.

End Float64Facts.

(** C3 (as amended). On a non-empty array of float64 values sorted
    ascending and for a query that is not NaN, [nearest_index] returns
    an index of the array: 0 for a query at or below the first value,
    the last index for a query above the last value, and, for a query
    above value [k] and at or below value [k + 1], the index [k + 1]
    when the float64 difference [x_arr[k + 1] - x] is strictly smaller
    than the float64 difference [x - x_arr[k]], and [k] otherwise.  When
    array and query are finite and rounding the two differences does not
    change which of them is the smaller, the value at the index returned
    is a nearest one.  On [0.0, 1.5, 2.5, 3.5] the queries 2.7, -1.0 and
    10.0 give 2, 0 and 3. *)
Theorem nearest_index_float64_snaps_and_clamps :
  (forall (x : Float64.f64) (x_arr : list Float64.f64),
      Float64.ascending x_arr -> x_arr <> [] -> Float64.is_nan x = false ->
      exists i : nat,
        Float64.nearest_index x x_arr = Ok (Z.of_nat i)
        /\ i < List.length x_arr
        /\ (Float64.leb x (nth 0 x_arr S754_nan) = true -> i = 0)
        /\ (Float64.ltb (nth (List.length x_arr - 1) x_arr S754_nan) x = true ->
            i = List.length x_arr - 1)
        /\ (forall k, S k < List.length x_arr ->
              Float64.ltb (nth k x_arr S754_nan) x = true ->
              Float64.leb x (nth (S k) x_arr S754_nan) = true ->
              i = if Float64.ltb
                       (Float64.sub (nth (S k) x_arr S754_nan) x)
                       (Float64.sub x (nth k x_arr S754_nan))
                  then S k else k)
        /\ (Float64.is_float64 x = true ->
            Forall (fun p => Float64.is_float64 p = true) x_arr ->
            (forall k, S k < List.length x_arr ->
               Float64.ltb (nth k x_arr S754_nan) x = true ->
               Float64.leb x (nth (S k) x_arr S754_nan) = true ->
               Float64.ltb (Float64.sub (nth (S k) x_arr S754_nan) x)
                           (Float64.sub x (nth k x_arr S754_nan))
               = Qltb (Float64.value (nth (S k) x_arr S754_nan)
                       - Float64.value x)
                      (Float64.value x
                       - Float64.value (nth k x_arr S754_nan))) ->
            forall j, j < List.length x_arr ->
              (Qabs (Float64.value (nth i x_arr S754_nan) - Float64.value x)
               <= Qabs (Float64.value (nth j x_arr S754_nan)
                        - Float64.value x))%Q))
  /\ Float64.nearest_index (Float64.of_decimal 27 1) spec_array = Ok 2%Z
  /\ Float64.nearest_index (Float64.of_decimal (-10) 1) spec_array = Ok 0%Z
  /\ Float64.nearest_index (Float64.of_decimal 100 1) spec_array = Ok 3%Z.
Proof.
  split; [|repeat split; vm_compute; reflexivity].
  intros x x_arr Hs Hne Hx.
  destruct (Float64Facts.float_nearest_index_ascending x x_arr Hs Hne Hx)
    as (i & Hi & Hlt & Hlow & Hup & Hmid).
  exists i. repeat split; try assumption.
  intros Fx Fa Agree.
  destruct (Float64Facts.float_nearest_index_closest x x_arr Hs Hne Fx Fa Agree)
    as (i' & Hi' & Hnear).
  rewrite Hi in Hi'. injection Hi' as Hi'.
  apply Nat2Z.inj in Hi'. subst i'. exact Hnear.
Qed.

Lemma nearest_index_float64_snaps_and_clamps_witness :
  Float64.ascending spec_array
  /\ spec_array <> []
  /\ Float64.is_nan (Float64.of_decimal 27 1) = false
  /\ exists i : nat,
      Float64.nearest_index (Float64.of_decimal 27 1) spec_array
      = Ok (Z.of_nat i)
      /\ i < 4
      /\ forall j, j < 4 ->
           (Qabs (Float64.value (nth i spec_array S754_nan)
                  - Float64.value (Float64.of_decimal 27 1))
            <= Qabs (Float64.value (nth j spec_array S754_nan)
                     - Float64.value (Float64.of_decimal 27 1)))%Q.
Proof.
  assert (A : Float64.ascending spec_array).
  { unfold Float64.ascending. repeat constructor. }
  assert (N : spec_array <> []) by discriminate.
  assert (X : Float64.is_nan (Float64.of_decimal 27 1) = false)
    by (vm_compute; reflexivity).
  split; [exact A|]. split; [exact N|]. split; [exact X|].
  destruct (proj1 nearest_index_float64_snaps_and_clamps
              (Float64.of_decimal 27 1) spec_array A N X)
    as (i & Hi & Hlt & _ & _ & _ & Hnear).
  exists i. split; [exact Hi|]. split; [exact Hlt|].
  apply Hnear.
  - vm_compute. reflexivity.
  - repeat constructor.
  - intros [|[|[|k]]] Hk L U.
    + vm_compute in U. discriminate U.
    + vm_compute in U. discriminate U.
    + vm_compute. reflexivity.
    + simpl in Hk. lia.
Defined.

(** C3 as stated fails.  In the ascending array [-1e16, 1e16] the query
    0.5 is nearer to the second value, and the index returned is 0: both
    float64 differences round to 1e16.  In the ascending array [1, 2, 2]
    the query 2 sits on the upper boundary, and the index returned is 1,
    not the last index 2. *)
Lemma nearest_index_float64_farther_value :
  Float64.ascending wide_array
  /\ Float64.is_float64 (Float64.of_decimal 5 1) = true
  /\ Forall (fun p => Float64.is_float64 p = true) wide_array
  /\ Float64.nearest_index (Float64.of_decimal 5 1) wide_array = Ok 0%Z
  /\ (Qabs (Float64.value (nth 1 wide_array S754_nan)
            - Float64.value (Float64.of_decimal 5 1))
      < Qabs (Float64.value (nth 0 wide_array S754_nan)
              - Float64.value (Float64.of_decimal 5 1)))%Q
  /\ Float64.sub (nth 1 wide_array S754_nan) (Float64.of_decimal 5 1)
     = Float64.sub (Float64.of_decimal 5 1) (nth 0 wide_array S754_nan)
  /\ Float64.ascending repeated_array
  /\ Float64.leb (nth (List.length repeated_array - 1) repeated_array S754_nan)
       (Float64.of_Z 2) = true
  /\ Float64.nearest_index (Float64.of_Z 2) repeated_array = Ok 1%Z
  /\ 1%Z <> Z.of_nat (List.length repeated_array - 1).
Proof.
  split; [unfold Float64.ascending; repeat constructor|].
  split; [vm_compute; reflexivity|].
  split; [repeat constructor|].
  split; [vm_compute; reflexivity|].
  split; [vm_compute; reflexivity|].
  split; [vm_compute; reflexivity|].
  split; [unfold Float64.ascending; repeat constructor|].
  split; [vm_compute; reflexivity|].
  split; [vm_compute; reflexivity|discriminate].
Qed.

(** C9. On a non-empty sorted ascending array [nearest_index] returns
    without an [IndexError] an index [i] with [0 <= i < len(x_arr)]; the
    lookup [y[i]] in any array of the same length succeeds. *)
Theorem nearest_index_in_bounds (x : Q) (x_arr : list Q) :
  ascending x_arr -> x_arr <> [] ->
  exists i : Z,
    nearest_index x x_arr = Ok i
    /\ (0 <= i < Z.of_nat (List.length x_arr))%Z
    /\ (exists v, getitem x_arr i = Ok v)
    /\ forall (y : list cell),
        List.length y = List.length x_arr -> exists v, getitem y i = Ok v.
Proof.
  intros _ Hne.
  destruct (nearest_index_total x x_arr) as (i & Hi & Hlt).
  specialize (Hlt Hne).
  exists (Z.of_nat i). split; [exact Hi|]. split; [lia|]. split.
  - exists (nth i x_arr 0%Q). apply getitem_nth, Hlt.
  - intros y Hy. exists (nth i y NaN). apply getitem_nth. lia.
Qed.

Lemma nearest_index_in_bounds_witness :
  exists i : Z,
    nearest_index 2.7%Q [0; 1.5; 2.5; 3.5]%Q = Ok i
    /\ (0 <= i < 4)%Z.
Proof.
  assert (A : ascending [0; 1.5; 2.5; 3.5]%Q).
  { unfold ascending. repeat constructor; unfold Qle; simpl; lia. }
  assert (N : [0; 1.5; 2.5; 3.5]%Q <> []) by discriminate.
  destruct (nearest_index_in_bounds 2.7%Q [0; 1.5; 2.5; 3.5]%Q A N)
    as (i & Hi & Hb & _).
  exists i. split; [exact Hi|exact Hb].
Defined.

(** ** Parsing: which rows survive *)

Lemma zip_with_map {A B C : Type} (f : A -> B -> C) (g : A -> B) (l : list A) :
  zip_with f l (map g l) = map (fun x => f x (g x)) l.
Proof.
  unfold zip_with. induction l as [|x l IH]; simpl; [reflexivity|].
  f_equal. exact IH.
Qed.

Lemma filter_map_swap {A B : Type} (p : B -> bool) (f : A -> B) (l : list A) :
  filter p (map f l) = map f (filter (fun x => p (f x)) l).
Proof.
  induction l as [|x l IH]; simpl; [reflexivity|].
  destruct (p (f x)); simpl; rewrite IH; reflexivity.
Qed.

Lemma has_column_index_of (cols : list string) (name : string) :
  has_column cols name = true <-> exists j, index_of name cols = Some j.
Proof.
  unfold has_column. induction cols as [|c cs IH]; simpl.
  - split; [discriminate|intros [j H]; discriminate].
  - rewrite (String.eqb_sym name c).
    destruct (String.eqb c name); simpl.
    + split; [exists 0; reflexivity|reflexivity].
    + rewrite IH. split; intros [j H].
      * exists (S j). rewrite H. reflexivity.
      * destruct (index_of name cs); [eauto|discriminate].
  Qed.

Lemma index_of_lt (cols : list string) (name : string) (j : nat) :
  index_of name cols = Some j -> j < List.length cols /\ nth j cols "" = name.
Proof.
  revert j. induction cols as [|c cs IH]; simpl; intros j H; [discriminate|].
  destruct (String.eqb c name) eqn:E.
  - injection H as <-. apply String.eqb_eq in E. split; [lia|exact E].
  - destruct (index_of name cs) as [i|]; [|discriminate].
    injection H as <-. destruct (IH i eq_refl). split; [lia|assumption].
Qed.

Lemma length_replace_at (j : nat) (v : cell) (r : row) :
  List.length (replace_at j v r) = List.length r.
Proof.
  revert j. induction r as [|c r IH]; intros [|j]; simpl; auto.
Qed.


Lemma nth_replace_at_same (j : nat) (v : cell) (r : row) :
  nth j (replace_at j v r) NaN = if (j <? List.length r) then v else NaN.
Proof.
  revert j. induction r as [|c r IH]; intros [|j]; simpl; auto.
Qed.

Section Survivors.

Variable float_of_str : string -> option Q.

Let to_num := to_numeric_cell float_of_str.

Lemma to_numeric_cell_idem (c : cell) : to_num (to_num c) = to_num c.
Proof.
  unfold to_num. destruct c as [s| |]; simpl; try reflexivity.
  destruct (float_of_str s); reflexivity.
Qed.

(** After the coercion the cell of column [j] is NaN exactly when the
    cell read from the file is not coercible. *)
Lemma time_cell_coerce_time (j : nat) (r : row) :
  is_nan (time_cell j (coerce_time float_of_str j r))
  = negb (coercible float_of_str (time_cell j r)).
Proof.
  unfold coerce_time, coercible, time_cell.
  rewrite nth_replace_at_same, negb_involutive.
  destruct (j <? List.length r) eqn:E; [reflexivity|].
  apply Nat.ltb_ge in E. rewrite (nth_overflow r NaN E). reflexivity.
Qed.

(** The table [read_jb4_csv] returns, from the table [read_csv] read. *)
Lemma read_jb4_csv_rows (f : csv_file) (k j : nat) (raw : DataFrame) :
  find_header_line f "timestamp" = Ok k ->
  read_csv f k = Ok raw ->
  index_of "timestamp" (map clean_label (columns raw)) = Some j ->
  read_jb4_csv float_of_str f
  = Ok {| columns := map clean_label (columns raw);
          rows := map (coerce_time float_of_str j)
                    (filter (fun r => coercible float_of_str (time_cell j r))
                       (rows raw)) |}.
Proof.
  intros Hk Hraw Hj. unfold read_jb4_csv.
  rewrite Hk. cbn [bind]. rewrite Hraw. cbn [bind columns rows].
  assert (Hc : has_column (map clean_label (columns raw)) "timestamp" = true).
  { apply has_column_index_of. eauto. }
  rewrite Hc. cbn [negb].
  unfold get_column, set_column, dropna. cbn [columns rows].
  rewrite Hj. cbn [bind columns rows]. rewrite Hj.
  unfold to_numeric. rewrite map_map, zip_with_map.
  f_equal. f_equal.
  rewrite (filter_map_swap _
             (fun r => replace_at j (to_numeric_cell float_of_str (nth j r NaN)) r)).
  fold (coerce_time float_of_str j).
  apply (f_equal (map (coerce_time float_of_str j))).
  apply filter_ext. intro r.
  pose proof (time_cell_coerce_time j r) as T.
  unfold coerce_time, time_cell in *.
  rewrite T, negb_involutive. reflexivity.
Qed.

(** Conversely a successful parse went through these steps. *)
Lemma read_jb4_csv_inv (f : csv_file) (df : DataFrame) :
  read_jb4_csv float_of_str f = Ok df ->
  exists k raw j,
    find_header_line f "timestamp" = Ok k
    /\ read_csv f k = Ok raw
    /\ index_of "timestamp" (map clean_label (columns raw)) = Some j.
Proof.
  unfold read_jb4_csv. intro H.
  destruct (find_header_line f "timestamp") as [k|e] eqn:Hk; [|discriminate].
  cbn [bind] in H.
  destruct (read_csv f k) as [raw|e] eqn:Hraw; [|discriminate].
  cbn [bind columns rows] in H.
  destruct (has_column (map clean_label (columns raw)) "timestamp") eqn:Hc;
    [|discriminate].
  apply has_column_index_of in Hc. destruct Hc as [j Hj].
  exists k, raw, j. auto.
Qed.

End Survivors.





Lemma length_numeric_column (float_of_str : string -> option Q)
  (df : DataFrame) (col : string) (y : list cell) :
  numeric_column float_of_str df col = Ok y ->
  List.length y = List.length (rows df).
Proof.
  unfold numeric_column, get_column.
  destruct (index_of col (columns df)); cbn [bind]; [|discriminate].
  intro H. injection H as <-. unfold to_numeric. rewrite !length_map.
  reflexivity.
Qed.



(** ** Parsing: the order of the rows *)

Lemma time_axis_map_Num (ts : list Q) : time_axis (map Num ts) = ts.
Proof.
  unfold time_axis. induction ts as [|q ts IH]; simpl; [reflexivity|].
  f_equal. exact IH.
Qed.

(** The time column of the surviving rows is the list of the time
    values that passed coercion. *)
Lemma time_column_of_survivors (float_of_str : string -> option Q) (j : nat)
  (rs : list row) :
  map (fun r => nth j r NaN)
    (map (coerce_time float_of_str j)
       (filter (fun r => coercible float_of_str (time_cell j r)) rs))
  = map Num (parsed_times float_of_str j rs).
Proof.
  unfold parsed_times, time_axis, to_numeric.
  induction rs as [|r rs IH]; simpl; [reflexivity|].
  unfold coercible at 1.
  destruct (to_numeric_cell float_of_str (time_cell j r)) as [s|q|] eqn:E;
    cbn [is_nan negb map app].
  - exfalso. unfold to_numeric_cell in E.
    destruct (time_cell j r) as [s0| |]; try discriminate.
    destruct (float_of_str s0); discriminate.
  - rewrite IH. f_equal.
    unfold coerce_time. rewrite E, nth_replace_at_same.
    destruct (j <? List.length r) eqn:L; [reflexivity|].
    apply Nat.ltb_ge in L. unfold time_cell in E.
    rewrite (nth_overflow r NaN L) in E. discriminate.
  - exact IH.
Qed.




(** ** Header detection *)

Lemma scan_header_some (m : string) (ls : list string) (i k : nat) :
  scan_header m i ls = Some k <->
  exists n, k = i + n
            /\ n < List.length ls
            /\ is_header_line m (nth n ls "") = true
            /\ forall p, p < n -> is_header_line m (nth p ls "") = false.
Proof.
  unfold is_header_line.
  revert i. induction ls as [|l ls IH]; intro i; cbn [scan_header].
  - split; [discriminate|]. intros (n & _ & H & _). simpl in H. lia.
  - destruct (PyStr.startswith (PyStr.lstrip l) m) eqn:E.
    + split.
      * intro H. injection H as <-. exists 0. simpl.
        repeat split; [lia|lia|exact E|intros p Hp; lia].
      * intros (n & -> & _ & Hn & Hp).
        destruct n as [|n]; [f_equal; lia|].
        specialize (Hp 0 ltac:(lia)). simpl in Hp. congruence.
    + rewrite IH. split.
      * intros (n & -> & Hlt & Hn & Hp). exists (S n). simpl.
        repeat split; [lia|lia|exact Hn|].
        intros [|p] Hlp; [exact E|apply Hp; lia].
      * intros (n & -> & Hlt & Hn & Hp).
        destruct n as [|n]; [simpl in Hn; congruence|].
        exists n. simpl in Hlt, Hn.
        repeat split; [lia|lia|exact Hn|].
        intros p Hlp. apply (Hp (S p)). lia.
Qed.

Lemma scan_header_none (m : string) (ls : list string) (i : nat) :
  scan_header m i ls = None <->
  Forall (fun l => is_header_line m l = false) ls.
Proof.
  unfold is_header_line.
  revert i. induction ls as [|l ls IH]; intro i; cbn [scan_header].
  - split; [constructor|reflexivity].
  - destruct (PyStr.startswith (PyStr.lstrip l) m) eqn:E.
    + split; [discriminate|]. intro H. inversion H; subst. congruence.
    + rewrite IH. split.
      * intro H. constructor; assumption.
      * intro H. inversion H; assumption.
Qed.

(** [find_header_line] returns the 0-based index of the first marker
    line; it raises the header-not-found [ValueError] exactly when the
    file has none. *)
Lemma find_header_line_first (f : csv_file) (m : string) (k : nat) :
  find_header_line f m = Ok k <->
  k < List.length (lines f)
  /\ is_header_line m (nth k (lines f) "") = true
  /\ forall p, p < k -> is_header_line m (nth p (lines f) "") = false.
Proof.
  unfold find_header_line.
  destruct (scan_header m 0 (lines f)) as [i|] eqn:E.
  - apply scan_header_some in E. destruct E as (n & -> & Hlt & Hn & Hp).
    simpl. split.
    + intro H. injection H as <-. auto.
    + intros (Hk & Hm & Hb). f_equal.
      destruct (Nat.lt_trichotomy n k) as [L|[L|L]]; [|exact L|].
      * specialize (Hb n L). congruence.
      * specialize (Hp k L). congruence.
  - split; [discriminate|].
    intros (Hk & Hm & _). exfalso.
    apply scan_header_none in E. rewrite Forall_forall in E.
    specialize (E (nth k (lines f) "") (nth_In _ _ Hk)). congruence.
Qed.

Lemma find_header_line_none (f : csv_file) (m : string) :
  Forall (fun l => is_header_line m l = false) (lines f) <->
  find_header_line f m = Raise (ValueError (header_not_found m (path f))).
Proof.
  unfold find_header_line. rewrite <- (scan_header_none m (lines f) 0).
  destruct (scan_header m 0 (lines f)); split; intro H;
    try discriminate; reflexivity.
Qed.

Lemma blank_line_lstrip (l : string) :
  is_blank_line l = true -> PyStr.lstrip l = "".
Proof.
  induction l as [|c l IH]; simpl; [reflexivity|].
  intro H. apply andb_true_iff in H. destruct H as [Hc Hl].
  apply orb_true_iff in Hc.
  destruct Hc as [Hc|Hc]; apply Ascii.eqb_eq in Hc; subst c; simpl; auto.
Qed.

Lemma header_line_not_blank (l : string) :
  is_header_line "timestamp" l = true -> is_blank_line l = false.
Proof.
  unfold is_header_line. intro H.
  destruct (is_blank_line l) eqn:B; [|reflexivity].
  rewrite (blank_line_lstrip l B) in H. discriminate.
Qed.

Lemma skipn_filter_prefix {A : Type} (p : A -> bool) (l : list A) (k : nat) :
  Forall (fun x => p x = true) (firstn k l) ->
  skipn k (filter p l) = filter p (skipn k l).
Proof.
  revert l. induction k as [|k IH]; intros l H; [reflexivity|].
  destruct l as [|x l]; [reflexivity|].
  simpl in H. inversion H as [|? ? Hx Hl]; subst.
  simpl. rewrite Hx. simpl. apply IH, Hl.
Qed.

(** When no line before the header is blank, [read_csv] is handed the
    right row: the header it uses is the marker line, and the data rows
    are the non-blank lines after it. *)
Lemma read_csv_header_is_marker_line (f : csv_file) (k : nat) :
  find_header_line f "timestamp" = Ok k ->
  Forall (fun l => is_blank_line l = false) (firstn k (lines f)) ->
  skipn k (records f)
  = nth k (lines f) ""
      :: filter (fun l => negb (is_blank_line l)) (skipn (S k) (lines f)).
Proof.
  intros Hk Hb. apply find_header_line_first in Hk.
  destruct Hk as (Hlt & Hm & _).
  unfold records. rewrite skipn_filter_prefix.
  2:{ apply Forall_forall. intros l Hl. rewrite Forall_forall in Hb.
      rewrite (Hb l Hl). reflexivity. }
  assert (E : skipn k (lines f) = nth k (lines f) "" :: skipn (S k) (lines f)).
  { clear Hm Hb. revert k Hlt. induction (lines f) as [|l ls IH]; intros k Hlt.
    - simpl in Hlt. lia.
    - destruct k as [|k]; [reflexivity|].
      simpl in Hlt. apply (IH k). lia. }
  rewrite E. simpl.
  rewrite (header_line_not_blank _ Hm). reflexivity.
Qed.

(** C2, at the failing input.  The marker line of [blank_preamble_log] is
    line 2, and [find_header_line] returns 2; [read_csv] counts rows with
    the blank line skipped, takes the first data line as the header, and
    the parse ends with the missing-timestamp [ValueError]. *)
Theorem read_jb4_csv_blank_preamble :
  find_header_line blank_preamble_log "timestamp" = Ok 2
  /\ nth 2 (lines blank_preamble_log) "" = "timestamp,RPM"
  /\ read_csv blank_preamble_log 2
     = Ok {| columns := ["1"; "900"]; rows := [[Text "2"; Text "950"]] |}
  /\ read_jb4_csv Decimal.parse_float blank_preamble_log
     = Raise (ValueError (timestamp_missing ["1"; "900"])).
Proof.
  repeat split; reflexivity.
Qed.

(** ** Substrings of the messages *)

Lemma prefix_app (s t : string) : String.prefix s (s ++ t) = true.
Proof.
  induction s as [|c s IH]; simpl.
  - destruct t; reflexivity.
  - destruct (ascii_dec c c); [exact IH|congruence].
Qed.

Lemma prefix_app_l (n a b : string) :
  String.prefix n a = true -> String.prefix n (a ++ b) = true.
Proof.
  revert a. induction n as [|c n IH]; intros a H.
  - destruct (a ++ b)%string; reflexivity.
  - destruct a as [|d a]; simpl in *; [discriminate|].
    destruct (ascii_dec c d); [apply IH, H|discriminate].
Qed.

Lemma contains_prefix (hay needle : string) :
  String.prefix needle hay = true -> PyStr.contains hay needle = true.
Proof.
  intro H. destruct hay; simpl in *; rewrite H; reflexivity.
Qed.

Lemma contains_app_l (a b n : string) :
  PyStr.contains a n = true -> PyStr.contains (a ++ b) n = true.
Proof.
  induction a as [|c a IH]; intro H.
  - simpl in H. rewrite orb_false_r in H.
    apply contains_prefix. apply (prefix_app_l n "" b H).
  - cbn [PyStr.contains] in H. apply orb_true_iff in H.
    change (String c a ++ b)%string with (String c (a ++ b)).
    cbn [PyStr.contains]. apply orb_true_iff.
    destruct H as [H|H].
    + left. apply (prefix_app_l n (String c a) b H).
    + right. apply IH, H.
Qed.

Lemma contains_app_r (a b n : string) :
  PyStr.contains b n = true -> PyStr.contains (a ++ b) n = true.
Proof.
  intro H. induction a as [|c a IH]; [exact H|].
  change (String c a ++ b)%string with (String c (a ++ b)).
  cbn [PyStr.contains]. rewrite IH. apply orb_true_r.
Qed.

Lemma contains_self (s : string) : PyStr.contains s s = true.
Proof.
  apply contains_prefix.
  induction s as [|c s IH]; simpl; [reflexivity|].
  destruct (ascii_dec c c); [exact IH|congruence].
Qed.

Lemma contains_join (sep : string) (l : list string) (x : string) :
  In x l -> PyStr.contains (PyStr.join sep l) x = true.
Proof.
  induction l as [|y l IH]; intro H; [destruct H|].
  destruct H as [->|H].
  - destruct l as [|z l]; cbn [PyStr.join].
    + apply contains_self.
    + apply contains_app_l, contains_self.
  - destruct l as [|z l]; [destruct H|].
    cbn [PyStr.join]. apply contains_app_r, contains_app_r, IH, H.
Qed.

Lemma contains_repr_list (l : list string) (x : string) :
  In x l -> PyStr.contains (PyStr.repr_list l) (PyStr.repr x) = true.
Proof.
  intro H. unfold PyStr.repr_list.
  apply contains_app_r, contains_app_l, contains_join, in_map, H.
Qed.

Lemma In_insert_sorted (s y : string) (l : list string) :
  In y (insert_sorted s l) <-> y = s \/ In y l.
Proof.
  induction l as [|x l IH]; simpl.
  - intuition.
  - destruct (String.eqb s x) eqn:E.
    + apply String.eqb_eq in E. subst. simpl. intuition.
    + destruct (String.ltb s x); simpl; [intuition|].
      rewrite IH. intuition.
Qed.

Lemma In_sorted_set (cols : list string) (y : string) :
  In y (sorted_set cols) <-> In y cols.
Proof.
  unfold sorted_set. induction cols as [|c cols IH]; simpl; [reflexivity|].
  rewrite In_insert_sorted, IH. intuition.
Qed.

(** The missing-columns message lists each missing name and each
    available label, as [repr] prints them. *)
Lemma missing_required_lists (missing available : list string) :
  (forall n, In n missing ->
     PyStr.contains (missing_required missing available) (PyStr.repr n) = true)
  /\ (forall c, In c available ->
        PyStr.contains (missing_required missing available) (PyStr.repr c) = true).
Proof.
  unfold missing_required. split.
  - intros n H. apply contains_app_r, contains_app_l, contains_repr_list, H.
  - intros c H.
    apply contains_app_r, contains_app_r, contains_app_r, contains_app_r.
    apply contains_repr_list, In_sorted_set, H.
Qed.

(** ** Column resolution *)

Lemma missing_of_identity_map (available names : list string) :
  map fst (filter (fun kv : string * string =>
                     negb (has_column available (snd kv)))
             (map (fun n => (n, n)) names))
  = filter (fun n => negb (has_column available n)) names.
Proof.
  induction names as [|n names IH]; simpl; [reflexivity|].
  destruct (has_column available n); simpl; rewrite IH; reflexivity.
Qed.

(** The check at the end of [resolve_columns], for a mapping made of the
    fixed names and two aliases that are available. *)
Lemma missing_of_mapping (available : list string) (b s : string) :
  has_column available b = true ->
  has_column available s = true ->
  map fst (filter (fun kv : string * string =>
                     negb (has_column available (snd kv)))
             (map (fun n => (n, n)) fixed_channels
                ++ [("Boost", b); ("Speed", s)]))
  = filter (fun n => negb (has_column available n)) fixed_channels.
Proof.
  intros Hb Hs.
  rewrite filter_app, map_app, missing_of_identity_map.
  cbn [filter snd]. rewrite Hb, Hs. cbn [negb map]. apply app_nil_r.
Qed.

(** [resolve_columns] as a lookup in an alias table: the first available
    alias of Boost, then of Speed, then the check of the fixed names. *)
Lemma resolve_columns_by_table (df : DataFrame) :
  resolve_columns df =
  match first_available (columns df) boost_aliases with
  | None => Raise (ValueError boost_not_found)
  | Some b =>
      match first_available (columns df) speed_aliases with
      | None => Raise (ValueError speed_not_found)
      | Some s =>
          match filter (fun n => negb (has_column (columns df) n)) fixed_channels with
          | [] => Ok (map (fun n => (n, n)) fixed_channels
                        ++ [("Boost", b); ("Speed", s)])
          | missing => Raise (ValueError (missing_required missing (columns df)))
          end
      end
  end.
Proof.
  assert (Tail : forall b s,
    has_column (columns df) b = true ->
    has_column (columns df) s = true ->
    (let missing :=
       map fst (filter (fun kv : string * string =>
                          negb (has_column (columns df) (snd kv)))
                  (map (fun n => (n, n)) fixed_channels
                     ++ [("Boost", b); ("Speed", s)])) in
     match missing with
     | [] => Ok (map (fun n => (n, n)) fixed_channels
                   ++ [("Boost", b); ("Speed", s)])
     | _ :: _ => Raise (ValueError (missing_required missing (columns df)))
     end)
    = match filter (fun n => negb (has_column (columns df) n)) fixed_channels with
      | [] => Ok (map (fun n => (n, n)) fixed_channels
                    ++ [("Boost", b); ("Speed", s)])
      | missing => Raise (ValueError (missing_required missing (columns df)))
      end).
  { intros b s Hb Hs. cbv zeta. rewrite (missing_of_mapping _ b s Hb Hs).
    destruct (filter _ fixed_channels); reflexivity. }
  unfold resolve_columns, first_available, boost_aliases, speed_aliases.
  cbn [find].
  destruct (has_column (columns df) "Boost") eqn:B1;
    [|destruct (has_column (columns df) "ECU Boost") eqn:B2; [|reflexivity]];
    (destruct (has_column (columns df) "Speed") eqn:S1;
     [|destruct (has_column (columns df) "GPS Speed") eqn:S2; [|reflexivity]]).
  - exact (Tail "Boost" "Speed" B1 S1).
  - exact (Tail "Boost" "GPS Speed" B1 S2).
  - exact (Tail "ECU Boost" "Speed" B2 S1).
  - exact (Tail "ECU Boost" "GPS Speed" B2 S2).
Qed.

Lemma no_missing_iff (available names : list string) :
  filter (fun n => negb (has_column available n)) names = []
  <-> forallb (has_column available) names = true.
Proof.
  induction names as [|n names IH]; simpl; [intuition|].
  destruct (has_column available n); simpl; [exact IH|].
  split; discriminate.
Qed.

(** C4 (as amended). When a Boost alias and a Speed alias are available
    and a fixed-name channel is absent, the error lists the missing
    logical names and every available label.  When no Boost alias is
    available, or after that no Speed alias, the error names the two
    aliases tried and nothing else. *)
Theorem resolve_columns_failure_messages (df : DataFrame) :
  let available := columns df in
  let missing :=
    filter (fun n => negb (has_column available n)) fixed_channels in
  (first_available available boost_aliases = None ->
   resolve_columns df = Raise (ValueError boost_not_found))
  /\ (first_available available boost_aliases <> None ->
      first_available available speed_aliases = None ->
      resolve_columns df = Raise (ValueError speed_not_found))
  /\ (first_available available boost_aliases <> None ->
      first_available available speed_aliases <> None ->
      missing <> [] ->
      resolve_columns df
      = Raise (ValueError (missing_required missing available))
      /\ (forall n, In n missing ->
            PyStr.contains (missing_required missing available)
              (PyStr.repr n) = true)
      /\ (forall c, In c available ->
            PyStr.contains (missing_required missing available)
              (PyStr.repr c) = true))
  /\ PyStr.contains boost_not_found (PyStr.quoted "Boost") = true
  /\ PyStr.contains boost_not_found (PyStr.quoted "ECU Boost") = true
  /\ PyStr.contains speed_not_found (PyStr.quoted "Speed") = true
  /\ PyStr.contains speed_not_found (PyStr.quoted "GPS Speed") = true.
Proof.
  intros available missing.
  pose proof (resolve_columns_by_table df) as E. fold available in E.
  split; [|split; [|split]].
  - intro Hb. rewrite E, Hb. reflexivity.
  - intros Hb Hs. rewrite E, Hs.
    destruct (first_available available boost_aliases); [reflexivity|congruence].
  - intros Hb Hs Hm. fold missing in E.
    split; [|apply missing_required_lists].
    rewrite E.
    destruct (first_available available boost_aliases); [|congruence].
    destruct (first_available available speed_aliases); [|congruence].
    destruct missing; [congruence|reflexivity].
  - repeat split; reflexivity.
Qed.

Lemma resolve_columns_failure_messages_witness :
  resolve_columns no_pedal_table
  = Raise (ValueError (missing_required ["Pedal"] (columns no_pedal_table)))
  /\ PyStr.contains (missing_required ["Pedal"] (columns no_pedal_table))
       (PyStr.repr "GPS Speed") = true.
Proof.
  destruct (resolve_columns_failure_messages no_pedal_table)
    as (_ & _ & H & _).
  destruct (H ltac:(discriminate) ltac:(discriminate) ltac:(discriminate))
    as (E & _ & A).
  split; [exact E|].
  apply A. simpl. tauto.
Defined.

(** C4 as stated fails: with no Boost alias among the labels the error
    is the fixed Boost sentence, which lists no available label. *)
Lemma boost_failure_lists_no_columns :
  exists msg,
    resolve_columns no_boost_table = Raise (ValueError msg)
    /\ first_available (columns no_boost_table) boost_aliases = None
    /\ In "RPM" (columns no_boost_table)
    /\ PyStr.contains msg "RPM" = false
    /\ PyStr.contains msg "timestamp" = false.
Proof.
  exists boost_not_found. repeat split; try reflexivity.
  simpl. tauto.
Qed.

Lemma dict_get_resolved (b s : string) :
  let m := (map (fun n => (n, n)) fixed_channels
              ++ [("Boost", b); ("Speed", s)])%list in
  dict_get m "Boost" "Boost" = b /\ dict_get m "Speed" "Speed" = s.
Proof.
  split; reflexivity.
Qed.

(** Resolution succeeds exactly when an alias of Boost, an alias of
    Speed and the five fixed names are all available. *)
Lemma resolve_columns_ok_iff (df : DataFrame) :
  (exists m, resolve_columns df = Ok m) <->
  first_available (columns df) boost_aliases <> None
  /\ first_available (columns df) speed_aliases <> None
  /\ forallb (has_column (columns df)) fixed_channels = true.
Proof.
  rewrite resolve_columns_by_table, <- no_missing_iff.
  destruct (first_available (columns df) boost_aliases) as [b|].
  2:{ split; [intros [m H]; discriminate|intros [H _]; congruence]. }
  destruct (first_available (columns df) speed_aliases) as [s|].
  2:{ split; [intros [m H]; discriminate|intros (_ & H & _); congruence]. }
  destruct (filter _ fixed_channels) as [|n l].
  - split; [intros _; repeat split; discriminate|eauto].
  - split; [intros [m H]; discriminate|intros (_ & _ & H); discriminate].
Qed.

(** C6 (as amended). Aliases are tried in priority order.  Whenever the
    other columns needed are available, logical Boost is mapped to
    [Boost] if that label is available and to [ECU Boost] otherwise, and
    logical Speed to [Speed], otherwise [GPS Speed]; resolution succeeds
    only then.  With neither Boost alias the error names Boost; with a
    Boost alias and neither Speed alias the error names Speed. *)
Theorem resolve_columns_alias_priority (df : DataFrame) :
  let has := has_column (columns df) in
  (forall b s,
      first_available (columns df) boost_aliases = Some b ->
      first_available (columns df) speed_aliases = Some s ->
      forallb has fixed_channels = true ->
      exists m, resolve_columns df = Ok m
                /\ dict_get m "Boost" "Boost" = b
                /\ dict_get m "Speed" "Speed" = s)
  /\ (has "Boost" = true ->
      first_available (columns df) boost_aliases = Some "Boost")
  /\ (has "Boost" = false -> has "ECU Boost" = true ->
      first_available (columns df) boost_aliases = Some "ECU Boost")
  /\ (has "Speed" = true ->
      first_available (columns df) speed_aliases = Some "Speed")
  /\ (has "Speed" = false -> has "GPS Speed" = true ->
      first_available (columns df) speed_aliases = Some "GPS Speed")
  /\ (forall m, resolve_columns df = Ok m ->
      first_available (columns df) boost_aliases <> None
      /\ first_available (columns df) speed_aliases <> None
      /\ forallb has fixed_channels = true)
  /\ (has "Boost" = false -> has "ECU Boost" = false ->
      resolve_columns df = Raise (ValueError boost_not_found)
      /\ PyStr.contains boost_not_found "Boost" = true)
  /\ (first_available (columns df) boost_aliases <> None ->
      has "Speed" = false -> has "GPS Speed" = false ->
      resolve_columns df = Raise (ValueError speed_not_found)
      /\ PyStr.contains speed_not_found "Speed" = true).
Proof.
  intro has. subst has.
  pose proof (resolve_columns_by_table df) as E.
  split; [|split; [|split; [|split; [|split; [|split; [|split]]]]]].
  - intros b s Hb Hs Hf. rewrite E, Hb, Hs.
    apply no_missing_iff in Hf. rewrite Hf.
    eexists. split; [reflexivity|]. apply dict_get_resolved.
  - intro H. unfold first_available, boost_aliases. cbn [find].
    rewrite H. reflexivity.
  - intros H1 H2. unfold first_available, boost_aliases. cbn [find].
    rewrite H1, H2. reflexivity.
  - intro H. unfold first_available, speed_aliases. cbn [find].
    rewrite H. reflexivity.
  - intros H1 H2. unfold first_available, speed_aliases. cbn [find].
    rewrite H1, H2. reflexivity.
  - intros m Hm. apply resolve_columns_ok_iff. eauto.
  - intros H1 H2. split; [|reflexivity].
    rewrite E. unfold first_available, boost_aliases. cbn [find].
    rewrite H1, H2. reflexivity.
  - intros Hb H1 H2. split; [|reflexivity].
    rewrite E.
    destruct (first_available (columns df) boost_aliases); [|congruence].
    unfold first_available, speed_aliases. cbn [find].
    rewrite H1, H2. reflexivity.
Qed.

Lemma resolve_columns_alias_priority_witness :
  exists m, resolve_columns ecu_gps_table = Ok m
            /\ dict_get m "Boost" "Boost" = "ECU Boost"
            /\ dict_get m "Speed" "Speed" = "GPS Speed".
Proof.
  destruct (resolve_columns_alias_priority ecu_gps_table) as (H & _).
  exact (H "ECU Boost" "GPS Speed" eq_refl eq_refl eq_refl).
Defined.

(** C6 as stated fails twice.  With neither Speed alias and neither
    Boost alias, the error is the Boost sentence, which does not name
    Speed.  With [ECU Boost] available and [Boost] not, no mapping is
    returned when another column is absent: resolution raises. *)
Lemma alias_claims_need_the_other_columns :
  (has_column (columns no_boost_table) "Speed" = false
   /\ has_column (columns no_boost_table) "GPS Speed" = false
   /\ resolve_columns no_boost_table = Raise (ValueError boost_not_found)
   /\ PyStr.contains boost_not_found "Speed" = false)
  /\ (has_column (columns ecu_boost_only_table) "ECU Boost" = true
      /\ has_column (columns ecu_boost_only_table) "Boost" = false
      /\ resolve_columns ecu_boost_only_table
         = Raise (ValueError speed_not_found)).
Proof.
  repeat split; reflexivity.
Qed.

(** ** The columns [main] reads *)

Lemma get_column_missing (df : DataFrame) (name : string) :
  has_column (columns df) name = false ->
  get_column df name = Raise (KeyError name).
Proof.
  intro H. unfold get_column.
  destruct (index_of name (columns df)) as [j|] eqn:E; [|reflexivity].
  assert (T : has_column (columns df) name = true)
    by (apply has_column_index_of; eauto).
  congruence.
Qed.

Lemma get_column_present (df : DataFrame) (name : string) :
  has_column (columns df) name = true ->
  exists s, get_column df name = Ok s
            /\ List.length s = List.length (rows df).
Proof.
  intro H. apply has_column_index_of in H. destruct H as [j Hj].
  unfold get_column. rewrite Hj. eexists. split; [reflexivity|].
  apply length_map.
Qed.

Section MainColumns.

Variable float_of_str : string -> option Q.

Lemma numeric_column_missing (df : DataFrame) (name : string) :
  has_column (columns df) name = false ->
  numeric_column float_of_str df name = Raise (KeyError name).
Proof.
  intro H. unfold numeric_column. rewrite (get_column_missing df name H).
  reflexivity.
Qed.

Lemma numeric_column_present (df : DataFrame) (name : string) :
  has_column (columns df) name = true ->
  exists y, numeric_column float_of_str df name = Ok y.
Proof.
  intro H. destruct (get_column_present df name H) as (s & Hs & _).
  unfold numeric_column. rewrite Hs. eexists. reflexivity.
Qed.

(** A table without [Throttle] is refused by [resolve_columns], with a
    [ValueError], before anything is plotted. *)
Lemma plot_table_without_throttle (df : DataFrame) :
  has_column (columns df) "Throttle" = false ->
  is_ValueError (plot_table float_of_str df).
Proof.
  intro H. unfold plot_table, is_ValueError.
  rewrite resolve_columns_by_table.
  destruct (first_available (columns df) boost_aliases);
    [|eexists; reflexivity].
  destruct (first_available (columns df) speed_aliases);
    [|eexists; reflexivity].
  destruct (filter _ fixed_channels) as [|n l] eqn:M;
    [|eexists; reflexivity].
  apply no_missing_iff in M. unfold fixed_channels in M.
  cbn [forallb] in M. rewrite H in M.
  rewrite !andb_false_r in M. simpl in M.
  destruct (has_column (columns df) "RPM"), (has_column (columns df) "Pedal");
    discriminate.
Qed.

(** A table that passes [resolve_columns], has rows and lacks [Boost2]
    reaches the plotting loop, where [df["Boost2"]] raises [KeyError]. *)
Lemma plot_table_without_boost2 (df : DataFrame) (m : dict) :
  resolve_columns df = Ok m ->
  has_column (columns df) "timestamp" = true ->
  rows df <> [] ->
  has_column (columns df) "Boost2" = false ->
  plot_table float_of_str df = Raise (KeyError "Boost2").
Proof.
  intros Hm Ht Hr Hb2.
  pose proof Hm as Hm'. rewrite resolve_columns_by_table in Hm'.
  destruct (first_available (columns df) boost_aliases) as [b|] eqn:Eb;
    [|discriminate].
  destruct (first_available (columns df) speed_aliases) as [s|] eqn:Es;
    [|discriminate].
  destruct (filter _ fixed_channels) as [|n l] eqn:M; [|discriminate].
  injection Hm' as <-.
  apply no_missing_iff in M. unfold fixed_channels in M.
  cbn [forallb] in M. apply andb_true_iff in M. destruct M as [Hrpm _].
  assert (Hb : has_column (columns df) b = true).
  { unfold first_available in Eb. apply find_some in Eb. apply Eb. }
  unfold plot_table. rewrite Hm. cbn [bind].
  destruct (get_column_present df "timestamp" Ht) as (t & Et & Lt).
  rewrite Et. cbn [bind].
  destruct (List.length t =? 0) eqn:Z.
  { apply Nat.eqb_eq in Z. destruct (rows df); [congruence|simpl in Lt; lia]. }
  unfold PLOTS. cbn [plot_loop]. unfold plot_channel at 1.
  cbn [dict_get fixed_channels map app String.eqb Ascii.eqb Bool.eqb].
  destruct (numeric_column_present df "RPM" Hrpm) as (y & Ey).
  rewrite Ey. cbn [bind String.eqb Ascii.eqb Bool.eqb y_series app].
  unfold plot_channel at 1.
  cbn [dict_get fixed_channels map app String.eqb Ascii.eqb Bool.eqb].
  destruct (numeric_column_present df b Hb) as (yb & Eyb).
  rewrite Eyb. cbn [bind String.eqb Ascii.eqb Bool.eqb y_series app].
  rewrite (numeric_column_missing df "Boost2" Hb2). reflexivity.
Qed.

End MainColumns.

(** C5, at the failing input.  [no_boost2_log] parses and passes
    [resolve_columns]; [main] then stops in the plotting loop on
    [df["Boost2"]] with a [KeyError], which is not a [ValueError].  With
    [Boost2] present and [Target] absent the [KeyError] names
    [Target]. *)
Theorem main_without_boost2_raises_KeyError :
  (exists df m,
      read_jb4_csv Decimal.parse_float no_boost2_log = Ok df
      /\ has_column (columns df) "Boost2" = false
      /\ resolve_columns df = Ok m)
  /\ main Decimal.parse_float no_boost2_log = Raise (KeyError "Boost2")
  /\ ~ is_ValueError (main Decimal.parse_float no_boost2_log)
  /\ main Decimal.parse_float no_target_log = Raise (KeyError "Target").
Proof.
  split.
  { eexists. eexists. split; [reflexivity|]. split; reflexivity. }
  split; [reflexivity|].
  split; [|reflexivity].
  intros [msg H]. discriminate.
Qed.

(** ** Cursor readout *)

Lemma round_half_even_cases (q : Q) :
  let f := Qfloor q in
  (inject_Z f <= q < inject_Z f + 1)%Q
  /\ ((round_half_even q = f /\ (q - inject_Z f <= 1 # 2)%Q)
      \/ (round_half_even q = (f + 1)%Z /\ (1 # 2 <= q - inject_Z f)%Q)).
Proof.
  intro f.
  assert (B : (inject_Z f <= q < inject_Z f + 1)%Q).
  { split; [apply Qfloor_le|].
    pose proof (Qlt_floor q) as L. fold f in L.
    rewrite inject_Z_plus in L. exact L. }
  split; [exact B|].
  unfold round_half_even. fold f.
  destruct (q - inject_Z f ?= 1 # 2)%Q eqn:C.
  - apply Qeq_alt in C.
    destruct (Z.even f); [left|right]; split; try reflexivity; lra.
  - apply Qlt_alt in C. left. split; [reflexivity|lra].
  - apply Qgt_alt in C. right. split; [reflexivity|lra].
Qed.

(** [round] moves a value by at most one half. *)
Lemma round_half_even_near (q : Q) :
  (Qabs (inject_Z (round_half_even q) - q) <= 1 # 2)%Q.
Proof.
  destruct (round_half_even_cases q) as [B [[E H]|[E H]]]; rewrite E.
  - split_abs; lra.
  - rewrite inject_Z_plus. change (inject_Z 1) with 1%Q. split_abs; lra.
Qed.

Lemma round_half_even_nonneg (q : Q) :
  (0 <= q)%Q -> (0 <= round_half_even q)%Z.
Proof.
  intro H.
  assert (F : (0 <= Qfloor q)%Z).
  { change 0%Z with (Qfloor 0). apply Qfloor_resp_le, H. }
  destruct (round_half_even_cases q) as [_ [[E _]|[E _]]]; rewrite E; lia.
Qed.

Lemma digit_char_spec (d : Z) :
  (0 <= d <= 9)%Z ->
  Decimal.is_digit (digit_char d) = true
  /\ Decimal.digit_val (digit_char d) = d.
Proof.
  intro H.
  assert (C : (d = 0 \/ d = 1 \/ d = 2 \/ d = 3 \/ d = 4 \/ d = 5 \/ d = 6
               \/ d = 7 \/ d = 8 \/ d = 9)%Z) by lia.
  repeat (destruct C as [->|C]; [split; reflexivity|]).
  subst. split; reflexivity.
Qed.

Lemma digits_val_snoc (ds : list ascii) (c : ascii) :
  Decimal.digits_val (ds ++ [c])
  = (10 * Decimal.digits_val ds + Decimal.digit_val c)%Z.
Proof.
  unfold Decimal.digits_val. rewrite fold_left_app. reflexivity.
Qed.

Lemma string_of_list_snoc (ds : list ascii) (c : ascii) (acc : string) :
  (string_of_list_ascii (ds ++ [c]) ++ acc)%string
  = (string_of_list_ascii ds ++ String c acc)%string.
Proof.
  induction ds as [|d ds IH]; simpl; [reflexivity|].
  f_equal. exact IH.
Qed.

Lemma append_empty_r (s : string) : (s ++ "")%string = s.
Proof.
  induction s as [|c s IH]; simpl; [reflexivity|]. f_equal. exact IH.
Qed.

Lemma append_assoc (a b c : string) :
  ((a ++ b) ++ c)%string = (a ++ (b ++ c))%string.
Proof.
  induction a as [|x a IH]; simpl; [reflexivity|]. f_equal. exact IH.
Qed.

(** With fuel for every binary digit of [n], [digits_fuel] writes the
    decimal digits of [n] in front of [acc]. *)
Lemma digits_fuel_spec (fuel : nat) (n : Z) (acc : string) :
  1 <= fuel -> (0 <= n < 2 ^ Z.of_nat fuel)%Z ->
  exists ds,
    digits_fuel fuel n acc = (string_of_list_ascii ds ++ acc)%string
    /\ ds <> []
    /\ Forall (fun c => Decimal.is_digit c = true) ds
    /\ Decimal.digits_val ds = n.
Proof.
  revert n acc. induction fuel as [|fuel IH]; intros n acc Hf Hn; [lia|].
  cbn [digits_fuel].
  assert (Hm : (0 <= n mod 10 <= 9)%Z).
  { pose proof (Z.mod_pos_bound n 10 ltac:(lia)). lia. }
  destruct (digit_char_spec (n mod 10) Hm) as [Hd Hv].
  destruct (n <? 10)%Z eqn:E.
  - apply Z.ltb_lt in E.
    exists [digit_char (n mod 10)]. repeat split.
    + discriminate.
    + repeat constructor. exact Hd.
    + unfold Decimal.digits_val. simpl fold_left. rewrite Hv.
      rewrite Z.mod_small by lia. lia.
  - apply Z.ltb_ge in E.
    rewrite Nat2Z.inj_succ, Z.pow_succ_r in Hn by lia.
    assert (Hfuel : 1 <= fuel).
    { destruct fuel; [simpl in Hn; lia|lia]. }
    assert (Hdiv : (0 <= n / 10 < 2 ^ Z.of_nat fuel)%Z).
    { split; [apply Z.div_pos; lia|].
      apply Z.div_lt_upper_bound; lia. }
    destruct (IH (n / 10)%Z (String (digit_char (n mod 10)) acc) Hfuel Hdiv)
      as (ds & Eds & Hne & Hall & Hval).
    exists (ds ++ [digit_char (n mod 10)]). repeat split.
    + rewrite Eds, string_of_list_snoc. reflexivity.
    + destruct ds; discriminate.
    + apply Forall_app. split; [exact Hall|]. repeat constructor. exact Hd.
    + rewrite digits_val_snoc, Hval, Hv.
      pose proof (Z.div_mod n 10 ltac:(lia)). lia.
Qed.

Lemma str_nat_spec (n : Z) :
  (0 <= n)%Z ->
  exists ds,
    str_nat n = string_of_list_ascii ds
    /\ ds <> []
    /\ Forall (fun c => Decimal.is_digit c = true) ds
    /\ Decimal.digits_val ds = n.
Proof.
  intro H. unfold str_nat.
  assert (B : (0 <= n < 2 ^ Z.of_nat (S (Z.to_nat (Z.log2 n))))%Z).
  { split; [exact H|].
    rewrite Nat2Z.inj_succ, Z2Nat.id by apply Z.log2_nonneg.
    destruct (Z.eq_dec n 0) as [->|N]; [reflexivity|].
    apply Z.log2_spec. lia. }
  destruct (digits_fuel_spec (S (Z.to_nat (Z.log2 n))) n "" ltac:(lia) B)
    as (ds & E & R).
  exists ds. rewrite E, append_empty_r. split; [reflexivity|exact R].
Qed.

Lemma is_digit_not_space (c : ascii) :
  Decimal.is_digit c = true -> Decimal.is_c_space c = false.
Proof.
  unfold Decimal.is_digit, Decimal.is_c_space.
  intro H. apply andb_true_iff in H. destruct H as [L U].
  apply Nat.leb_le in L.
  apply orb_false_iff. split.
  - apply andb_false_iff. right. apply Nat.leb_gt. lia.
  - apply Nat.eqb_neq. lia.
Qed.

Lemma parse_sign_digit (c : ascii) (s : string) :
  Decimal.is_digit c = true ->
  Decimal.parse_sign (String c s) = (false, String c s).
Proof.
  intro H.
  destruct c as [[|] [|] [|] [|] [|] [|] [|] [|]];
    try discriminate H; reflexivity.
Qed.

Lemma span_digits_app (ds : list ascii) (rest : string) :
  Forall (fun c => Decimal.is_digit c = true) ds ->
  match rest with
  | EmptyString => True
  | String c _ => Decimal.is_digit c = false
  end ->
  Decimal.span_digits (string_of_list_ascii ds ++ rest) = (ds, rest).
Proof.
  intros Hd Hr. induction Hd as [|d ds Hd _ IH]; simpl.
  - destruct rest as [|c r]; [reflexivity|].
    simpl. rewrite Hr. reflexivity.
  - rewrite Hd, IH. reflexivity.
Qed.

Lemma parse_float_signed (neg : bool) (d : ascii) (body : string) :
  Decimal.is_digit d = true ->
  Decimal.parse_sign
    (Decimal.skip_spaces ((if neg then "-" else "") ++ String d body))
  = (neg, String d body).
Proof.
  intro Hd. destruct neg.
  - reflexivity.
  - cbn [append Decimal.skip_spaces].
    rewrite (is_digit_not_space d Hd). apply parse_sign_digit, Hd.
Qed.

(** What [parse_float] reads in an integer literal. *)
Lemma parse_float_integer (neg : bool) (ip : list ascii) :
  ip <> [] -> Forall (fun c => Decimal.is_digit c = true) ip ->
  Decimal.parse_float ((if neg then "-" else "") ++ string_of_list_ascii ip)
  = Some (decimal_value neg ip []).
Proof.
  intros Hne Hd. destruct ip as [|d ip]; [congruence|].
  inversion Hd as [|? ? Hd0 Hd']; subst.
  unfold Decimal.parse_float.
  cbn [string_of_list_ascii]. rewrite (parse_float_signed neg d _ Hd0).
  change (String d (string_of_list_ascii ip))
    with (string_of_list_ascii (d :: ip)).
  rewrite <- (append_empty_r (string_of_list_ascii (d :: ip))).
  rewrite (span_digits_app (d :: ip) "" Hd I).
  destruct neg; reflexivity.
Qed.

(** What [parse_float] reads in a literal with a fraction. *)
Lemma parse_float_fraction (neg : bool) (ip fp : list ascii) :
  ip <> [] ->
  Forall (fun c => Decimal.is_digit c = true) ip ->
  Forall (fun c => Decimal.is_digit c = true) fp ->
  Decimal.parse_float
    ((if neg then "-" else "") ++ string_of_list_ascii ip
       ++ "." ++ string_of_list_ascii fp)
  = Some (decimal_value neg ip fp).
Proof.
  intros Hne Hd Hf. destruct ip as [|d ip]; [congruence|].
  inversion Hd as [|? ? Hd0 Hd']; subst.
  unfold Decimal.parse_float.
  cbn [string_of_list_ascii append].
  change (String d (string_of_list_ascii ip ++ String "." (string_of_list_ascii fp)))
    with (String d (string_of_list_ascii ip ++ "." ++ string_of_list_ascii fp)).
  rewrite (parse_float_signed neg d _ Hd0).
  change (String d (string_of_list_ascii ip ++ "." ++ string_of_list_ascii fp))
    with (string_of_list_ascii (d :: ip) ++ "." ++ string_of_list_ascii fp)%string.
  rewrite (span_digits_app (d :: ip) ("." ++ string_of_list_ascii fp) Hd eq_refl).
  cbn [append].
  rewrite <- (append_empty_r (string_of_list_ascii fp)).
  rewrite (span_digits_app fp "" Hf I).
  destruct neg; reflexivity.
Qed.

Lemma decimal_value_integer (neg : bool) (ip : list ascii) :
  (decimal_value neg ip []
   == if neg then - inject_Z (Decimal.digits_val ip)
      else inject_Z (Decimal.digits_val ip))%Q.
Proof.
  unfold decimal_value. rewrite app_nil_r.
  cbn [List.length Qpower].
  change (inject_Z (10 ^ Z.of_nat 0)) with 1%Q.
  destruct neg; field.
Qed.

Lemma decimal_value_hundredths (neg : bool) (ip : list ascii) (d1 d2 : ascii) :
  (decimal_value neg ip [d1; d2]
   == let n := inject_Z (100 * Decimal.digits_val ip
                         + 10 * Decimal.digit_val d1 + Decimal.digit_val d2) in
      if neg then - (n * (1 # 100)) else n * (1 # 100))%Q.
Proof.
  unfold decimal_value.
  change (ip ++ [d1; d2]) with (ip ++ [d1] ++ [d2]).
  rewrite app_assoc, !digits_val_snoc.
  cbn [List.length Qpower].
  change (inject_Z (10 ^ Z.of_nat 2)) with 100%Q.
  replace (10 * (10 * Decimal.digits_val ip + Decimal.digit_val d1)
           + Decimal.digit_val d2)%Z
    with (100 * Decimal.digits_val ip
          + 10 * Decimal.digit_val d1 + Decimal.digit_val d2)%Z by lia.
  cbv zeta. destruct neg; field.
Qed.

(** [str(n)] is an integer literal, and reads back as [n]. *)
Lemma str_int_spec (n : Z) :
  integer_text (str_int n)
  /\ exists v, Decimal.parse_float (str_int n) = Some v
               /\ (v == inject_Z n)%Q.
Proof.
  unfold str_int. destruct (n <? 0)%Z eqn:E.
  - apply Z.ltb_lt in E.
    destruct (str_nat_spec (- n) ltac:(lia)) as (ds & Es & Hne & Hd & Hv).
    rewrite Es. split.
    + exists true, ds. auto.
    + exists (decimal_value true ds []). split.
      * apply (parse_float_integer true ds Hne Hd).
      * rewrite decimal_value_integer, Hv, inject_Z_opp. ring.
  - apply Z.ltb_ge in E.
    destruct (str_nat_spec n E) as (ds & Es & Hne & Hd & Hv).
    rewrite Es. split.
    + exists false, ds. auto.
    + exists (decimal_value false ds []). split.
      * apply (parse_float_integer false ds Hne Hd).
      * rewrite decimal_value_integer, Hv. reflexivity.
Qed.

(** [f"{q:.2f}"] has two decimals, and reads back as a value within half
    a hundredth of [q]. *)
Lemma format_2f_spec (q : Q) :
  two_decimals_text (format_2f q)
  /\ exists v, Decimal.parse_float (format_2f q) = Some v
               /\ (Qabs (v - q) <= 1 # 200)%Q.
Proof.
  unfold format_2f.
  set (n := round_half_even (Qabs q * 100)).
  assert (Hn : (0 <= n)%Z).
  { apply round_half_even_nonneg.
    pose proof (Qabs_nonneg q). lra. }
  pose proof (round_half_even_near (Qabs q * 100)) as Hnear. fold n in Hnear.
  destruct (str_nat_spec (n / 100) ltac:(apply Z.div_pos; lia))
    as (ds & Es & Hne & Hd & Hv).
  assert (H1 : (0 <= n / 10 mod 10 <= 9)%Z).
  { pose proof (Z.mod_pos_bound (n / 10) 10 ltac:(lia)). lia. }
  assert (H2 : (0 <= n mod 10 <= 9)%Z).
  { pose proof (Z.mod_pos_bound n 10 ltac:(lia)). lia. }
  destruct (digit_char_spec _ H1) as [D1 V1].
  destruct (digit_char_spec _ H2) as [D2 V2].
  rewrite Es. split.
  - exists (Qltb q 0), ds, (digit_char (n / 10 mod 10)), (digit_char (n mod 10)).
    repeat split; assumption.
  - exists (decimal_value (Qltb q 0) ds
              [digit_char (n / 10 mod 10); digit_char (n mod 10)]).
    split.
    + apply (parse_float_fraction (Qltb q 0) ds
               [digit_char (n / 10 mod 10); digit_char (n mod 10)] Hne Hd).
      repeat constructor; assumption.
    + rewrite decimal_value_hundredths, Hv, V1, V2. cbv zeta.
      replace (100 * (n / 100) + 10 * (n / 10 mod 10) + n mod 10)%Z with n.
      2:{ pose proof (Z.div_mod n 10 ltac:(lia)) as M1.
          pose proof (Z.div_mod (n / 10) 10 ltac:(lia)) as M2.
          rewrite Z.div_div in M2 by lia. change (10 * 10)%Z with 100%Z in M2.
          lia. }
      destruct (Qltb q 0) eqn:S.
      * apply Qltb_lt in S.
        assert (A : (Qabs q == - q)%Q) by (apply Qabs_neg; lra).
        rewrite A in Hnear. revert Hnear. split_abs; intros; lra.
      * apply Qltb_ge in S.
        assert (A : (Qabs q == q)%Q) by (apply Qabs_pos; lra).
        rewrite A in Hnear. revert Hnear. split_abs; intros; lra.
Qed.

(** A value within the tolerance of an integer rounds to that integer. *)
Lemma near_integer_round (y : Q) (k : Z) :
  (Qabs (y - inject_Z k) < tolerance)%Q -> round_half_even y = k.
Proof.
  unfold tolerance. intro H.
  assert (B : (inject_Z k - (1 # 1000000000) < y
               /\ y < inject_Z k + (1 # 1000000000))%Q).
  { revert H. split_abs; intros; split; lra. }
  destruct B as [Bl Bu].
  destruct (round_half_even_cases y) as [[Fl Fu] C].
  set (f := Qfloor y) in *.
  assert (K1 : (f <= k)%Z).
  { apply Z.lt_succ_r. rewrite Zlt_Qlt. unfold Z.succ.
    rewrite inject_Z_plus. change (inject_Z 1) with 1%Q. lra. }
  assert (K2 : (k <= f + 1)%Z).
  { apply Z.lt_succ_r. rewrite Zlt_Qlt. unfold Z.succ.
    rewrite !inject_Z_plus. change (inject_Z 1) with 1%Q. lra. }
  destruct C as [[E Hh]|[E Hh]]; rewrite E.
  - destruct (Z.eq_dec k f) as [->|N]; [reflexivity|].
    assert (k = f + 1)%Z by lia. subst k. exfalso.
    rewrite inject_Z_plus in Bl. change (inject_Z 1) with 1%Q in Bl. lra.
  - destruct (Z.eq_dec k (f + 1)) as [->|N]; [reflexivity|].
    assert (k = f) by lia. subst k. exfalso. lra.
Qed.

(** C8 (as amended). A finite value within the tolerance of an integer
    is shown as that integer, written without decimals; any other finite
    value is shown with exactly two decimals, as the nearest hundredth.
    A sample that is not a number is shown as [nan].  3000.0000000001 is
    shown as 3000 and 14.567 as 14.57. *)
Theorem readout_integer_or_two_decimals (friendly_name : string) (y : Q) :
  (forall k : Z,
      (Qabs (y - inject_Z k) < tolerance)%Q ->
      readout friendly_name (Some y)
      = (friendly_name ++ ": " ++ str_int k)%string
      /\ integer_text (str_int k)
      /\ exists v, Decimal.parse_float (str_int k) = Some v
                   /\ (v == inject_Z k)%Q)
  /\ ((forall k : Z, ~ (Qabs (y - inject_Z k) < tolerance)%Q) ->
      readout friendly_name (Some y)
      = (friendly_name ++ ": " ++ format_2f y)%string
      /\ two_decimals_text (format_2f y)
      /\ exists v, Decimal.parse_float (format_2f y) = Some v
                   /\ (Qabs (v - y) <= 1 # 200)%Q)
  /\ readout friendly_name None = (friendly_name ++ ": nan")%string
  /\ format_value (Some 3000.0000000001%Q) = "3000"
  /\ format_value (Some 14.567%Q) = "14.57"
  /\ readout "RPM" (Some 3000.0000000001%Q) = "RPM: 3000"
  /\ readout "Boost" (Some 14.567%Q) = "Boost: 14.57".
Proof.
  split; [|split; [|repeat split; reflexivity]].
  - intros k Hk.
    pose proof (near_integer_round y k Hk) as R.
    split; [|apply str_int_spec].
    unfold readout, format_value. rewrite R.
    apply Qltb_lt in Hk. rewrite Hk. reflexivity.
  - intro Hno.
    split; [|apply format_2f_spec].
    unfold readout, format_value.
    destruct (Qltb (Qabs (y - inject_Z (round_half_even y))) tolerance) eqn:E;
      [|reflexivity].
    apply Qltb_lt in E. exfalso. exact (Hno _ E).
Qed.

Lemma readout_integer_or_two_decimals_witness :
  readout "RPM" (Some 2999.9999999999%Q) = "RPM: 3000"
  /\ integer_text (str_int 3000).
Proof.
  destruct (readout_integer_or_two_decimals "RPM" 2999.9999999999%Q)
    as (H & _).
  assert (T : (Qabs (2999.9999999999 - inject_Z 3000) < tolerance)%Q).
  { apply Qltb_lt. reflexivity. }
  destruct (H 3000%Z T) as (E & I & _).
  split; [exact E|exact I].
Defined.

(** C8 as stated fails: not every value is shown as an integer or with
    two decimals.  Text that is not a number becomes NaN under
    [to_numeric], and the readout of a NaN sample is [nan]. *)
Lemma readout_of_nan_sample :
  float_of_cell (to_numeric_cell Decimal.parse_float (Text "oops")) = None
  /\ readout "Boost" None = "Boost: nan"
  /\ format_value None = "nan"
  /\ ~ integer_text (format_value None)
  /\ ~ two_decimals_text (format_value None).
Proof.
  split; [reflexivity|]. split; [reflexivity|]. split; [reflexivity|].
  cbn [format_value]. split.
  - intros (neg & ds & E & Hne & Hd).
    destruct neg; [discriminate E|].
    destruct ds as [|c ds]; [congruence|].
    cbn in E. injection E as E _. subst c.
    inversion Hd as [|? ? D _]. discriminate D.
  - intros (neg & ds & d1 & d2 & E & Hne & Hd & _).
    destruct neg; [discriminate E|].
    destruct ds as [|c ds]; [congruence|].
    cbn in E. injection E as E _. subst c.
    inversion Hd as [|? ? D _]. discriminate D.
Qed.

(** ** The cursor callback *)

Lemma getitem_in_range {A : Type} (a : list A) (i : Z) :
  (0 <= i < Z.of_nat (List.length a))%Z -> exists v, getitem a i = Ok v.
Proof.
  intro H. destruct a as [|d a]; [simpl in H; lia|].
  exists (nth (Z.to_nat i) (d :: a) d).
  rewrite <- (Z2Nat.id i) at 1 by lia.
  apply getitem_nth. lia.
Qed.

Lemma getitem_last {A : Type} (a : list A) :
  a <> [] -> exists v, getitem a (-1) = Ok v.
Proof.
  intro H. destruct a as [|d a]; [congruence|].
  unfold getitem. cbn [Z.ltb Z.compare].
  set (n := Z.of_nat (List.length (d :: a))).
  assert (Hn : (1 <= n)%Z) by (unfold n; simpl List.length; lia).
  destruct (-1 + n <? 0)%Z eqn:E; [apply Z.ltb_lt in E; lia|].
  destruct (nth_error (d :: a) (Z.to_nat (-1 + n))) eqn:N; [eauto|].
  apply nth_error_None in N. unfold n in *. lia.
Qed.

Lemma series_labels_ok (idx : Z) (series : list (string * list cell)) :
  (forall name y, In (name, y) series ->
                  (0 <= idx < Z.of_nat (List.length y))%Z) ->
  exists labels, series_labels idx series = Ok labels
                 /\ List.length labels = List.length series.
Proof.
  induction series as [|[name y] rest IH]; intro H; cbn [series_labels].
  - exists []. split; reflexivity.
  - destruct (getitem_in_range y idx (H name y (or_introl eq_refl)))
      as [v Hv].
    rewrite Hv. cbn [bind].
    destruct IH as (labels & El & Ll).
    { intros n' y' Hin. apply (H n' y'). right. exact Hin. }
    rewrite El. cbn [bind]. eexists. split; [reflexivity|].
    simpl. rewrite Ll. reflexivity.
Qed.

(** With a non-empty time axis and series as long as it, [on_move]
    raises nothing: every lookup at the snapped index is in range. *)
Lemma on_move_never_raises (t : list Q) (st : plot_state)
  (xdata : option Q) (prev : cursor) :
  t <> [] ->
  Forall (fun y => List.length y = List.length t) (y_series st) ->
  Forall (fun p => List.length (snd p) = List.length t) (boost_extra_series st) ->
  Forall (fun p => List.length (snd p) = List.length t) (pedal_extra_series st) ->
  exists c, on_move t st xdata prev = Ok c.
Proof.
  intros Ht Hy Hb Hp. unfold on_move.
  destruct xdata as [x|]; [|eauto].
  assert (Hlen : 0 < List.length t) by (destruct t; [congruence|simpl; lia]).
  destruct (getitem_in_range t 0 ltac:(lia)) as [t0 E0]. rewrite E0.
  destruct (getitem_last t Ht) as [t1 E1]. rewrite E1. cbn [bind].
  destruct (Qltb x t0 || Qltb t1 x); [eauto|].
  destruct (nearest_index_total x t) as (i & Ei & Hi). specialize (Hi Ht).
  rewrite Ei. cbn [bind].
  assert (R : (0 <= Z.of_nat i < Z.of_nat (List.length t))%Z) by lia.
  destruct (getitem_in_range t (Z.of_nat i) R) as [ti Eti].
  rewrite Eti. cbn [bind].
  destruct (series_labels_ok (Z.of_nat i)
              (combine (map (fun p => fst (fst p)) PLOTS) (y_series st)))
    as (l1 & El1 & _).
  { intros name y Hin. apply in_combine_r in Hin.
    rewrite Forall_forall in Hy. rewrite (Hy y Hin). exact R. }
  rewrite El1. cbn [bind].
  assert (X : forall series,
             Forall (fun p : string * list cell =>
                       List.length (snd p) = List.length t) series ->
             exists l, series_labels (Z.of_nat i) series = Ok l).
  { intros series Hs.
    destruct (series_labels_ok (Z.of_nat i) series) as (l & El & _); [|eauto].
    intros name y Hin. rewrite Forall_forall in Hs.
    specialize (Hs (name, y) Hin). simpl in Hs. rewrite Hs. exact R. }
  destruct (boost_ax_index st);
    [destruct (X _ Hb) as [l2 El2]; rewrite El2|]; cbn [bind];
    (destruct (pedal_ax_index st);
     [destruct (X _ Hp) as [l3 El3]; rewrite El3|]; cbn [bind]; eauto).
Qed.

Section CursorAfterMain.

Variable float_of_str : string -> option Q.

Let sized (n : nat) (st : plot_state) : Prop :=
  Forall (fun y => List.length y = n) (y_series st)
  /\ Forall (fun p => List.length (snd p) = n) (boost_extra_series st)
  /\ Forall (fun p => List.length (snd p) = n) (pedal_extra_series st).

Lemma plot_channel_sized (df : DataFrame) (colmap : dict)
  (st st' : plot_state) (ax_i : nat) (friendly_name : string) :
  sized (List.length (rows df)) st ->
  plot_channel float_of_str df colmap st ax_i friendly_name = Ok st' ->
  sized (List.length (rows df)) st'.
Proof.
  intros (Hy & Hb & Hp). unfold plot_channel.
  destruct (numeric_column float_of_str df _) as [y|e] eqn:Ey;
    cbn [bind]; [|discriminate].
  apply length_numeric_column in Ey.
  destruct (String.eqb friendly_name "Boost").
  - destruct (numeric_column float_of_str df "Boost2") as [y2|e] eqn:E2;
      cbn [bind]; [|discriminate].
    destruct (numeric_column float_of_str df "Target") as [y3|e] eqn:E3;
      cbn [bind]; [|discriminate].
    apply length_numeric_column in E2, E3.
    intro H. injection H as <-. unfold sized. cbn.
    repeat split; try assumption; apply Forall_app; split; try assumption;
      repeat constructor; assumption.
  - destruct (String.eqb friendly_name "Pedal").
    + destruct (numeric_column float_of_str df "Throttle") as [y2|e] eqn:E2;
        cbn [bind]; [|discriminate].
      apply length_numeric_column in E2.
      intro H. injection H as <-. unfold sized. cbn.
      repeat split; try assumption; apply Forall_app; split; try assumption;
        repeat constructor; assumption.
    + intro H. injection H as <-. unfold sized. cbn.
      repeat split; try assumption; apply Forall_app; split; try assumption;
        repeat constructor; assumption.
Qed.

Lemma plot_loop_sized (df : DataFrame) (colmap : dict)
  (plots : list (string * string * (Z * Z))) (st st' : plot_state)
  (ax_i : nat) :
  sized (List.length (rows df)) st ->
  plot_loop float_of_str df colmap st ax_i plots = Ok st' ->
  sized (List.length (rows df)) st'.
Proof.
  revert st ax_i. induction plots as [|[[name lbl] lim] plots IH];
    intros st ax_i Hs; cbn [plot_loop].
  - intro H. injection H as <-. exact Hs.
  - destruct (plot_channel float_of_str df colmap st ax_i name) as [st1|e] eqn:E;
      cbn [bind]; [|discriminate].
    apply (IH st1 (S ax_i)).
    apply (plot_channel_sized df colmap st st1 ax_i name Hs E).
Qed.

(** What [main] hands to the cursor: a non-empty time axis of numbers
    and series of the same length, so [on_move] never raises. *)
Lemma on_move_after_main (f : csv_file) (t : list cell) (st : plot_state)
  (xdata : option Q) (prev : cursor) :
  main float_of_str f = Ok (t, st) ->
  List.length (time_axis t) = List.length t
  /\ time_axis t <> []
  /\ exists c, on_move (time_axis t) st xdata prev = Ok c.
Proof.
  unfold main. intro H.
  destruct (read_jb4_csv float_of_str f) as [df|e] eqn:Edf;
    cbn [bind] in H; [|discriminate].
  destruct (read_jb4_csv_inv float_of_str f df Edf) as (k & raw & j & Hk & Hraw & Hj).
  pose proof (read_jb4_csv_rows float_of_str f k j raw Hk Hraw Hj) as Edf'.
  rewrite Edf in Edf'. injection Edf' as Edf'.
  assert (Et' : get_column df "timestamp"
                = Ok (map Num (parsed_times float_of_str j (rows raw)))).
  { rewrite Edf'. unfold get_column. cbn [columns rows]. rewrite Hj.
    rewrite time_column_of_survivors. reflexivity. }
  set (t' := map Num (parsed_times float_of_str j (rows raw))) in *.
  assert (Hlen : List.length t' = List.length (rows df)).
  { destruct (get_column_present df "timestamp") as (s & Es & Ls).
    - rewrite Edf'. cbn [columns]. apply has_column_index_of. eauto.
    - rewrite Et' in Es. injection Es as <-. exact Ls. }
  unfold plot_table in H.
  destruct (resolve_columns df) as [colmap|e]; cbn [bind] in H; [|discriminate].
  rewrite Et' in H. cbn [bind] in H.
  destruct (List.length t' =? 0) eqn:Z; [discriminate|].
  apply Nat.eqb_neq in Z.
  destruct (plot_loop float_of_str df colmap _ 0 PLOTS) as [st'|e] eqn:El;
    cbn [bind] in H; [|discriminate].
  injection H as <- <-.
  assert (Ha : List.length (time_axis t') = List.length t').
  { unfold t'. rewrite time_axis_map_Num, length_map. reflexivity. }
  assert (Hne : time_axis t' <> []).
  { intro N. rewrite N in Ha. simpl in Ha. lia. }
  split; [exact Ha|]. split; [exact Hne|].
  assert (H0 : sized (List.length (rows df))
                 {| y_series := []; boost_ax_index := None;
                    boost_extra_series := []; pedal_ax_index := None;
                    pedal_extra_series := [] |}).
  { unfold sized. cbn. repeat split; constructor. }
  destruct (plot_loop_sized df colmap PLOTS _ st' 0 H0 El) as (Hy & Hb & Hp).
  rewrite <- Hlen, <- Ha in Hy, Hb, Hp.
  apply on_move_never_raises; assumption.
Qed.

End CursorAfterMain.

(** * Further properties of the code *)

(** ** Header detection *)

(** X1. [find_header_line] ends in one of two ways: it returns the index
    of the first line that begins, after leading whitespace, with the
    marker, or, when no line does, it raises the [ValueError] that
    quotes the marker and the path. *)
Theorem find_header_line_outcome (f : csv_file) (m : string) :
  (exists k,
      find_header_line f m = Ok k
      /\ k < List.length (lines f)
      /\ is_header_line m (nth k (lines f) "") = true
      /\ forall p, p < k -> is_header_line m (nth p (lines f) "") = false)
  \/ (find_header_line f m = Raise (ValueError (header_not_found m (path f)))
      /\ Forall (fun l => is_header_line m l = false) (lines f)).
Proof.
  destruct (find_header_line f m) as [k|e] eqn:E.
  - left. exists k. split; [reflexivity|].
    apply find_header_line_first, E.
  - right. unfold find_header_line in E.
    destruct (scan_header m 0 (lines f)) eqn:S; [discriminate|].
    injection E as <-. split; [reflexivity|].
    apply (scan_header_none m (lines f) 0), S.
Qed.

(** ** The table [read_jb4_csv] returns *)

Lemma length_pad_row (n : nat) (r : row) :
  List.length r <= n -> List.length (pad_row n r) = n.
Proof.
  intro H. unfold pad_row. rewrite length_app, repeat_length. lia.
Qed.

Lemma read_csv_shape (f : csv_file) (k : nat) (raw : DataFrame) :
  read_csv f k = Ok raw ->
  Forall (fun r => List.length r = List.length (columns raw)) (rows raw).
Proof.
  unfold read_csv.
  destruct (skipn k (records f)) as [|h body]; [discriminate|].
  cbv zeta.
  match goal with
  | |- context [if ?b then _ else _] => destruct b eqn:W; [|discriminate]
  end.
  intro H. injection H as <-. cbn [columns rows].
  rewrite forallb_forall in W.
  apply Forall_forall. intros r Hr.
  apply in_map_iff in Hr. destruct Hr as (r0 & <- & Hr0).
  apply length_pad_row. apply Nat.leb_le. apply W, Hr0.
Qed.

(** X2. The table [read_jb4_csv] returns is rectangular: every row has
    exactly one cell per column label. *)
Theorem read_jb4_csv_rectangular
  (float_of_str : string -> option Q) (f : csv_file) (df : DataFrame) :
  read_jb4_csv float_of_str f = Ok df ->
  Forall (fun r => List.length r = List.length (columns df)) (rows df).
Proof.
  intro H.
  destruct (read_jb4_csv_inv float_of_str f df H)
    as (k & raw & j & Hk & Hraw & Hj).
  rewrite (read_jb4_csv_rows float_of_str f k j raw Hk Hraw Hj) in H.
  injection H as <-. cbn [columns rows].
  pose proof (read_csv_shape f k raw Hraw) as S.
  rewrite Forall_forall in S.
  apply Forall_forall. intros r Hr.
  apply in_map_iff in Hr. destruct Hr as (r0 & <- & Hr0).
  apply filter_In in Hr0. destruct Hr0 as [Hr0 _].
  unfold coerce_time. rewrite length_replace_at, length_map.
  apply S, Hr0.
Qed.

Lemma read_jb4_csv_rectangular_witness :
  exists df,
    read_jb4_csv Decimal.parse_float sample_log = Ok df
    /\ Forall (fun r => List.length r = 2) (rows df).
Proof.
  eexists. split; [reflexivity|].
  apply (read_jb4_csv_rectangular Decimal.parse_float sample_log _ eq_refl).
Defined.

(** What [read_csv] returns when the marker line is the header row. *)
Lemma read_csv_after_marker (f : csv_file) (k : nat) :
  find_header_line f "timestamp" = Ok k ->
  Forall (fun l => is_blank_line l = false) (firstn k (lines f)) ->
  let header := nth k (lines f) "" in
  let body :=
    filter (fun l => negb (is_blank_line l)) (skipn (S k) (lines f)) in
  let width := List.length (PyStr.split_comma header) in
  Forall (fun l => List.length (PyStr.split_comma l) <= width) body ->
  read_csv f k
  = Ok {| columns := PyStr.split_comma header;
          rows := map (pad_row width) (map parse_row body) |}.
Proof.
  intros Hk Hb header body width Hw.
  unfold read_csv.
  rewrite (read_csv_header_is_marker_line f k Hk Hb).
  cbv zeta.
  match goal with
  | |- context [if ?b then _ else _] =>
      assert (W : b = true); [|rewrite W; reflexivity]
  end.
  apply forallb_forall. intros r Hr.
  apply in_map_iff in Hr. destruct Hr as (l & <- & Hl).
  apply Nat.leb_le. unfold parse_row. rewrite length_map.
  rewrite Forall_forall in Hw. apply Hw, Hl.
Qed.

Lemma parsed_times_length
  (float_of_str : string -> option Q) (j : nat) (rs : list row) :
  List.length (parsed_times float_of_str j rs)
  = List.length (filter (fun r => coercible float_of_str (time_cell j r)) rs).
Proof.
  unfold parsed_times, to_numeric, time_axis, coercible.
  induction rs as [|r rs IH]; [reflexivity|].
  cbn [map flat_map filter].
  rewrite length_app, IH.
  destruct (to_numeric_cell float_of_str (time_cell j r)) as [s|q|] eqn:E;
    cbn [is_nan negb List.length]; try reflexivity.
  exfalso. revert E. unfold to_numeric_cell.
  destruct (time_cell j r) as [t| |]; try discriminate.
  destruct (float_of_str t); discriminate.
Qed.

Lemma filter_all {A : Type} (p : A -> bool) (l : list A) :
  forallb p l = true -> filter p l = l.
Proof.
  induction l as [|x l IH]; [reflexivity|].
  cbn [forallb filter]. intro H. apply andb_true_iff in H.
  destruct H as [Hx Hl]. rewrite Hx, (IH Hl). reflexivity.
Qed.

(** X4. For a file of plain text (printable ASCII and tabs, no quote
    character) with no blank line before the marker line, no data line
    with more fields than the marker line, and labels that are neither
    empty nor repeated once cleaned, [read_jb4_csv] succeeds as soon as
    a label cleans to [timestamp]: the labels are the cleaned fields of
    the marker line, the time column holds the times of the non-blank
    lines after it that pass coercion, in order, with one row for each,
    and no line before the marker line contributes a row; when every
    time passes coercion there is one row per data line. *)
Theorem read_jb4_csv_without_blank_preamble
  (float_of_str : string -> option Q) (f : csv_file) (k j : nat) :
  forallb plain_text (lines f) = true ->
  find_header_line f "timestamp" = Ok k ->
  Forall (fun l => is_blank_line l = false) (firstn k (lines f)) ->
  let header := nth k (lines f) "" in
  let body :=
    filter (fun l => negb (is_blank_line l)) (skipn (S k) (lines f)) in
  let width := List.length (PyStr.split_comma header) in
  let labels := map clean_label (PyStr.split_comma header) in
  let table := map (fun l => pad_row width (parse_row l)) body in
  Forall (fun l => List.length (PyStr.split_comma l) <= width) body ->
  kept_labels labels = true ->
  index_of "timestamp" labels = Some j ->
  exists df,
    read_jb4_csv float_of_str f = Ok df
    /\ columns df = labels
    /\ get_column df "timestamp"
       = Ok (map Num (parsed_times float_of_str j table))
    /\ List.length (rows df)
       = List.length (parsed_times float_of_str j table)
    /\ List.length (rows df) <= List.length body
    /\ (forallb (fun r => coercible float_of_str (time_cell j r)) table = true ->
        List.length (rows df) = List.length body).
Proof.
  intros _ Hk Hb header body width labels table Hw _ Hj.
  pose proof (read_csv_after_marker f k Hk Hb Hw) as Hraw.
  cbv zeta in Hraw. fold header body width in Hraw.
  rewrite map_map in Hraw. fold table in Hraw.
  eexists.
  split; [apply (read_jb4_csv_rows float_of_str f k j _ Hk Hraw Hj)|].
  cbn [columns rows].
  split; [reflexivity|].
  split.
  { unfold get_column. cbn [columns rows]. fold labels. rewrite Hj.
    rewrite time_column_of_survivors. reflexivity. }
  rewrite length_map, parsed_times_length.
  split; [reflexivity|].
  split.
  { etransitivity; [apply filter_length_le|].
    unfold table. rewrite length_map. reflexivity. }
  intro Hall.
  rewrite (filter_all _ _ Hall).
  unfold table. apply length_map.
Qed.

Lemma read_jb4_csv_without_blank_preamble_witness :
  exists df,
    read_jb4_csv Decimal.parse_float sample_log = Ok df
    /\ columns df = ["timestamp"; "RPM"]
    /\ get_column df "timestamp" = Ok [Num 0.5%Q; Num 1.5%Q]
    /\ List.length (rows df) <= 3.
Proof.
  assert (P : forallb plain_text (lines sample_log) = true) by reflexivity.
  assert (B : Forall (fun l => is_blank_line l = false)
                (firstn 1 (lines sample_log))).
  { repeat constructor. }
  assert (W : Forall (fun l => List.length (PyStr.split_comma l)
                               <= List.length
                                    (PyStr.split_comma
                                       (nth 1 (lines sample_log) "")))
                (filter (fun l => negb (is_blank_line l))
                   (skipn 2 (lines sample_log)))).
  { repeat constructor. }
  destruct (read_jb4_csv_without_blank_preamble
              Decimal.parse_float sample_log 1 0 P eq_refl B W eq_refl eq_refl)
    as (df & Hdf & Hc & Ht & _ & Hl & _).
  exists df. split; [exact Hdf|]. split; [exact Hc|].
  split; [|exact Hl].
  rewrite Ht. vm_compute. reflexivity.
Defined.

(** ** Label cleaning *)

Lemma lstrip_no_leading_space (s : string) :
  starts_with_space (PyStr.lstrip s) = false.
Proof.
  induction s as [|c s IH]; simpl; [reflexivity|].
  destruct (PyStr.is_space c) eqn:E; [exact IH|]. simpl. exact E.
Qed.

Lemma rstrip_keeps_start (s : string) :
  starts_with_space s = false -> starts_with_space (PyStr.rstrip s) = false.
Proof.
  destruct s as [|c s]; simpl; [reflexivity|].
  intro H. rewrite H. destruct (PyStr.rstrip s); simpl; exact H.
Qed.

Lemma rstrip_idem (s : string) :
  PyStr.rstrip (PyStr.rstrip s) = PyStr.rstrip s.
Proof.
  induction s as [|c s IH]; simpl; [reflexivity|].
  destruct (PyStr.rstrip s) as [|d r] eqn:R.
  - destruct (PyStr.is_space c) eqn:E; simpl; [reflexivity|].
    rewrite E. reflexivity.
  - simpl in IH. simpl.
    destruct (PyStr.rstrip r) as [|d' r'] eqn:R'.
    + destruct (PyStr.is_space d) eqn:E; [discriminate|].
      injection IH as <-. reflexivity.
    + rewrite IH. reflexivity.
Qed.

Lemma rstrip_fixed_tail (c : ascii) (s : string) :
  PyStr.rstrip (String c s) = String c s ->
  PyStr.rstrip s = s /\ (s = "" -> PyStr.is_space c = false).
Proof.
  simpl. destruct (PyStr.rstrip s) as [|d r] eqn:R.
  - destruct (PyStr.is_space c) eqn:E; [discriminate|].
    intro H. injection H as <-. split; [reflexivity|reflexivity].
  - intro H. injection H as <-. split; [reflexivity|discriminate].
Qed.

Lemma collapse_ws_single_spaced (u : string) :
  PyStr.rstrip u = u ->
  (forall b, single_spaced (PyStr.collapse_ws b u) = true)
  /\ (u <> "" ->
      PyStr.collapse_ws true u <> ""
      /\ starts_with_space (PyStr.collapse_ws true u) = false).
Proof.
  induction u as [|c u IH]; intro H.
  - split; [reflexivity|congruence].
  - destruct (rstrip_fixed_tail c u H) as [Hu Hc].
    destruct (IH Hu) as [IH1 IH2].
    cbn [PyStr.collapse_ws].
    destruct (PyStr.is_space c) eqn:E.
    + assert (Hne : u <> "") by (intro N; specialize (Hc N); congruence).
      destruct (IH2 Hne) as [N1 N2].
      split.
      * intros [|]; [apply IH1|].
        cbn [single_spaced]. change (PyStr.is_space " "%char) with true.
        cbn [Ascii.eqb Bool.eqb andb].
        rewrite IH1.
        destruct (PyStr.collapse_ws true u) as [|d r]; [congruence|].
        simpl in N2. rewrite N2. reflexivity.
      * intros _. split; assumption.
    + split.
      * intro b. cbn [single_spaced]. rewrite E, IH1. reflexivity.
      * intros _. split; [discriminate|]. simpl. exact E.
Qed.

Lemma collapse_ws_keeps_start (s : string) :
  starts_with_space s = false ->
  starts_with_space (PyStr.collapse_ws false s) = false.
Proof.
  destruct s as [|c s]; simpl; [reflexivity|].
  intro H. rewrite H. simpl. exact H.
Qed.

Lemma single_spaced_rstrip (t : string) :
  single_spaced t = true -> PyStr.rstrip t = t.
Proof.
  induction t as [|c t IH]; [reflexivity|].
  cbn [single_spaced]. intro H. apply andb_true_iff in H.
  destruct H as [Hc Ht]. specialize (IH Ht).
  simpl. rewrite IH.
  destruct t as [|d t]; [|reflexivity].
  destruct (PyStr.is_space c); [|reflexivity].
  rewrite andb_false_r in Hc. discriminate.
Qed.

Lemma single_spaced_collapse (t : string) (b : bool) :
  single_spaced t = true ->
  (b = true -> starts_with_space t = false) ->
  PyStr.collapse_ws b t = t.
Proof.
  revert b. induction t as [|c t IH]; intros b H Hb; [reflexivity|].
  cbn [single_spaced] in H. apply andb_true_iff in H. destruct H as [Hc Ht].
  cbn [PyStr.collapse_ws].
  destruct (PyStr.is_space c) eqn:E.
  - apply andb_true_iff in Hc. destruct Hc as [Hsp Hnext].
    apply Ascii.eqb_eq in Hsp. subst c.
    destruct b; [specialize (Hb eq_refl); simpl in Hb; congruence|].
    f_equal. apply IH; [exact Ht|]. intros _.
    destruct t as [|d t]; [discriminate|].
    simpl. apply negb_true_iff, Hnext.
  - f_equal. apply IH; [exact Ht|discriminate].
Qed.

Lemma visible_lstrip (s : string) : visible (PyStr.lstrip s) = visible s.
Proof.
  induction s as [|c s IH]; simpl; [reflexivity|].
  destruct (PyStr.is_space c) eqn:E; [exact IH|]. simpl. rewrite E. reflexivity.
Qed.

Lemma visible_rstrip (s : string) : visible (PyStr.rstrip s) = visible s.
Proof.
  induction s as [|c s IH]; [reflexivity|].
  cbn [PyStr.rstrip].
  destruct (PyStr.rstrip s) as [|d r].
  - cbn [visible] in *. rewrite <- IH.
    destruct (PyStr.is_space c) eqn:E; cbn [visible]; [reflexivity|].
    rewrite E. reflexivity.
  - set (w := String d r) in *. cbn [visible]. rewrite IH. reflexivity.
Qed.

Lemma visible_collapse_ws (b : bool) (s : string) :
  visible (PyStr.collapse_ws b s) = visible s.
Proof.
  revert b. induction s as [|c s IH]; intro b; simpl; [reflexivity|].
  destruct (PyStr.is_space c) eqn:E.
  - destruct b; [apply IH|]. simpl. apply IH.
  - simpl. rewrite E, IH. reflexivity.
Qed.

(** X5. A cleaned label has no whitespace at either end and single
    spaces between its words; cleaning it again changes nothing; and
    cleaning never touches a character that is not whitespace. *)
Theorem clean_label_normal_form (s : string) :
  starts_with_space (clean_label s) = false
  /\ single_spaced (clean_label s) = true
  /\ clean_label (clean_label s) = clean_label s
  /\ visible (clean_label s) = visible s.
Proof.
  unfold clean_label, PyStr.strip.
  set (u := PyStr.rstrip (PyStr.lstrip s)).
  assert (Hu : PyStr.rstrip u = u) by apply rstrip_idem.
  assert (Hs : starts_with_space u = false)
    by apply rstrip_keeps_start, lstrip_no_leading_space.
  destruct (collapse_ws_single_spaced u Hu) as [S1 _].
  set (t := PyStr.collapse_ws false u).
  assert (T1 : starts_with_space t = false) by apply collapse_ws_keeps_start, Hs.
  assert (T2 : single_spaced t = true) by apply S1.
  split; [exact T1|]. split; [exact T2|]. split.
  - assert (L : PyStr.lstrip t = t).
    { destruct t as [|c r]; [reflexivity|]. simpl in *. rewrite T1. reflexivity. }
    rewrite L, (single_spaced_rstrip t T2).
    apply single_spaced_collapse; [exact T2|discriminate].
  - unfold t, u. rewrite visible_collapse_ws, visible_rstrip, visible_lstrip.
    reflexivity.
Qed.

(** ** What [resolve_columns] guarantees to [main] *)

Lemma resolve_columns_ok_inv (df : DataFrame) (m : dict) :
  resolve_columns df = Ok m ->
  exists b s,
    m = (map (fun n => (n, n)) fixed_channels
           ++ [("Boost", b); ("Speed", s)])%list
    /\ In b boost_aliases /\ has_column (columns df) b = true
    /\ In s speed_aliases /\ has_column (columns df) s = true
    /\ forallb (has_column (columns df)) fixed_channels = true.
Proof.
  rewrite resolve_columns_by_table.
  destruct (first_available (columns df) boost_aliases) as [b|] eqn:Eb;
    [|discriminate].
  destruct (first_available (columns df) speed_aliases) as [s|] eqn:Es;
    [|discriminate].
  destruct (filter _ fixed_channels) as [|n l] eqn:M; [|discriminate].
  intro H. injection H as <-.
  apply find_some in Eb, Es. apply no_missing_iff in M.
  exists b, s. tauto.
Qed.

(** X6. A mapping returned by [resolve_columns] has the seven logical
    names in the order RPM, Pedal, Throttle, AFR, IAT, Boost, Speed, and
    every physical name in it is a label of the table; so the lookup
    [df[colmap.get(name, name)]] succeeds for every channel of [PLOTS],
    and so does [df["Throttle"]]. *)
Theorem resolve_columns_mapping_valid (df : DataFrame) (m : dict) :
  resolve_columns df = Ok m ->
  map fst m = ["RPM"; "Pedal"; "Throttle"; "AFR"; "IAT"; "Boost"; "Speed"]
  /\ Forall (fun kv => has_column (columns df) (snd kv) = true) m
  /\ (forall friendly_name,
        In friendly_name (map (fun p => fst (fst p)) PLOTS) ->
        exists y, get_column df (dict_get m friendly_name friendly_name) = Ok y)
  /\ exists y, get_column df "Throttle" = Ok y.
Proof.
  intro H.
  destruct (resolve_columns_ok_inv df m H)
    as (b & s & -> & _ & Hb & _ & Hs & Hf).
  unfold fixed_channels in *. cbn [forallb] in Hf.
  repeat (apply andb_true_iff in Hf; destruct Hf as [? Hf]).
  split; [reflexivity|].
  assert (P : forall n, has_column (columns df) n = true ->
                        exists y, get_column df n = Ok y).
  { intros n Hn. destruct (get_column_present df n Hn) as (y & Hy & _). eauto. }
  split; [|split].
  - cbn [map app]. repeat constructor; assumption.
  - intros name Hin. cbn in Hin.
    repeat (destruct Hin as [<-|Hin]; [apply P; cbn; assumption|]).
    destruct Hin.
  - apply P. assumption.
Qed.

Lemma resolve_columns_mapping_valid_witness :
  exists m,
    resolve_columns ecu_gps_table = Ok m
    /\ map fst m = ["RPM"; "Pedal"; "Throttle"; "AFR"; "IAT"; "Boost"; "Speed"].
Proof.
  eexists. split; [reflexivity|].
  apply (resolve_columns_mapping_valid ecu_gps_table _ eq_refl).
Defined.

(** ** The plotting loop of [main] *)

Section PlotTable.

Variable float_of_str : string -> option Q.

Ltac read_column df name H :=
  let y := fresh "y" in
  let Ey := fresh "Ey" in
  destruct (numeric_column_present float_of_str df name H) as (y & Ey);
  rewrite Ey;
  cbn [bind String.eqb Ascii.eqb Bool.eqb y_series boost_ax_index
         boost_extra_series pedal_ax_index pedal_extra_series app].

Ltac next_channel :=
  unfold plot_channel at 1;
  cbn [dict_get fixed_channels map app String.eqb Ascii.eqb Bool.eqb
         y_series boost_ax_index boost_extra_series pedal_ax_index
         pedal_extra_series].

(** The loop on a table that has every column it reads. *)
Lemma plot_loop_complete (df : DataFrame) (m : dict) :
  resolve_columns df = Ok m ->
  has_column (columns df) "Boost2" = true ->
  has_column (columns df) "Target" = true ->
  exists st,
    plot_loop float_of_str df m
      {| y_series := []; boost_ax_index := None; boost_extra_series := [];
         pedal_ax_index := None; pedal_extra_series := [] |} 0 PLOTS = Ok st
    /\ List.length (y_series st) = List.length PLOTS
    /\ boost_ax_index st = Some 1
    /\ map fst (boost_extra_series st) = ["Boost2"; "Target"]
    /\ pedal_ax_index st = Some 2
    /\ map fst (pedal_extra_series st) = ["Throttle"].
Proof.
  intros Hm Hb2 Htg.
  destruct (resolve_columns_ok_inv df m Hm)
    as (b & s & -> & _ & Hb & _ & Hs & Hf).
  unfold fixed_channels in Hf. cbn [forallb] in Hf.
  apply andb_true_iff in Hf. destruct Hf as [Hrpm Hf].
  apply andb_true_iff in Hf. destruct Hf as [Hped Hf].
  apply andb_true_iff in Hf. destruct Hf as [Hthr Hf].
  apply andb_true_iff in Hf. destruct Hf as [Hafr Hf].
  apply andb_true_iff in Hf. destruct Hf as [Hiat _].
  unfold PLOTS. cbn [plot_loop].
  next_channel. read_column df "RPM" Hrpm.
  next_channel. read_column df b Hb.
  read_column df "Boost2" Hb2. read_column df "Target" Htg.
  next_channel. read_column df "Pedal" Hped. read_column df "Throttle" Hthr.
  next_channel. read_column df "AFR" Hafr.
  next_channel. read_column df "IAT" Hiat.
  next_channel. read_column df s Hs.
  eexists. split; [reflexivity|]. repeat split; reflexivity.
Qed.

(** With [Boost2] present and [Target] absent the loop stops on
    [df["Target"]]. *)
Lemma plot_table_without_target (df : DataFrame) (m : dict) :
  resolve_columns df = Ok m ->
  has_column (columns df) "timestamp" = true ->
  rows df <> [] ->
  has_column (columns df) "Boost2" = true ->
  has_column (columns df) "Target" = false ->
  plot_table float_of_str df = Raise (KeyError "Target").
Proof.
  intros Hm Ht Hr Hb2 Htg.
  destruct (resolve_columns_ok_inv df m Hm)
    as (b & s & E & _ & Hb & _ & Hs & Hf).
  unfold fixed_channels in Hf. cbn [forallb] in Hf.
  apply andb_true_iff in Hf. destruct Hf as [Hrpm _].
  unfold plot_table. rewrite Hm. cbn [bind]. subst m.
  destruct (get_column_present df "timestamp" Ht) as (t & Et & Lt).
  rewrite Et. cbn [bind].
  destruct (List.length t =? 0) eqn:Z.
  { apply Nat.eqb_eq in Z. destruct (rows df); [congruence|simpl in Lt; lia]. }
  unfold PLOTS. cbn [plot_loop].
  next_channel. read_column df "RPM" Hrpm.
  next_channel. read_column df b Hb.
  read_column df "Boost2" Hb2.
  rewrite (numeric_column_missing float_of_str df "Target" Htg). reflexivity.
Qed.

End PlotTable.

Section SeriesInvariant.

Variable float_of_str : string -> option Q.
Variable df : DataFrame.
Variable P : list cell -> Prop.

Hypothesis column_good :
  forall col y, numeric_column float_of_str df col = Ok y -> P y.

Let good (st : plot_state) : Prop :=
  Forall P (y_series st)
  /\ Forall (fun p => P (snd p)) (boost_extra_series st)
  /\ Forall (fun p => P (snd p)) (pedal_extra_series st).

Lemma plot_channel_series (colmap : dict) (st st' : plot_state)
  (ax_i : nat) (friendly_name : string) :
  good st ->
  plot_channel float_of_str df colmap st ax_i friendly_name = Ok st' ->
  good st'.
Proof.
  intros (Hy & Hb & Hp). unfold plot_channel.
  destruct (numeric_column float_of_str df _) as [y|e] eqn:Ey;
    cbn [bind]; [|discriminate].
  apply column_good in Ey.
  destruct (String.eqb friendly_name "Boost").
  - destruct (numeric_column float_of_str df "Boost2") as [y2|e] eqn:E2;
      cbn [bind]; [|discriminate].
    destruct (numeric_column float_of_str df "Target") as [y3|e] eqn:E3;
      cbn [bind]; [|discriminate].
    apply column_good in E2, E3.
    intro H. injection H as <-. unfold good. cbn.
    repeat split; try assumption; apply Forall_app; split; try assumption;
      repeat constructor; assumption.
  - destruct (String.eqb friendly_name "Pedal").
    + destruct (numeric_column float_of_str df "Throttle") as [y2|e] eqn:E2;
        cbn [bind]; [|discriminate].
      apply column_good in E2.
      intro H. injection H as <-. unfold good. cbn.
      repeat split; try assumption; apply Forall_app; split; try assumption;
        repeat constructor; assumption.
    + intro H. injection H as <-. unfold good. cbn.
      repeat split; try assumption; apply Forall_app; split; try assumption;
        repeat constructor; assumption.
Qed.

Lemma plot_loop_series (colmap : dict)
  (plots : list (string * string * (Z * Z))) (st st' : plot_state)
  (ax_i : nat) :
  good st ->
  plot_loop float_of_str df colmap st ax_i plots = Ok st' ->
  good st'.
Proof.
  revert st ax_i. induction plots as [|[[name lbl] lim] plots IH];
    intros st ax_i Hs; cbn [plot_loop].
  - intro H. injection H as <-. exact Hs.
  - destruct (plot_channel float_of_str df colmap st ax_i name) as [st1|e] eqn:E;
      cbn [bind]; [|discriminate].
    apply (IH st1 (S ax_i)).
    apply (plot_channel_series colmap st st1 ax_i name Hs E).
Qed.

End SeriesInvariant.

Lemma to_numeric_floats (float_of_str : string -> option Q) (s : list cell) :
  forallb is_float (to_numeric float_of_str s) = true.
Proof.
  unfold to_numeric. induction s as [|c s IH]; simpl; [reflexivity|].
  rewrite IH, andb_true_r.
  destruct c as [txt|q|]; simpl; try reflexivity.
  destruct (float_of_str txt); reflexivity.
Qed.

Lemma read_jb4_csv_has_timestamp
  (float_of_str : string -> option Q) (f : csv_file) (df : DataFrame) :
  read_jb4_csv float_of_str f = Ok df ->
  has_column (columns df) "timestamp" = true
  /\ exists ts, get_column df "timestamp" = Ok (map Num ts)
                /\ List.length ts = List.length (rows df).
Proof.
  intro H.
  destruct (read_jb4_csv_inv float_of_str f df H)
    as (k & raw & j & Hk & Hraw & Hj).
  pose proof (read_jb4_csv_rows float_of_str f k j raw Hk Hraw Hj) as E.
  rewrite H in E. injection E as E.
  assert (Hc : has_column (columns df) "timestamp" = true).
  { rewrite E. cbn [columns]. apply has_column_index_of. eauto. }
  split; [exact Hc|].
  exists (parsed_times float_of_str j (rows raw)).
  assert (G : get_column df "timestamp"
              = Ok (map Num (parsed_times float_of_str j (rows raw)))).
  { rewrite E. unfold get_column. cbn [columns rows]. rewrite Hj.
    rewrite time_column_of_survivors. reflexivity. }
  split; [exact G|].
  destruct (get_column_present df "timestamp" Hc) as (s & Es & Ls).
  rewrite G in Es. injection Es as <-. rewrite length_map in Ls. exact Ls.
Qed.

(** ** How [main] ends *)

Section MainOutcome.

Variable float_of_str : string -> option Q.

Let start : plot_state :=
  {| y_series := []; boost_ax_index := None; boost_extra_series := [];
     pedal_ax_index := None; pedal_extra_series := [] |}.

(** What a successful run of [main] went through. *)
Lemma main_ok_inv (f : csv_file) (t : list cell) (st : plot_state) :
  main float_of_str f = Ok (t, st) ->
  exists df m ts,
    read_jb4_csv float_of_str f = Ok df
    /\ resolve_columns df = Ok m
    /\ t = map Num ts
    /\ ts <> []
    /\ List.length ts = List.length (rows df)
    /\ plot_loop float_of_str df m start 0 PLOTS = Ok st
    /\ has_column (columns df) "Boost2" = true
    /\ has_column (columns df) "Target" = true.
Proof.
  unfold main. intro H.
  destruct (read_jb4_csv float_of_str f) as [df|e] eqn:Edf;
    cbn [bind] in H; [|discriminate].
  destruct (read_jb4_csv_has_timestamp float_of_str f df Edf)
    as (Hc & ts & Et & Lt).
  pose proof H as H'. unfold plot_table in H.
  destruct (resolve_columns df) as [m|e] eqn:Em; cbn [bind] in H; [|discriminate].
  rewrite Et in H. cbn [bind] in H.
  destruct (List.length (map Num ts) =? 0) eqn:Z; [discriminate|].
  apply Nat.eqb_neq in Z. rewrite length_map in Z.
  assert (Hr : rows df <> []).
  { intro N. rewrite N in Lt. simpl in Lt. lia. }
  fold start in H.
  destruct (plot_loop float_of_str df m start 0 PLOTS) as [st'|e] eqn:El;
    cbn [bind] in H; [|discriminate].
  injection H as <- <-.
  exists df, m, ts.
  repeat split; try assumption; try reflexivity.
  - intro N. rewrite N in Z. simpl in Z. lia.
  - destruct (has_column (columns df) "Boost2") eqn:B; [reflexivity|].
    rewrite (plot_table_without_boost2 float_of_str df m Em Hc Hr B) in H'.
    discriminate.
  - destruct (has_column (columns df) "Boost2") eqn:B.
    + destruct (has_column (columns df) "Target") eqn:T; [reflexivity|].
      rewrite (plot_table_without_target float_of_str df m Em Hc Hr B T) in H'.
      discriminate.
    + rewrite (plot_table_without_boost2 float_of_str df m Em Hc Hr B) in H'.
      discriminate.
Qed.


(** X8. Once [read_jb4_csv] has returned a table whose labels are
    neither empty nor repeated, the steps of [main] that read the table
    (column resolution, the check for an empty table and the column
    lookups of the plotting loop) fail in these ways only: one of the
    three [ValueError]s of [resolve_columns], the no-data [ValueError],
    or a [KeyError] that names [Boost2] or [Target].  No other key is
    missing and no index is out of range. *)
Theorem main_failures (f : csv_file) (df : DataFrame) (e : exn) :
  read_jb4_csv float_of_str f = Ok df ->
  kept_labels (columns df) = true ->
  main float_of_str f = Raise e ->
  e = ValueError boost_not_found
  \/ e = ValueError speed_not_found
  \/ (exists missing,
         e = ValueError (missing_required missing (columns df))
         /\ missing <> []
         /\ forall n, In n missing ->
                      In n fixed_channels
                      /\ has_column (columns df) n = false)
  \/ (e = ValueError no_data /\ rows df = [])
  \/ (e = KeyError "Boost2" /\ has_column (columns df) "Boost2" = false)
  \/ (e = KeyError "Target" /\ has_column (columns df) "Target" = false).
Proof.
  intros Edf _ H. unfold main in H. rewrite Edf in H. cbn [bind] in H.
  destruct (read_jb4_csv_has_timestamp float_of_str f df Edf)
    as (Hc & ts & Et & Lt).
  destruct (resolve_columns df) as [m|e1] eqn:Em.
  2:{ unfold plot_table in H. rewrite Em in H. cbn [bind] in H.
      injection H as <-.
      rewrite resolve_columns_by_table in Em.
      destruct (first_available (columns df) boost_aliases);
        [|injection Em as <-; tauto].
      destruct (first_available (columns df) speed_aliases);
        [|injection Em as <-; tauto].
      destruct (filter _ fixed_channels) as [|n l] eqn:Fm; [discriminate|].
      injection Em as <-. do 2 right. left.
      exists (n :: l). split; [reflexivity|]. split; [discriminate|].
      intros n' Hn'. rewrite <- Fm in Hn'. apply filter_In in Hn'.
      destruct Hn' as [I N]. split; [exact I|].
      destruct (has_column (columns df) n'); [discriminate N|reflexivity]. }
  pose proof H as H'.
  unfold plot_table in H. rewrite Em in H. cbn [bind] in H.
  rewrite Et in H. cbn [bind] in H.
  destruct (List.length (map Num ts) =? 0) eqn:Z.
  { injection H as <-. do 3 right. left. split; [reflexivity|].
    apply Nat.eqb_eq in Z. rewrite length_map, Lt in Z.
    apply length_zero_iff_nil, Z. }
  assert (Hne : rows df <> []).
  { intro N. apply Nat.eqb_neq in Z. rewrite length_map, Lt, N in Z.
    apply Z. reflexivity. }
  destruct (has_column (columns df) "Boost2") eqn:B.
  - destruct (has_column (columns df) "Target") eqn:T.
    + exfalso.
      destruct (plot_loop_complete float_of_str df m Em B T) as (st & El & _).
      rewrite El in H. discriminate H.
    + rewrite (plot_table_without_target float_of_str df m Em Hc Hne B T) in H'.
      injection H' as <-. tauto.
  - rewrite (plot_table_without_boost2 float_of_str df m Em Hc Hne B) in H'.
    injection H' as <-. tauto.
Qed.

(** The shape of what a successful [main] holds. *)
Lemma main_ok_series (f : csv_file) (t : list cell) (st : plot_state) :
  main float_of_str f = Ok (t, st) ->
  t <> []
  /\ Forall (fun c => exists q, c = Num q) t
  /\ List.length (y_series st) = 6
  /\ boost_ax_index st = Some 1
  /\ map fst (boost_extra_series st) = ["Boost2"; "Target"]
  /\ pedal_ax_index st = Some 2
  /\ map fst (pedal_extra_series st) = ["Throttle"]
  /\ Forall (fun y => List.length y = List.length t
                      /\ forallb is_float y = true) (y_series st)
  /\ Forall (fun p => List.length (snd p) = List.length t
                      /\ forallb is_float (snd p) = true)
       (boost_extra_series st)
  /\ Forall (fun p => List.length (snd p) = List.length t
                      /\ forallb is_float (snd p) = true)
       (pedal_extra_series st).
Proof.
  intro H.
  destruct (main_ok_inv f t st H)
    as (df & m & ts & Hdf & Hm & -> & Hne & Hl & El & Hb & Ht).
  destruct (plot_loop_complete float_of_str df m Hm Hb Ht)
    as (st' & El' & S1 & S2 & S3 & S4 & S5).
  fold start in El'. rewrite El in El'. injection El' as <-.
  split; [destruct ts; [congruence|discriminate]|].
  split.
  { apply Forall_forall. intros c Hc. apply in_map_iff in Hc.
    destruct Hc as (q & <- & _). eauto. }
  repeat (split; [assumption|]).
  rewrite length_map, Hl.
  apply (plot_loop_series float_of_str df
           (fun y => List.length y = List.length (rows df)
                     /\ forallb is_float y = true))
    with (colmap := m) (plots := PLOTS) (st := start) (ax_i := 0).
  - intros col y Hy. split; [apply (length_numeric_column _ _ _ _ Hy)|].
    unfold numeric_column in Hy.
    destruct (get_column df col); cbn [bind] in Hy; [|discriminate].
    injection Hy as <-. apply to_numeric_floats.
  - unfold start. cbn. repeat split; constructor.
  - exact El.
Qed.

(** X9. After a successful [main] the time axis holds numbers only and
    is not empty; every series, also the extra ones, has one value per
    point of the time axis, and each value is a number or NaN: text that
    is not a number has become NaN instead of stopping the program.
    There are six main series, [Boost2] and [Target] on axis 1 and
    [Throttle] on axis 2. *)
Theorem main_series (f : csv_file) (t : list cell) (st : plot_state) :
  main float_of_str f = Ok (t, st) ->
  t <> []
  /\ Forall (fun c => exists q, c = Num q) t
  /\ List.length (y_series st) = 6
  /\ boost_ax_index st = Some 1
  /\ map fst (boost_extra_series st) = ["Boost2"; "Target"]
  /\ pedal_ax_index st = Some 2
  /\ map fst (pedal_extra_series st) = ["Throttle"]
  /\ Forall (fun y => List.length y = List.length t
                      /\ forallb is_float y = true) (y_series st)
  /\ Forall (fun p => List.length (snd p) = List.length t
                      /\ forallb is_float (snd p) = true)
       (boost_extra_series st)
  /\ Forall (fun p => List.length (snd p) = List.length t
                      /\ forallb is_float (snd p) = true)
       (pedal_extra_series st).
Proof.
  intro H. exact (main_ok_series f t st H).
Qed.

End MainOutcome.

Lemma main_failures_witness :
  exists df,
    read_jb4_csv Decimal.parse_float no_boost2_log = Ok df
    /\ kept_labels (columns df) = true
    /\ main Decimal.parse_float no_boost2_log = Raise (KeyError "Boost2")
    /\ has_column (columns df) "Boost2" = false.
Proof.
  destruct (read_jb4_csv Decimal.parse_float no_boost2_log) as [df|e0] eqn:R;
    [|vm_compute in R; discriminate R].
  assert (K : kept_labels (columns df) = true).
  { vm_compute in R. injection R as <-. reflexivity. }
  assert (E : main Decimal.parse_float no_boost2_log = Raise (KeyError "Boost2"))
    by (vm_compute; reflexivity).
  exists df. split; [reflexivity|]. split; [exact K|]. split; [exact E|].
  destruct (main_failures Decimal.parse_float no_boost2_log df _ R K E)
    as [H|[H|[(ms & H & _)|[[H _]|[[_ H]|[H _]]]]]];
    try discriminate H. exact H.
Defined.

Lemma main_series_witness :
  exists t st,
    main Decimal.parse_float complete_log = Ok (t, st)
    /\ List.length (y_series st) = 6
    /\ List.length t = 2.
Proof.
  destruct (main Decimal.parse_float complete_log) as [[t st]|e] eqn:E.
  - exists t, st. split; [reflexivity|].
    destruct (main_series Decimal.parse_float complete_log t st E)
      as (_ & _ & H6 & _).
    split; [exact H6|].
    vm_compute in E. injection E as <- _. reflexivity.
  - vm_compute in E. discriminate E.
Defined.

(** ** More on the nearest-sample lookup *)

(** The insertion point of a query between two neighbouring samples. *)
Lemma searchsorted_between (x : Q) (a : list Q) (k : nat) :
  ascending a -> S k < List.length a ->
  (nth k a 0 < x)%Q -> (x <= nth (S k) a 0)%Q ->
  searchsorted a x = S k.
Proof.
  intros Hs Hk Hlo Hhi.
  pose proof (ascending_nth a Hs) as Asc.
  destruct (searchsorted_spec a x Asc) as [Hlt Hge].
  pose proof (searchsorted_range a x) as Hr.
  destruct (Nat.lt_trichotomy (searchsorted a x) (S k)) as [L|[E|G]].
  - exfalso. pose proof (Hge k ltac:(lia) ltac:(lia)). lra.
  - exact E.
  - exfalso. pose proof (Hlt (S k) G). lra.
Qed.

Lemma nearest_index_between (x : Q) (a : list Q) (k : nat) :
  ascending a -> S k < List.length a ->
  (nth k a 0 < x)%Q -> (x <= nth (S k) a 0)%Q ->
  ((nth (S k) a 0 - x < x - nth k a 0)%Q ->
   nearest_index x a = Ok (Z.of_nat (S k)))
  /\ ((x - nth k a 0 <= nth (S k) a 0 - x)%Q ->
      nearest_index x a = Ok (Z.of_nat k)).
Proof.
  intros Hs Hk Hlo Hhi.
  pose proof (searchsorted_between x a k Hs Hk Hlo Hhi) as R.
  destruct (nearest_index_cases x a)
    as [[R0 _]|[[_ [R0 _]]|[[_ [C H]]|[_ [C H]]]]];
    rewrite R in *; try lia.
  - replace (S k - 1) with k in C by lia.
    split; [intros _; exact H|intro C'; exfalso; lra].
  - replace (S k - 1) with k in * by lia.
    split; [intro C'; exfalso; lra|intros _; exact H].
Qed.

(** X10. [nearest_index] needs no sorted input to stay in range: for
    any array, sorted or not, it returns without raising, an index below
    the length when the array is not empty and 0 when it is empty. *)
Theorem nearest_index_any_array (x : Q) (x_arr : list Q) :
  exists i : nat,
    nearest_index x x_arr = Ok (Z.of_nat i)
    /\ (x_arr <> [] -> i < List.length x_arr)
    /\ (x_arr = [] -> i = 0).
Proof.
  destruct (nearest_index_total x x_arr) as (i & Hi & Hb).
  exists i. split; [exact Hi|]. split; [exact Hb|].
  intros ->. unfold nearest_index in Hi. simpl in Hi.
  injection Hi as Hi. lia.
Qed.

(** X11. Ties go to the lower index: for a query above sample [k] and
    at or below sample [k + 1] of an ascending array, the index returned
    is [k] whenever sample [k] is at least as near as sample [k + 1]; in
    particular a query exactly half way between the two returns [k]. *)
Theorem nearest_index_tie_to_lower (x : Q) (x_arr : list Q) (k : nat) :
  ascending x_arr -> S k < List.length x_arr ->
  (nth k x_arr 0 < x)%Q -> (x <= nth (S k) x_arr 0)%Q ->
  ((x - nth k x_arr 0 <= nth (S k) x_arr 0 - x)%Q ->
   nearest_index x x_arr = Ok (Z.of_nat k))
  /\ ((x == (nth k x_arr 0 + nth (S k) x_arr 0) / 2)%Q ->
      nearest_index x x_arr = Ok (Z.of_nat k)).
Proof.
  intros Hs Hk Hlo Hhi.
  destruct (nearest_index_between x x_arr k Hs Hk Hlo Hhi) as [_ L].
  split; [exact L|].
  intro M. apply L.
  assert (E : (2 * x == nth k x_arr 0 + nth (S k) x_arr 0)%Q).
  { rewrite M. field. }
  lra.
Qed.

Lemma nearest_index_tie_to_lower_witness :
  nearest_index 2%Q [0; 1.5; 2.5; 3.5]%Q = Ok 1%Z.
Proof.
  assert (A : ascending [0; 1.5; 2.5; 3.5]%Q).
  { unfold ascending. repeat constructor; unfold Qle; simpl; lia. }
  assert (K : 2 < List.length [0; 1.5; 2.5; 3.5]%Q) by (simpl; lia).
  assert (L : (nth 1 [0; 1.5; 2.5; 3.5] 0 < 2)%Q) by (unfold Qlt; simpl; lia).
  assert (U : (2 <= nth 2 [0; 1.5; 2.5; 3.5] 0)%Q) by (unfold Qle; simpl; lia).
  destruct (nearest_index_tie_to_lower 2%Q [0; 1.5; 2.5; 3.5]%Q 1 A K L U)
    as (_ & M).
  apply M. reflexivity.
Defined.

(** X12. On an array without repeated values a query equal to a sample
    returns the index of that sample. *)
Theorem nearest_index_exact_hit (x : Q) (x_arr : list Q) (k : nat) :
  strictly_ascending x_arr -> k < List.length x_arr ->
  (x == nth k x_arr 0)%Q ->
  nearest_index x x_arr = Ok (Z.of_nat k).
Proof.
  intros Hs Hk Hx.
  pose proof (strictly_ascending_ascending x_arr Hs) as Ha.
  destruct k as [|k].
  - assert (Hne : x_arr <> []) by (destruct x_arr; [simpl in Hk; lia|discriminate]).
    destruct (nearest_index_ascending x x_arr Ha Hne)
      as (i & Hi & _ & _ & Hlow & _).
    rewrite Hi, (Hlow ltac:(lra)). reflexivity.
  - pose proof (strictly_ascending_nth x_arr Hs k (S k) ltac:(lia) Hk) as Hlt.
    destruct (nearest_index_between x x_arr k Ha Hk ltac:(lra) ltac:(lra))
      as [U _].
    apply U. lra.
Qed.

Lemma nearest_index_exact_hit_witness :
  nearest_index 2.5%Q [0; 1.5; 2.5; 3.5]%Q = Ok 2%Z.
Proof.
  assert (A : strictly_ascending [0; 1.5; 2.5; 3.5]%Q).
  { unfold strictly_ascending. repeat constructor; unfold Qlt; simpl; lia. }
  apply (nearest_index_exact_hit 2.5%Q [0; 1.5; 2.5; 3.5]%Q 2 A).
  - simpl. lia.
  - reflexivity.
Defined.

(** ** The cursor after [main] *)

Lemma getitem_last_nth {A : Type} (a : list A) (d : A) :
  a <> [] -> getitem a (-1) = Ok (nth (List.length a - 1) a d).
Proof.
  intro H.
  assert (L : 0 < List.length a) by (destruct a; [congruence|simpl; lia]).
  unfold getitem. cbn [Z.ltb Z.compare].
  destruct (-1 + Z.of_nat (List.length a) <? 0)%Z eqn:E;
    [apply Z.ltb_lt in E; lia|].
  replace (Z.to_nat (-1 + Z.of_nat (List.length a)))
    with (List.length a - 1) by lia.
  destruct (nth_error a (List.length a - 1)) eqn:N.
  - rewrite (nth_error_nth _ _ d N). reflexivity.
  - apply nth_error_None in N. lia.
Qed.

Lemma series_labels_length (idx : Z) (series : list (string * list cell))
  (labels : list string) :
  series_labels idx series = Ok labels ->
  List.length labels = List.length series.
Proof.
  revert labels. induction series as [|[name y] rest IH]; intros labels;
    cbn [series_labels].
  - intro H. injection H as <-. reflexivity.
  - destruct (getitem y idx); cbn [bind]; [|discriminate].
    destruct (series_labels idx rest) as [l|]; cbn [bind]; [|discriminate].
    intro H. injection H as <-. simpl. rewrite (IH l eq_refl). reflexivity.
Qed.

Lemma getitem_ok_nth {A : Type} (a : list A) (i : Z) (v d : A) :
  getitem a i = Ok v -> (0 <= i)%Z -> v = nth (Z.to_nat i) a d.
Proof.
  unfold getitem. intros H Hi.
  destruct (i <? 0)%Z eqn:E; [apply Z.ltb_lt in E; lia|].
  rewrite E in H.
  destruct (nth_error a (Z.to_nat i)) eqn:N; [|discriminate].
  injection H as <-. symmetry. apply (nth_error_nth _ _ d N).
Qed.

Lemma series_labels_content (idx : Z) (series : list (string * list cell))
  (labels : list string) :
  (0 <= idx)%Z ->
  series_labels idx series = Ok labels ->
  labels = map (fun p => readout (fst p)
                           (float_of_cell (nth (Z.to_nat idx) (snd p) NaN)))
             series.
Proof.
  intro Hi. revert labels.
  induction series as [|[name y] rest IH]; intros labels; cbn [series_labels].
  - intro H. injection H as <-. reflexivity.
  - destruct (getitem y idx) as [v|] eqn:G; cbn [bind]; [|discriminate].
    destruct (series_labels idx rest) as [l|]; cbn [bind]; [|discriminate].
    intro H. injection H as <-. simpl.
    rewrite (getitem_ok_nth y idx v NaN G Hi), (IH l eq_refl). reflexivity.
Qed.

Lemma time_axis_numbers (t : list cell) :
  Forall (fun c => exists q, c = Num q) t ->
  List.length (time_axis t) = List.length t.
Proof.
  unfold time_axis. induction 1 as [|c l [q ->] _ IH]; [reflexivity|].
  simpl. rewrite IH. reflexivity.
Qed.

(** X14. After a successful [main] the callback never raises, whether or
    not the time axis is sorted.  A pointer left of the first time value
    or right of the last hides the cursor; a pointer in between shows it
    at the index [nearest_index] returns, with one readout per axis of
    [PLOTS], each the formatted value of its series at that index, two
    more on the Boost axis and one more on the Pedal axis;
    an event without a position leaves the cursor as it was. *)
Theorem on_move_after_main_shows
  (float_of_str : string -> option Q) (f : csv_file) (t : list cell)
  (st : plot_state) (x : Q) (prev : cursor) :
  main float_of_str f = Ok (t, st) ->
  let ts := time_axis t in
  let t_first := nth 0 ts 0%Q in
  let t_last := nth (List.length ts - 1) ts 0%Q in
  ((x < t_first)%Q \/ (t_last < x)%Q ->
   on_move ts st (Some x) prev = Ok Hidden)
  /\ ((t_first <= x)%Q /\ (x <= t_last)%Q ->
      exists idx labels boost_labels pedal_labels,
        on_move ts st (Some x) prev
        = Ok (Shown idx labels boost_labels pedal_labels)
        /\ nearest_index x ts = Ok idx
        /\ (0 <= idx < Z.of_nat (List.length ts))%Z
        /\ List.length labels = List.length PLOTS
        /\ List.length boost_labels = 2
        /\ List.length pedal_labels = 1
        /\ labels
           = map (fun p => readout (fst p)
                             (float_of_cell (nth (Z.to_nat idx) (snd p) NaN)))
               (combine (map (fun p => fst (fst p)) PLOTS) (y_series st)))
  /\ on_move ts st None prev = Ok prev.
Proof.
  intros H ts t_first t_last.
  destruct (main_ok_series float_of_str f t st H)
    as (Hne & Hnum & H6 & Hbi & Hbn & Hpi & Hpn & Hy & Hb & Hp).
  assert (Hts : List.length ts = List.length t /\ ts <> []).
  { pose proof (time_axis_numbers t Hnum) as L. fold ts in L.
    split; [exact L|]. intro N. rewrite N in L.
    destruct t; [congruence|discriminate]. }
  destruct Hts as [Lts Nts].
  assert (Lpos : 0 < List.length ts) by (destruct ts; [congruence|simpl; lia]).
  split; [|split; [|reflexivity]].
  - intro Out. unfold on_move.
    change 0%Z with (Z.of_nat 0). rewrite (getitem_nth ts 0 0%Q Lpos).
    rewrite (getitem_last_nth ts 0%Q Nts). cbn [bind].
    fold t_first t_last.
    assert (B : Qltb x t_first || Qltb t_last x = true).
    { apply orb_true_iff. destruct Out as [O|O]; [left|right];
        apply Qltb_lt, O. }
    rewrite B. reflexivity.
  - intros [In1 In2]. unfold on_move.
    change 0%Z with (Z.of_nat 0). rewrite (getitem_nth ts 0 0%Q Lpos).
    rewrite (getitem_last_nth ts 0%Q Nts). cbn [bind].
    fold t_first t_last.
    assert (B : Qltb x t_first || Qltb t_last x = false).
    { apply orb_false_iff. split; apply Qltb_ge; assumption. }
    rewrite B.
    destruct (nearest_index_total x ts) as (i & Ei & Hi). specialize (Hi Nts).
    rewrite Ei. cbn [bind].
    rewrite (getitem_nth ts i 0%Q Hi). cbn [bind].
    assert (R : (0 <= Z.of_nat i < Z.of_nat (List.length ts))%Z) by lia.
    assert (X : forall series,
               Forall (fun p : string * list cell =>
                         List.length (snd p) = List.length t
                         /\ forallb is_float (snd p) = true) series ->
               exists l, series_labels (Z.of_nat i) series = Ok l
                         /\ List.length l = List.length series).
    { intros series Hs. apply series_labels_ok.
      intros name y Hin. rewrite Forall_forall in Hs.
      destruct (Hs (name, y) Hin) as [Ly _]. simpl in Ly.
      rewrite Ly, <- Lts. exact R. }
    destruct (X (combine (map (fun p => fst (fst p)) PLOTS) (y_series st)))
      as (l1 & E1 & L1).
    { apply Forall_forall. intros [name y] Hin. simpl.
      apply in_combine_r in Hin. rewrite Forall_forall in Hy.
      apply Hy, Hin. }
    rewrite E1. cbn [bind]. rewrite Hbi, Hpi.
    destruct (X _ Hb) as (l2 & E2 & L2). rewrite E2. cbn [bind].
    destruct (X _ Hp) as (l3 & E3 & L3). rewrite E3. cbn [bind].
    exists (Z.of_nat i), l1, l2, l3.
    split; [reflexivity|]. split; [reflexivity|]. split; [exact R|].
    split.
    + rewrite L1, length_combine, length_map, H6. reflexivity.
    + split; [rewrite L2, <- (length_map fst), Hbn; reflexivity|].
      split; [rewrite L3, <- (length_map fst), Hpn; reflexivity|].
      apply series_labels_content; [lia|exact E1].
Qed.

Lemma on_move_after_main_shows_witness :
  exists t st,
    main Decimal.parse_float complete_log = Ok (t, st)
    /\ on_move (time_axis t) st (Some 2%Q) Hidden = Ok Hidden.
Proof.
  destruct (main Decimal.parse_float complete_log) as [[t st]|e] eqn:E.
  - exists t, st. split; [reflexivity|].
    pose proof E as E'. vm_compute in E'. injection E' as Et _. subst t.
    destruct (on_move_after_main_shows Decimal.parse_float complete_log
                _ st 2%Q Hidden E) as (Hout & _).
    apply Hout. right. vm_compute. reflexivity.
  - vm_compute in E. discriminate E.
Defined.

(** ** The header row and the time label *)

(** X15. The marker test is a prefix test, the column test an equality:
    when the line found as header (in a file of plain text, with no blank
    line before it, no wider data line, and labels neither empty nor
    repeated) has no field that cleans to [timestamp], [read_jb4_csv]
    raises the [ValueError] that lists the cleaned labels of that
    line. *)
Theorem read_jb4_csv_marker_without_time_label
  (float_of_str : string -> option Q) (f : csv_file) (k : nat) :
  forallb plain_text (lines f) = true ->
  find_header_line f "timestamp" = Ok k ->
  Forall (fun l => is_blank_line l = false) (firstn k (lines f)) ->
  let header := nth k (lines f) "" in
  let body :=
    filter (fun l => negb (is_blank_line l)) (skipn (S k) (lines f)) in
  let labels := map clean_label (PyStr.split_comma header) in
  Forall (fun l => List.length (PyStr.split_comma l)
                   <= List.length (PyStr.split_comma header)) body ->
  kept_labels labels = true ->
  has_column labels "timestamp" = false ->
  read_jb4_csv float_of_str f
  = Raise (ValueError (timestamp_missing labels)).
Proof.
  intros _ Hk Hb header body labels Hw _ Hc.
  unfold read_jb4_csv. rewrite Hk. cbn [bind].
  rewrite (read_csv_after_marker f k Hk Hb Hw).
  cbn [bind columns rows]. fold header. fold labels. rewrite Hc. reflexivity.
Qed.

Lemma read_jb4_csv_marker_without_time_label_witness :
  read_jb4_csv Decimal.parse_float longer_marker_log
  = Raise (ValueError (timestamp_missing ["timestamps"; "RPM"])).
Proof.
  assert (P : forallb plain_text (lines longer_marker_log) = true)
    by reflexivity.
  assert (B : Forall (fun l => is_blank_line l = false)
                (firstn 1 (lines longer_marker_log))).
  { repeat constructor. }
  assert (W : Forall (fun l => List.length (PyStr.split_comma l)
                               <= List.length
                                    (PyStr.split_comma
                                       (nth 1 (lines longer_marker_log) "")))
                (filter (fun l => negb (is_blank_line l))
                   (skipn 2 (lines longer_marker_log)))).
  { repeat constructor. }
  exact (read_jb4_csv_marker_without_time_label
           Decimal.parse_float longer_marker_log 1 P eq_refl B W
           eq_refl eq_refl).
Defined.

Lemma lstrip_whitespace_app (ws s : string) :
  all_whitespace ws = true -> PyStr.lstrip (ws ++ s) = PyStr.lstrip s.
Proof.
  induction ws as [|c ws IH]; simpl; [reflexivity|].
  intro H. apply andb_true_iff in H. destruct H as [Hc Hw].
  rewrite Hc. apply IH, Hw.
Qed.

Lemma rstrip_whitespace (ws : string) :
  all_whitespace ws = true -> PyStr.rstrip ws = "".
Proof.
  induction ws as [|c ws IH]; simpl; [reflexivity|].
  intro H. apply andb_true_iff in H. destruct H as [Hc Hw].
  rewrite (IH Hw), Hc. reflexivity.
Qed.

Lemma rstrip_app_whitespace (s ws : string) :
  all_whitespace ws = true -> PyStr.rstrip (s ++ ws) = PyStr.rstrip s.
Proof.
  intro H. induction s as [|c s IH]; [apply rstrip_whitespace, H|].
  change (String c s ++ ws)%string with (String c (s ++ ws)).
  cbn [PyStr.rstrip]. rewrite IH. reflexivity.
Qed.

Lemma whitespace_no_comma (ws : string) :
  all_whitespace ws = true -> PyStr.has_char ","%char ws = false.
Proof.
  unfold PyStr.has_char.
  induction ws as [|c ws IH]; [reflexivity|].
  cbn [all_whitespace]. intro H. apply andb_true_iff in H.
  destruct H as [Hc Hw].
  cbn [PyStr.contains String.prefix]. rewrite (IH Hw), orb_false_r.
  destruct (ascii_dec ","%char c) as [<-|N]; [discriminate Hc|reflexivity].
Qed.

(** The first field of a line ends at the first comma. *)
Lemma split_comma_first_field (a r : string) :
  PyStr.has_char ","%char a = false ->
  PyStr.split_comma a = [a]
  /\ PyStr.split_comma (a ++ String ","%char r) = a :: PyStr.split_comma r.
Proof.
  unfold PyStr.has_char.
  induction a as [|c a IH]; intro H.
  - split; reflexivity.
  - cbn [PyStr.contains String.prefix] in H.
    apply orb_false_iff in H. destruct H as [Hc Ha].
    assert (E : Ascii.eqb c ","%char = false).
    { apply Ascii.eqb_neq. intros ->.
      destruct (ascii_dec ","%char ","%char) as [_|N]; [|congruence].
      destruct a; discriminate Hc. }
    destruct (IH Ha) as [I1 I2].
    change (String c a ++ String ","%char r)%string
      with (String c (a ++ String ","%char r)).
    cbn [PyStr.split_comma]. rewrite E, I1, I2. split; reflexivity.
Qed.

Lemma has_char_app (c : ascii) (a b : string) :
  PyStr.has_char c a = false -> PyStr.has_char c b = false ->
  PyStr.has_char c (a ++ b) = false.
Proof.
  unfold PyStr.has_char. intros Ha Hb.
  induction a as [|d a IH]; [exact Hb|].
  change (String d a ++ b)%string with (String d (a ++ b)).
  cbn [PyStr.contains String.prefix] in *.
  apply orb_false_iff in Ha. destruct Ha as [Hd Ha].
  rewrite (IH Ha), orb_false_r.
  destruct (ascii_dec c d) as [<-|N]; [|reflexivity].
  destruct a; discriminate Hd.
Qed.

(** X16. A header line whose first field is [timestamp] padded with
    whitespace on either side is found by [find_header_line]'s test, and
    its first label cleans to [timestamp]: the two tests agree on padded
    headers. *)
Theorem padded_time_label_accepted (ws1 ws2 rest : string) :
  all_whitespace ws1 = true ->
  all_whitespace ws2 = true ->
  let field := (ws1 ++ "timestamp" ++ ws2)%string in
  is_header_line "timestamp" field = true
  /\ is_header_line "timestamp" (field ++ String ","%char rest) = true
  /\ clean_label field = "timestamp"
  /\ index_of "timestamp" (map clean_label (PyStr.split_comma field)) = Some 0
  /\ index_of "timestamp"
       (map clean_label (PyStr.split_comma (field ++ String ","%char rest)))
     = Some 0.
Proof.
  intros H1 H2 field.
  assert (C : clean_label field = "timestamp").
  { unfold clean_label, PyStr.strip, field.
    rewrite (lstrip_whitespace_app ws1 _ H1).
    change (PyStr.lstrip ("timestamp" ++ ws2)) with ("timestamp" ++ ws2)%string.
    rewrite (rstrip_app_whitespace "timestamp" ws2 H2). reflexivity. }
  assert (N : PyStr.has_char ","%char field = false).
  { unfold field. apply has_char_app; [apply whitespace_no_comma, H1|].
    apply has_char_app; [reflexivity|apply whitespace_no_comma, H2]. }
  destruct (split_comma_first_field field rest N) as [S1 S2].
  assert (M : forall tail, is_header_line "timestamp" (field ++ tail) = true).
  { intro tail. unfold is_header_line, PyStr.startswith, field.
    rewrite append_assoc, (lstrip_whitespace_app ws1 _ H1), append_assoc.
    change (PyStr.lstrip ("timestamp" ++ ws2 ++ tail))
      with ("timestamp" ++ ws2 ++ tail)%string.
    apply prefix_app. }
  split; [rewrite <- (append_empty_r field); apply M|].
  split; [apply M|]. split; [exact C|].
  rewrite S1, S2. cbn [map index_of]. rewrite C. split; reflexivity.
Qed.

Lemma padded_time_label_accepted_witness :
  is_header_line "timestamp" "  timestamp ,RPM" = true
  /\ clean_label "  timestamp " = "timestamp".
Proof.
  destruct (padded_time_label_accepted "  " " " "RPM" eq_refl eq_refl)
    as (_ & M & C & _).
  split; [exact M|exact C].
Defined.
